(** * zpy: data model, backup and monorepo probe

    A shallow embedding of [modules/core/models.py],
    [modules/utils/file_utils.py] ([create_backup]) and
    [modules/utils/env_utils.py] ([is_monorepo]), followed by the
    properties of the specification that these functions decide.

    Conventions.
    - A Python [str] is a [string] (the text in UTF-8), a Python [int] is
      a [Z], [dict] is a [gmap] and [list] is a [list].
    - A function that may raise returns a [result]: [Ok v] or [Raise e].
    - File-system effects are explicit state passing over [filesystem]. *)

From stdpp Require Import gmap strings list fin_maps sorting.
From Stdlib Require Import ZArith Ascii String.

#[local] Set Warnings "-register-all,-clear-no-such-hyp".
#[local] Open Scope Z_scope.

(** ** Python values and exceptions *)

Module Py.

(** The values a [dict[str, object]] of the interchange format holds
    (floating-point numbers are left out: no field of the model has one). *)
Inductive PyVal : Type :=
  | VNone
  | VBool (b : bool)
  | VInt (z : Z)
  | VStr (s : string)
  | VList (l : list PyVal)
  | VDict (d : gmap string PyVal).

(** The exceptions of the modelled code.  [EnumValueError v cls] is the
    [ValueError] of a failed enumeration lookup ("<repr v> is not a valid
    <cls>").  [IllTyped k] is not a Python exception: it marks a mapping
    whose value under key [k] is not of the annotated type of the field.
    Python checks no annotation, and what the code does with such a value
    is outside this embedding. *)
Inductive exn : Type :=
  | KeyError (key : string)
  | ValueError (msg : string)
  | EnumValueError (v : PyVal) (cls : string)
  | TypeError
  | FileNotFoundError (msg : string)
  | OSError (msg : string)
  | IllTyped (key : string).

Inductive result (A : Type) : Type :=
  | Ok (a : A)
  | Raise (e : exn).
Arguments Ok {A} a.
Arguments Raise {A} e.

Definition bind {A B} (m : result A) (k : A → result B) : result B :=
  match m with
  | Ok a => k a
  | Raise e => Raise e
  end.

#[export] Instance result_ret : MRet result := @Ok.
#[export] Instance result_bind : MBind result := λ A B k m, bind m k.

Definition is_ok {A} (m : result A) : bool :=
  match m with Ok _ => true | Raise _ => false end.

(** [[f(x) for x in l]]: left to right, the first exception escapes. *)
Fixpoint comprehension {A B} (f : A → result B) (l : list A) : result (list B) :=
  match l with
  | [] => Ok []
  | x :: l' =>
      match f x with
      | Ok y =>
          match comprehension f l' with
          | Ok ys => Ok (y :: ys)
          | Raise e => Raise e
          end
      | Raise e => Raise e
      end
  end.

(** [data[key]] *)
Definition getitem (data : gmap string PyVal) (key : string) : result PyVal :=
  match data !! key with
  | Some v => Ok v
  | None => Raise (KeyError key)
  end.

(** [data.get(key, default)]; [data.get(key)] is [get data key VNone]. *)
Definition get (data : gmap string PyVal) (key : string) (default : PyVal) : PyVal :=
  match data !! key with
  | Some v => v
  | None => default
  end.

(** Subscripting an object with a string key: only a [dict] supports it. *)
Definition as_mapping (v : PyVal) : result (gmap string PyVal) :=
  match v with
  | VDict d => Ok d
  | _ => Raise TypeError
  end.

Fixpoint chars (s : string) : list PyVal :=
  match s with
  | EmptyString => []
  | String c s' => VStr (String c EmptyString) :: chars s'
  end.

(** [for x in v]: a list yields its items, a dict its keys, a string its
    characters; nothing else is iterable. *)
Definition iter (v : PyVal) : result (list PyVal) :=
  match v with
  | VList l => Ok l
  | VDict d => Ok (VStr <$> (map_to_list d).*1)
  | VStr s => Ok (chars s)
  | _ => Raise TypeError
  end.

(** [f(v)] for a function [f] that subscripts its argument with string
    keys, as every [from_dict] does. *)
Definition on_mapping {A} (f : gmap string PyVal → result A) (v : PyVal) : result A :=
  match as_mapping v with
  | Ok d => f d
  | Raise e => Raise e
  end.

(** Reading a value at the annotated type of the field [key].  A [bool] is
    not taken for an [int]. *)
Definition as_str (key : string) (v : PyVal) : result string :=
  match v with VStr s => Ok s | _ => Raise (IllTyped key) end.

Definition as_int (key : string) (v : PyVal) : result Z :=
  match v with VInt z => Ok z | _ => Raise (IllTyped key) end.

Definition as_bool (key : string) (v : PyVal) : result bool :=
  match v with VBool b => Ok b | _ => Raise (IllTyped key) end.

Definition as_opt_str (key : string) (v : PyVal) : result (option string) :=
  match v with
  | VNone => Ok None
  | VStr s => Ok (Some s)
  | _ => Raise (IllTyped key)
  end.

Definition as_dict (key : string) (v : PyVal) : result (gmap string PyVal) :=
  match v with VDict d => Ok d | _ => Raise (IllTyped key) end.

Definition int_of (v : PyVal) : option Z :=
  match v with VInt z => Some z | _ => None end.

Definition str_of (v : PyVal) : option string :=
  match v with VStr s => Some s | _ => None end.

Definition as_int_dict (key : string) (v : PyVal) : result (gmap string Z) :=
  match v with
  | VDict d =>
      if bool_decide (map_Forall (λ _ x, is_Some (int_of x)) d)
      then Ok (omap int_of d)
      else Raise (IllTyped key)
  | _ => Raise (IllTyped key)
  end.

Definition as_str_list (key : string) (v : PyVal) : result (list string) :=
  match v with
  | VList l =>
      match mapM str_of l with
      | Some ss => Ok ss
      | None => Raise (IllTyped key)
      end
  | _ => Raise (IllTyped key)
  end.

(** [not s] for a string. *)
Definition is_empty (s : string) : bool :=
  match s with EmptyString => true | String _ _ => false end.

End Py.
Import Py.

(** ** Timestamps

    [datetime.datetime] belongs to Python's standard library, not to the
    repository.  The embedding takes naive timestamps (no [tzinfo]), which
    is what [datetime.datetime.now()] returns, with the fields and the
    ranges of the class, [isoformat()] as the library documents it
    (YYYY-MM-DDTHH:MM:SS, followed by .ffffff when the microsecond is not
    zero) and [strftime] for the one format string the code uses.
    [fromisoformat] reads the texts of that shape; the library accepts
    further ISO 8601 spellings, which are left out. *)

Module Datetime.

Record datetime : Type := {
  year : Z;
  month : Z;
  day : Z;
  hour : Z;
  minute : Z;
  second : Z;
  microsecond : Z
}.

Definition is_leap (y : Z) : bool :=
  (y mod 4 =? 0) && (negb (y mod 100 =? 0) || (y mod 400 =? 0)).

Definition days_in_month (y m : Z) : Z :=
  if m =? 2 then (if is_leap y then 29 else 28)
  else if (m =? 4) || (m =? 6) || (m =? 9) || (m =? 11) then 30
  else 31.

(** The range checks of the [datetime] constructor. *)
Definition valid (t : datetime) : bool :=
  (1 <=? year t) && (year t <=? 9999) &&
  (1 <=? month t) && (month t <=? 12) &&
  (1 <=? day t) && (day t <=? days_in_month (year t) (month t)) &&
  (0 <=? hour t) && (hour t <? 24) &&
  (0 <=? minute t) && (minute t <? 60) &&
  (0 <=? second t) && (second t <? 60) &&
  (0 <=? microsecond t) && (microsecond t <? 1000000).

Definition digit (d : Z) : ascii := ascii_of_nat (48 + Z.to_nat d).

Definition digit_value (c : ascii) : option Z :=
  let n := Z.of_nat (nat_of_ascii c) in
  if (48 <=? n) && (n <=? 57) then Some (n - 48) else None.

(** ["%0wd" % n], for [0 <= n < 10^w]. *)
Fixpoint pad (w : nat) (n : Z) : string :=
  match w with
  | O => EmptyString
  | S w' => String (digit (n / 10 ^ Z.of_nat w')) (pad w' (n mod 10 ^ Z.of_nat w'))
  end.

(** Read exactly [w] decimal digits from the front of [s]. *)
Fixpoint take_digits (w : nat) (acc : Z) (s : string) : option (Z * string) :=
  match w with
  | O => Some (acc, s)
  | S w' =>
      match s with
      | EmptyString => None
      | String c s' =>
          match digit_value c with
          | Some d => take_digits w' (acc * 10 + d) s'
          | None => None
          end
      end
  end.

Definition expect (c : ascii) (s : string) : option string :=
  match s with
  | String c' s' => if Ascii.eqb c c' then Some s' else None
  | EmptyString => None
  end.

Definition isoformat (t : datetime) : string :=
  pad 4 (year t) +:+ "-" +:+ pad 2 (month t) +:+ "-" +:+ pad 2 (day t) +:+ "T" +:+
  pad 2 (hour t) +:+ ":" +:+ pad 2 (minute t) +:+ ":" +:+ pad 2 (second t) +:+
  (if microsecond t =? 0 then "" else "." +:+ pad 6 (microsecond t)).

(** [t.strftime("%Y%m%d_%H%M%S")] *)
Definition strftime_backup (t : datetime) : string :=
  pad 4 (year t) +:+ pad 2 (month t) +:+ pad 2 (day t) +:+ "_" +:+
  pad 2 (hour t) +:+ pad 2 (minute t) +:+ pad 2 (second t).

Definition parse_fraction (s : string) : option Z :=
  match s with
  | EmptyString => Some 0
  | String c s' =>
      if Ascii.eqb c "." then
        '(us, rest) ← take_digits 6 0 s';
        if is_empty rest then Some us else None
      else None
  end.

Definition parse (s : string) : option datetime :=
  '(y, s) ← take_digits 4 0 s;
  s ← expect "-" s;
  '(mo, s) ← take_digits 2 0 s;
  s ← expect "-" s;
  '(d, s) ← take_digits 2 0 s;
  s ← expect "T" s;
  '(h, s) ← take_digits 2 0 s;
  s ← expect ":" s;
  '(mi, s) ← take_digits 2 0 s;
  s ← expect ":" s;
  '(sec, s) ← take_digits 2 0 s;
  us ← parse_fraction s;
  Some {| year := y; month := mo; day := d; hour := h; minute := mi;
          second := sec; microsecond := us |}.

Definition fromisoformat (s : string) : result datetime :=
  match parse s with
  | Some t =>
      if valid t then Ok t
      else Raise (ValueError "Invalid isoformat string")
  | None => Raise (ValueError "Invalid isoformat string")
  end.

End Datetime.

(** ** modules/core/models.py *)

Module Severity.

Inductive t : Type := ERROR | WARNING | INFO.

(** [member.value] *)
Definition value (m : t) : string :=
  match m with
  | ERROR => "error"
  | WARNING => "warning"
  | INFO => "info"
  end.

Definition members : list t := [ERROR; WARNING; INFO].

(** [Severity(v)]: the member whose value is [v]. *)
Definition call (v : PyVal) : result t :=
  match v with
  | VStr s =>
      if String.eqb s "error" then Ok ERROR
      else if String.eqb s "warning" then Ok WARNING
      else if String.eqb s "info" then Ok INFO
      else Raise (EnumValueError v "Severity")
  | _ => Raise (EnumValueError v "Severity")
  end.

End Severity.

Module IssueCategory.

Inductive t : Type := TYPE_ERROR | STYLE_VIOLATION | IMPORT_ISSUE.

Definition value (m : t) : string :=
  match m with
  | TYPE_ERROR => "type-error"
  | STYLE_VIOLATION => "style-violation"
  | IMPORT_ISSUE => "import-issue"
  end.

Definition members : list t := [TYPE_ERROR; STYLE_VIOLATION; IMPORT_ISSUE].

(** [IssueCategory(v)] *)
Definition call (v : PyVal) : result t :=
  match v with
  | VStr s =>
      if String.eqb s "type-error" then Ok TYPE_ERROR
      else if String.eqb s "style-violation" then Ok STYLE_VIOLATION
      else if String.eqb s "import-issue" then Ok IMPORT_ISSUE
      else Raise (EnumValueError v "IssueCategory")
  | _ => Raise (EnumValueError v "IssueCategory")
  end.

End IssueCategory.

Module Issue.

Record t : Type := {
  file_path : string;
  line : Z;
  column : Z;
  severity : Severity.t;
  category : IssueCategory.t;
  code : string;
  message : string;
  suggestion : option string;
  source : string
}.

(** The defaults of the two trailing parameters. *)
Definition suggestion_default : option string := None.
Definition source_default : string := "".

Definition post_init (self : t) : result unit :=
  if line self <? 1 then Raise (ValueError "Line number must be >= 1")
  else if column self <? 1 then Raise (ValueError "Column number must be >= 1")
  else if is_empty (file_path self) then Raise (ValueError "file_path cannot be empty")
  else if is_empty (code self) then Raise (ValueError "code cannot be empty")
  else if is_empty (message self) then Raise (ValueError "message cannot be empty")
  else if negb (String.eqb (source self) "pyright" || String.eqb (source self) "ruff")
       then Raise (ValueError "source must be 'pyright' or 'ruff'")
  else Ok tt.

(** [Issue(...)]: the generated [__init__] stores the arguments and then
    runs [__post_init__]. *)
Definition new (file_path : string) (line column : Z) (severity : Severity.t)
    (category : IssueCategory.t) (code message : string)
    (suggestion : option string) (source : string) : result t :=
  let self := {| file_path := file_path; line := line; column := column;
                 severity := severity; category := category; code := code;
                 message := message; suggestion := suggestion;
                 source := source |} in
  _ ← post_init self; Ok self.

Definition of_opt_str (o : option string) : PyVal :=
  match o with
  | Some s => VStr s
  | None => VNone
  end.

Definition to_dict (self : t) : gmap string PyVal :=
  list_to_map [
    ("file_path", VStr (file_path self));
    ("line", VInt (line self));
    ("column", VInt (column self));
    ("severity", VStr (Severity.value (severity self)));
    ("category", VStr (IssueCategory.value (category self)));
    ("code", VStr (code self));
    ("message", VStr (message self));
    ("suggestion", of_opt_str (suggestion self));
    ("source", VStr (source self))
  ].

(** The keyword arguments are evaluated in the order written, so the first
    missing key or invalid enumeration value is the one reported; the
    values are then read at the types of the fields and handed to the
    constructor. *)
Definition from_dict (data : gmap string PyVal) : result t :=
  file_path ← getitem data "file_path";
  line ← getitem data "line";
  column ← getitem data "column";
  severity ← getitem data "severity" ≫= Severity.call;
  category ← getitem data "category" ≫= IssueCategory.call;
  code ← getitem data "code";
  message ← getitem data "message";
  let suggestion := get data "suggestion" VNone in
  let source := get data "source" (VStr source_default) in
  file_path ← as_str "file_path" file_path;
  line ← as_int "line" line;
  column ← as_int "column" column;
  code ← as_str "code" code;
  message ← as_str "message" message;
  suggestion ← as_opt_str "suggestion" suggestion;
  source ← as_str "source" source;
  new file_path line column severity category code message suggestion source.

(** The [__eq__] that [dataclass] generates: the tuples of the fields are
    compared, in declaration order. *)
Definition severity_eqb (a b : Severity.t) : bool :=
  String.eqb (Severity.value a) (Severity.value b).
Definition category_eqb (a b : IssueCategory.t) : bool :=
  String.eqb (IssueCategory.value a) (IssueCategory.value b).
Definition opt_str_eqb (a b : option string) : bool :=
  match a, b with
  | Some x, Some y => String.eqb x y
  | None, None => true
  | _, _ => false
  end.

Definition eq (a b : t) : bool :=
  String.eqb (file_path a) (file_path b) &&
  (line a =? line b) &&
  (column a =? column b) &&
  severity_eqb (severity a) (severity b) &&
  category_eqb (category a) (category b) &&
  String.eqb (code a) (code b) &&
  String.eqb (message a) (message b) &&
  opt_str_eqb (suggestion a) (suggestion b) &&
  String.eqb (source a) (source b).

(** Attribute assignment.  The class is declared with a plain
    [@dataclasses.dataclass] (no [frozen=True]), so [self.name = value]
    stores the value; [__post_init__] is not run again. *)
Inductive assignment : Type :=
  | set_file_path (v : string)
  | set_line (v : Z)
  | set_column (v : Z)
  | set_severity (v : Severity.t)
  | set_category (v : IssueCategory.t)
  | set_code (v : string)
  | set_message (v : string)
  | set_suggestion (v : option string)
  | set_source (v : string).

Definition setattr (self : t) (a : assignment) : t :=
  match a with
  | set_file_path v =>
      {| file_path := v; line := line self; column := column self;
         severity := severity self; category := category self; code := code self;
         message := message self; suggestion := suggestion self; source := source self |}
  | set_line v =>
      {| file_path := file_path self; line := v; column := column self;
         severity := severity self; category := category self; code := code self;
         message := message self; suggestion := suggestion self; source := source self |}
  | set_column v =>
      {| file_path := file_path self; line := line self; column := v;
         severity := severity self; category := category self; code := code self;
         message := message self; suggestion := suggestion self; source := source self |}
  | set_severity v =>
      {| file_path := file_path self; line := line self; column := column self;
         severity := v; category := category self; code := code self;
         message := message self; suggestion := suggestion self; source := source self |}
  | set_category v =>
      {| file_path := file_path self; line := line self; column := column self;
         severity := severity self; category := v; code := code self;
         message := message self; suggestion := suggestion self; source := source self |}
  | set_code v =>
      {| file_path := file_path self; line := line self; column := column self;
         severity := severity self; category := category self; code := v;
         message := message self; suggestion := suggestion self; source := source self |}
  | set_message v =>
      {| file_path := file_path self; line := line self; column := column self;
         severity := severity self; category := category self; code := code self;
         message := v; suggestion := suggestion self; source := source self |}
  | set_suggestion v =>
      {| file_path := file_path self; line := line self; column := column self;
         severity := severity self; category := category self; code := code self;
         message := message self; suggestion := v; source := source self |}
  | set_source v =>
      {| file_path := file_path self; line := line self; column := column self;
         severity := severity self; category := category self; code := code self;
         message := message self; suggestion := suggestion self; source := v |}
  end.

(** Python holds objects by reference.  A store maps the location of every
    constructed Issue to its current fields: [construct] is the constructor
    call that binds a new object, [assign] is [obj.name = value] on the
    object at a location. *)
Abbreviation store := (gmap nat t).

Definition construct (h : store) (file_path : string) (line column : Z)
    (severity : Severity.t) (category : IssueCategory.t) (code message : string)
    (suggestion : option string) (source : string) : result (nat * store) :=
  self ← new file_path line column severity category code message suggestion source;
  let l := fresh (dom h) in
  Ok (l, <[l := self]> h).

Definition assign (h : store) (l : nat) (a : assignment) : store :=
  alter (λ self, setattr self a) l h.

End Issue.

Module Fix.

Record t : Type := {
  file_path : string;
  original_code : string;
  fixed_code : string;
  issue : Issue.t;
  explanation : string;
  safe : bool
}.

Definition safe_default : bool := true.

Definition post_init (self : t) : result unit :=
  if is_empty (file_path self) then Raise (ValueError "file_path cannot be empty")
  else if is_empty (explanation self) then Raise (ValueError "explanation cannot be empty")
  else if String.eqb (original_code self) (fixed_code self)
       then Raise (ValueError "original_code and fixed_code cannot be identical")
  else Ok tt.

Definition new (file_path original_code fixed_code : string) (issue : Issue.t)
    (explanation : string) (safe : bool) : result t :=
  let self := {| file_path := file_path; original_code := original_code;
                 fixed_code := fixed_code; issue := issue;
                 explanation := explanation; safe := safe |} in
  _ ← post_init self; Ok self.

Definition to_dict (self : t) : gmap string PyVal :=
  list_to_map [
    ("file_path", VStr (file_path self));
    ("original_code", VStr (original_code self));
    ("fixed_code", VStr (fixed_code self));
    ("issue", VDict (Issue.to_dict (issue self)));
    ("explanation", VStr (explanation self));
    ("safe", VBool (safe self))
  ].

Definition from_dict (data : gmap string PyVal) : result t :=
  file_path ← getitem data "file_path";
  original_code ← getitem data "original_code";
  fixed_code ← getitem data "fixed_code";
  issue ← getitem data "issue" ≫= on_mapping Issue.from_dict;
  explanation ← getitem data "explanation";
  let safe := get data "safe" (VBool safe_default) in
  file_path ← as_str "file_path" file_path;
  original_code ← as_str "original_code" original_code;
  fixed_code ← as_str "fixed_code" fixed_code;
  explanation ← as_str "explanation" explanation;
  safe ← as_bool "safe" safe;
  new file_path original_code fixed_code issue explanation safe.

End Fix.

Module ReportSummary.

Record t : Type := {
  total_issues : Z;
  errors : Z;
  warnings : Z;
  infos : Z;
  by_category : gmap string Z;
  by_file : gmap string Z
}.

(** [dataclasses.field(default_factory=dict)] *)
Definition by_category_default : gmap string Z := ∅.
Definition by_file_default : gmap string Z := ∅.

Definition post_init (self : t) : result unit :=
  if total_issues self <? 0 then Raise (ValueError "total_issues cannot be negative")
  else if errors self <? 0 then Raise (ValueError "errors cannot be negative")
  else if warnings self <? 0 then Raise (ValueError "warnings cannot be negative")
  else if infos self <? 0 then Raise (ValueError "infos cannot be negative")
  else if negb (errors self + warnings self + infos self =? total_issues self)
       then Raise (ValueError "Sum of errors, warnings, and infos must equal total_issues")
  else Ok tt.

Definition new (total_issues errors warnings infos : Z)
    (by_category by_file : gmap string Z) : result t :=
  let self := {| total_issues := total_issues; errors := errors;
                 warnings := warnings; infos := infos;
                 by_category := by_category; by_file := by_file |} in
  _ ← post_init self; Ok self.

Definition of_int_dict (m : gmap string Z) : PyVal := VDict (VInt <$> m).

Definition to_dict (self : t) : gmap string PyVal :=
  list_to_map [
    ("total_issues", VInt (total_issues self));
    ("errors", VInt (errors self));
    ("warnings", VInt (warnings self));
    ("infos", VInt (infos self));
    ("by_category", of_int_dict (by_category self));
    ("by_file", of_int_dict (by_file self))
  ].

Definition from_dict (data : gmap string PyVal) : result t :=
  total_issues ← getitem data "total_issues";
  errors ← getitem data "errors";
  warnings ← getitem data "warnings";
  infos ← getitem data "infos";
  let by_category := get data "by_category" (of_int_dict by_category_default) in
  let by_file := get data "by_file" (of_int_dict by_file_default) in
  total_issues ← as_int "total_issues" total_issues;
  errors ← as_int "errors" errors;
  warnings ← as_int "warnings" warnings;
  infos ← as_int "infos" infos;
  by_category ← as_int_dict "by_category" by_category;
  by_file ← as_int_dict "by_file" by_file;
  new total_issues errors warnings infos by_category by_file.

End ReportSummary.

Module Report.

Record t : Type := {
  issues : list Issue.t;
  fixes : list Fix.t;
  summary : ReportSummary.t;
  timestamp : Datetime.datetime;
  project_path : string
}.

Definition post_init (self : t) : result unit :=
  if is_empty (project_path self) then Raise (ValueError "project_path cannot be empty")
  else Ok tt.

Definition new (issues : list Issue.t) (fixes : list Fix.t)
    (summary : ReportSummary.t) (timestamp : Datetime.datetime)
    (project_path : string) : result t :=
  let self := {| issues := issues; fixes := fixes; summary := summary;
                 timestamp := timestamp; project_path := project_path |} in
  _ ← post_init self; Ok self.

Definition to_dict (self : t) : gmap string PyVal :=
  list_to_map [
    ("issues", VList ((λ issue, VDict (Issue.to_dict issue)) <$> issues self));
    ("fixes", VList ((λ fix_, VDict (Fix.to_dict fix_)) <$> fixes self));
    ("summary", VDict (ReportSummary.to_dict (summary self)));
    ("timestamp", VStr (Datetime.isoformat (timestamp self)));
    ("project_path", VStr (project_path self))
  ].

(** [datetime.datetime.fromisoformat(v)]: the argument must be a [str]. *)
Definition fromisoformat (v : PyVal) : result Datetime.datetime :=
  match v with
  | VStr s => Datetime.fromisoformat s
  | _ => Raise TypeError
  end.

Definition from_dict (data : gmap string PyVal) : result t :=
  issues ← iter (get data "issues" (VList []))
             ≫= comprehension (on_mapping Issue.from_dict);
  fixes ← iter (get data "fixes" (VList []))
             ≫= comprehension (on_mapping Fix.from_dict);
  summary ← getitem data "summary" ≫= on_mapping ReportSummary.from_dict;
  timestamp ← getitem data "timestamp" ≫= fromisoformat;
  project_path ← getitem data "project_path";
  project_path ← as_str "project_path" project_path;
  new issues fixes summary timestamp project_path.

End Report.

Module Config.

Record t : Type := {
  project_path : string;
  pyright_config : gmap string PyVal;
  ruff_config : gmap string PyVal;
  exclusions : list string;
  google_style_guide : bool;
  auto_fix_enabled : bool;
  backup_enabled : bool;
  dry_run : bool
}.

Definition pyright_config_default : gmap string PyVal := ∅.
Definition ruff_config_default : gmap string PyVal := ∅.
Definition exclusions_default : list string := [].
Definition google_style_guide_default : bool := true.
Definition auto_fix_enabled_default : bool := true.
Definition backup_enabled_default : bool := true.
Definition dry_run_default : bool := false.

Definition post_init (self : t) : result unit :=
  if is_empty (project_path self) then Raise (ValueError "project_path cannot be empty")
  else Ok tt.

Definition new (project_path : string) (pyright_config ruff_config : gmap string PyVal)
    (exclusions : list string)
    (google_style_guide auto_fix_enabled backup_enabled dry_run : bool) : result t :=
  let self := {| project_path := project_path; pyright_config := pyright_config;
                 ruff_config := ruff_config; exclusions := exclusions;
                 google_style_guide := google_style_guide;
                 auto_fix_enabled := auto_fix_enabled;
                 backup_enabled := backup_enabled; dry_run := dry_run |} in
  _ ← post_init self; Ok self.

Definition of_str_list (l : list string) : PyVal := VList (VStr <$> l).

Definition to_dict (self : t) : gmap string PyVal :=
  list_to_map [
    ("project_path", VStr (project_path self));
    ("pyright_config", VDict (pyright_config self));
    ("ruff_config", VDict (ruff_config self));
    ("exclusions", of_str_list (exclusions self));
    ("google_style_guide", VBool (google_style_guide self));
    ("auto_fix_enabled", VBool (auto_fix_enabled self));
    ("backup_enabled", VBool (backup_enabled self));
    ("dry_run", VBool (dry_run self))
  ].

Definition from_dict (data : gmap string PyVal) : result t :=
  project_path ← getitem data "project_path";
  let pyright_config := get data "pyright_config" (VDict pyright_config_default) in
  let ruff_config := get data "ruff_config" (VDict ruff_config_default) in
  let exclusions := get data "exclusions" (of_str_list exclusions_default) in
  let google_style_guide := get data "google_style_guide" (VBool google_style_guide_default) in
  let auto_fix_enabled := get data "auto_fix_enabled" (VBool auto_fix_enabled_default) in
  let backup_enabled := get data "backup_enabled" (VBool backup_enabled_default) in
  let dry_run := get data "dry_run" (VBool dry_run_default) in
  project_path ← as_str "project_path" project_path;
  pyright_config ← as_dict "pyright_config" pyright_config;
  ruff_config ← as_dict "ruff_config" ruff_config;
  exclusions ← as_str_list "exclusions" exclusions;
  google_style_guide ← as_bool "google_style_guide" google_style_guide;
  auto_fix_enabled ← as_bool "auto_fix_enabled" auto_fix_enabled;
  backup_enabled ← as_bool "backup_enabled" backup_enabled;
  dry_run ← as_bool "dry_run" dry_run;
  new project_path pyright_config ruff_config exclusions
      google_style_guide auto_fix_enabled backup_enabled dry_run.

End Config.

(** ** Python string methods

    The methods of [str] that the utilities use, on the UTF-8 text of the
    string.  White space is what [str.isspace] accepts: the ASCII controls
    9 to 13 and 28 to 31, the space, and U+0085, U+00A0, U+1680, U+2000 to
    U+200A, U+2028, U+2029, U+202F, U+205F and U+3000, each in its UTF-8
    encoding of two or three bytes. *)

Module Str.

Definition byte (c : ascii) : N := N_of_ascii c.

Definition is_space1 (a : ascii) : bool :=
  ((9 <=? byte a) && (byte a <=? 13) || (28 <=? byte a) && (byte a <=? 32))%N.

Definition is_space2 (a b : ascii) : bool :=
  ((byte a =? 194) && ((byte b =? 133) || (byte b =? 160)))%N.

Definition is_space3 (a b c : ascii) : bool :=
  ((byte a =? 225) && (byte b =? 154) && (byte c =? 128)
   || (byte a =? 226) && (byte b =? 128)
      && ((128 <=? byte c) && (byte c <=? 138)
          || (byte c =? 168) || (byte c =? 169) || (byte c =? 175))
   || (byte a =? 226) && (byte b =? 129) && (byte c =? 159)
   || (byte a =? 227) && (byte b =? 128) && (byte c =? 128))%N.

(** Drop from the front every character that one of the three tests
    accepts (on its one, two or three bytes). *)
Fixpoint lstrip_with (sp1 : ascii → bool) (sp2 : ascii → ascii → bool)
    (sp3 : ascii → ascii → ascii → bool) (s : string) : string :=
  match s with
  | String a r1 =>
      if sp1 a then lstrip_with sp1 sp2 sp3 r1
      else
        match r1 with
        | String b r2 =>
            if sp2 a b then lstrip_with sp1 sp2 sp3 r2
            else
              match r2 with
              | String c r3 =>
                  if sp3 a b c then lstrip_with sp1 sp2 sp3 r3 else s
              | EmptyString => s
              end
        | EmptyString => s
        end
  | EmptyString => s
  end.

(** [s.lstrip()] *)
Definition lstrip (s : string) : string :=
  lstrip_with is_space1 is_space2 is_space3 s.

(** [s.rstrip()]: the same from the end, where the bytes of a character
    come in reverse. *)
Definition rstrip (s : string) : string :=
  String.rev
    (lstrip_with is_space1 (λ b a, is_space2 a b) (λ c b a, is_space3 a b c)
       (String.rev s)).

(** [s.strip()] *)
Definition strip (s : string) : string := lstrip (rstrip s).

Fixpoint lstrip_char (c : ascii) (s : string) : string :=
  match s with
  | String a r => if Ascii.eqb a c then lstrip_char c r else s
  | EmptyString => s
  end.

(** [s.strip(c)] for a single ASCII character [c]. *)
Definition strip_char (c : ascii) (s : string) : string :=
  lstrip_char c (String.rev (lstrip_char c (String.rev s))).

(** [s.split(sep)] for a separator of one character. *)
Fixpoint split (sep : ascii) (s : string) : list string :=
  match s with
  | EmptyString => [EmptyString]
  | String a r =>
      if Ascii.eqb a sep then EmptyString :: split sep r
      else
        match split sep r with
        | x :: xs => String a x :: xs
        | [] => [String a EmptyString]
        end
  end.

(** [s.split(sep, 1)]: at most one cut, at the first separator. *)
Fixpoint split_once (sep : ascii) (s : string) : list string :=
  match s with
  | EmptyString => [EmptyString]
  | String a r =>
      if Ascii.eqb a sep then [EmptyString; r]
      else
        match split_once sep r with
        | x :: xs => String a x :: xs
        | [] => [String a EmptyString]
        end
  end.

(** [s.startswith(pre)] *)
Definition startswith (pre s : string) : bool := String.prefix pre s.

(** [s[:n]] *)
Definition take (n : nat) (s : string) : string := substring 0 n s.

End Str.

(** ** Paths and the file system

    A path is taken in the form [pathlib.Path] parses it to: the list of
    its components, outermost first.  The file system maps the paths that
    exist to what they name.  Every entry of a real file system lies in a
    directory; permissions and symbolic links are not modelled. *)

Module Pathlib.

Abbreviation path := (list string).

(** [p.name]: the last component, or the empty string. *)
Definition name (p : path) : string := List.last p EmptyString.

(** [p.parent] *)
Definition parent (p : path) : path := removelast p.

(** [p / s] for a single component [s]. *)
Definition joinpath (p : path) (s : string) : path := p ++ [s].

(** [s.rfind(c)] *)
Fixpoint rfind (c : ascii) (s : string) : option nat :=
  match s with
  | EmptyString => None
  | String a s' =>
      match rfind c s' with
      | Some i => Some (S i)
      | None => if Ascii.eqb a c then Some O else None
      end
  end.

(** The position at which the name splits into stem and suffix: the last
    dot, unless it is the first or the last character. *)
Definition split_point (n : string) : option nat :=
  match rfind "." n with
  | Some i => if (0 <? i)%nat && (i <? String.length n - 1)%nat then Some i else None
  | None => None
  end.

(** [p.suffix] *)
Definition suffix (p : path) : string :=
  let n := name p in
  match split_point n with
  | Some i => substring i (String.length n - i) n
  | None => EmptyString
  end.

(** [p.stem] *)
Definition stem (p : path) : string :=
  let n := name p in
  match split_point n with
  | Some i => substring 0 i n
  | None => n
  end.

(** [str(p)] *)
Definition str (p : path) : string := String.concat "/" p.

End Pathlib.
Import Pathlib.

Module Fs.

Inductive node : Type :=
  | File (content : list Byte.byte)
  | Dir.

Abbreviation filesystem := (gmap path node).

(** [p.exists()] *)
Definition exists_ (fs : filesystem) (p : path) : bool :=
  match fs !! p with Some _ => true | None => false end.

(** [p.is_file()] *)
Definition is_file (fs : filesystem) (p : path) : bool :=
  match fs !! p with Some (File _) => true | _ => false end.

(** [p.is_dir()] *)
Definition is_dir (fs : filesystem) (p : path) : bool :=
  match fs !! p with Some Dir => true | _ => false end.

(** [shutil.copy2(src, dst)] (standard library): the content of the file
    [src] is written to [dst], or to [dst / src.name] when [dst] is a
    directory; copying a file onto itself or onto a directory fails. *)
Definition copy2 (fs : filesystem) (src dst : path) : result filesystem :=
  match fs !! src with
  | Some (File content) =>
      let target := if is_dir fs dst then joinpath dst (name src) else dst in
      if bool_decide (target = src) then Raise (OSError "are the same file")
      else if is_dir fs target then Raise (OSError "Is a directory")
      else Ok (<[target := File content]> fs)
  | Some Dir => Raise (OSError "Is a directory")
  | None => Raise (FileNotFoundError "No such file or directory")
  end.

(** [root.rglob(pattern)] for a pattern without wildcards: the entries
    below [root], at any depth, whose name is [pattern]. *)
Definition rglob (fs : filesystem) (root : path) (pattern : string) : list path :=
  filter (λ p, root `prefix_of` p ∧ root ≠ p ∧ name p = pattern) (map_to_list fs).*1.

(** *** More of the standard library's file operations *)

(** The directories on the way to [p]: every prefix of [p], [p] included. *)
Definition ancestors_or_self (p : path) : list path :=
  (λ n, take n p) <$> seq 0 (S (List.length p)).

(** [d.mkdir(parents=True, exist_ok=True)] (pathlib): every missing
    directory on the way to [d] is created and the existing ones are left
    alone; the call fails ([FileExistsError] or [NotADirectoryError], both
    [OSError]) when [d] or one of its ancestors is a regular file. *)
Definition mkdir_parents (fs : filesystem) (d : path) : result filesystem :=
  if existsb (is_file fs) (ancestors_or_self d)
  then Raise (OSError "Not a directory")
  else Ok (foldl (λ acc q, <[q := Dir]> acc) fs (ancestors_or_self d)).

Definition code (c : ascii) : N := N_of_ascii c.

Definition between (lo hi : N) (c : ascii) : bool :=
  ((lo <=? code c) && (code c <=? hi))%N.

(** Well-formed UTF-8 (the Unicode standard, table 3-7), which is what the
    strict "utf-8" codec of Python accepts. *)
Fixpoint utf8_valid (s : string) : bool :=
  match s with
  | EmptyString => true
  | String a r1 =>
      if between 0 127 a then utf8_valid r1
      else
        match r1 with
        | EmptyString => false
        | String b r2 =>
            if between 194 223 a then between 128 191 b && utf8_valid r2
            else
              match r2 with
              | EmptyString => false
              | String c r3 =>
                  if between 224 239 a then
                    (if between 224 224 a then between 160 191 b
                     else if between 237 237 a then between 128 159 b
                     else between 128 191 b)
                    && between 128 191 c && utf8_valid r3
                  else
                    match r3 with
                    | EmptyString => false
                    | String d r4 =>
                        if between 240 244 a then
                          (if between 240 240 a then between 144 191 b
                           else if between 244 244 a then between 128 143 b
                           else between 128 191 b)
                          && between 128 191 c && between 128 191 d
                          && utf8_valid r4
                        else false
                    end
              end
        end
  end.

(** Reading in text mode with the default [newline=None]: a carriage
    return, alone or followed by a line feed, is read as one line feed. *)
Fixpoint universal_newlines (s : string) : string :=
  match s with
  | EmptyString => EmptyString
  | String a r =>
      if Ascii.eqb a "013" then
        String "010"
          match r with
          | String b r' =>
              if Ascii.eqb b "010" then universal_newlines r' else universal_newlines r
          | EmptyString => EmptyString
          end
      else String a (universal_newlines r)
  end.

(** Decoding the bytes of a file opened with [encoding="utf-8"].  Bytes
    that are not UTF-8 raise [UnicodeDecodeError], a [ValueError]; its
    message is given here without the offending byte and position. *)
Definition decode (content : list Byte.byte) : result string :=
  let text := string_of_list_byte content in
  if utf8_valid text then Ok (universal_newlines text)
  else Raise (ValueError "'utf-8' codec can't decode bytes").

(** [p.read_text(encoding="utf-8")], also [open(p, "r", encoding="utf-8")]
    followed by [read()]. *)
Definition read_text (fs : filesystem) (p : path) : result string :=
  match fs !! p with
  | Some (File content) => decode content
  | Some Dir => Raise (OSError "Is a directory")
  | None => Raise (FileNotFoundError "No such file or directory")
  end.

(** [p.write_text(data, encoding="utf-8")] on a system whose line separator
    is the line feed: the text is written as it is. *)
Definition write_text (fs : filesystem) (p : path) (data : string) : result filesystem :=
  if is_dir fs p then Raise (OSError "Is a directory")
  else
    match fs !! parent p with
    | Some Dir => Ok (<[p := File (list_byte_of_string data)]> fs)
    | Some (File _) => Raise (OSError "Not a directory")
    | None => Raise (FileNotFoundError "No such file or directory")
    end.

(** [p.unlink()]; on a directory Linux answers [IsADirectoryError]. *)
Definition unlink (fs : filesystem) (p : path) : result filesystem :=
  match fs !! p with
  | Some (File _) => Ok (delete p fs)
  | Some Dir => Raise (OSError "Is a directory")
  | None => Raise (FileNotFoundError "No such file or directory")
  end.

(** [s.endswith(suf)] *)
Fixpoint endswith (suf s : string) : bool :=
  String.eqb suf s ||
  match s with
  | EmptyString => false
  | String _ s' => endswith suf s'
  end.

(** [root.rglob("*" + suf)]: the entries below [root], at any depth, whose
    name ends with [suf].  The star of pathlib matches the empty string and
    does not skip names that begin with a dot. *)
Definition rglob_suffix (fs : filesystem) (root : path) (suf : string) : list path :=
  filter (λ p, root `prefix_of` p ∧ root ≠ p ∧ endswith suf (name p) = true)
         (map_to_list fs).*1.

(** [except OSError]: the exceptions of the [OSError] family. *)
Definition is_os_error (e : exn) : bool :=
  match e with
  | OSError _ | FileNotFoundError _ => true
  | _ => false
  end.

End Fs.
Import Fs.

(** ** modules/utils/file_utils.py *)

Module FileUtils.

(** The name of the backup of [file_path] taken at [now]. *)
Definition backup_name (now : Datetime.datetime) (file_path : path) : string :=
  stem file_path +:+ ".backup_" +:+ Datetime.strftime_backup now +:+ suffix file_path.

Definition backup_path (now : Datetime.datetime) (file_path : path) : path :=
  joinpath (parent file_path) (backup_name now file_path).

(** [create_backup(file_path)], run on the file system [fs] when the clock
    reads [now]; it returns the backup's path and the file system it
    leaves.  A failed copy is raised again as [OSError]; its message is
    given here without the text of the original exception. *)
Definition create_backup (now : Datetime.datetime) (fs : filesystem) (file_path : path)
    : result (path * filesystem) :=
  if negb (exists_ fs file_path)
  then Raise (FileNotFoundError ("File not found: " +:+ str file_path))
  else if negb (is_file fs file_path)
  then Raise (ValueError ("Path is not a file: " +:+ str file_path))
  else
    let timestamp := Datetime.strftime_backup now in
    let backup_path :=
      joinpath (parent file_path)
        (stem file_path +:+ ".backup_" +:+ timestamp +:+ suffix file_path) in
    match copy2 fs file_path backup_path with
    | Ok fs' => Ok (backup_path, fs')
    | Raise _ => Raise (OSError ("Failed to create backup for " +:+ str file_path))
    end.

Definition read_file (fs : filesystem) (file_path : path) : result string :=
  if negb (exists_ fs file_path)
  then Raise (FileNotFoundError ("File not found: " +:+ str file_path))
  else if negb (is_file fs file_path)
  then Raise (ValueError ("Path is not a file: " +:+ str file_path))
  else
    match read_text fs file_path with
    | Ok text => Ok text
    | Raise e =>
        if is_os_error e then Raise (OSError ("Failed to read " +:+ str file_path))
        else Raise e
    end.

(** [write_file(file_path, content)]; it returns the file system it
    leaves. *)
Definition write_file (fs : filesystem) (file_path : path) (content : string)
    : result filesystem :=
  fs ← mkdir_parents fs (parent file_path);
  match write_text fs file_path content with
  | Ok fs' => Ok fs'
  | Raise e =>
      if is_os_error e then Raise (OSError ("Failed to write to " +:+ str file_path))
      else Raise e
  end.

Definition file_exists (fs : filesystem) (file_path : path) : bool :=
  is_file fs file_path.

Definition is_python_file (file_path : path) : bool :=
  String.eqb (suffix file_path) ".py".

(** [NotADirectoryError] is an [OSError]. *)
Definition find_python_files (fs : filesystem) (directory : path) : result (list string) :=
  if negb (is_dir fs directory)
  then Raise (OSError ("Path is not a directory: " +:+ str directory))
  else Ok (str <$> rglob_suffix fs directory ".py").

Definition delete_file (fs : filesystem) (file_path : path) : result filesystem :=
  if negb (exists_ fs file_path)
  then Raise (FileNotFoundError ("File not found: " +:+ str file_path))
  else
    match unlink fs file_path with
    | Ok fs' => Ok fs'
    | Raise e =>
        if is_os_error e then Raise (OSError ("Failed to delete " +:+ str file_path))
        else Raise e
    end.

End FileUtils.

(** ** modules/utils/env_utils.py *)

Module EnvUtils.

Definition is_monorepo (fs : filesystem) (project_path : path) : bool :=
  if negb (is_dir fs project_path) then false
  else
    let pyproject_count :=
      foldl (λ count item,
               if bool_decide (parent item ≠ project_path) then count + 1 else count)
            0 (rglob fs project_path "pyproject.toml") in
    0 <? pyproject_count.

(** The path is returned in parsed form; [str] gives its text. *)
Definition get_uv_lock_path (fs : filesystem) (project_path : path) : option path :=
  let lock_file := joinpath project_path "uv.lock" in
  if exists_ fs lock_file then Some lock_file else None.

Definition get_pyproject_toml_path (fs : filesystem) (project_path : path) : option path :=
  let pyproject_file := joinpath project_path "pyproject.toml" in
  if exists_ fs pyproject_file then Some pyproject_file else None.

Definition is_uv_project (fs : filesystem) (project_path : path) : bool :=
  bool_decide (get_uv_lock_path fs project_path ≠ None)
  || bool_decide (get_pyproject_toml_path fs project_path ≠ None).

(** The body of the loop of [get_project_dependencies] for one line: the
    package name that the line declares, if it declares one.  The line
    passes the test only if it begins with "name = ", so the split at the
    first "=" has a second part and the index 1 is never out of range (the
    empty default of [nth] is not taken). *)
Definition dependency_name (line : string) : option string :=
  let line := Str.strip line in
  if Str.startswith "name = " line
  then Some (Str.strip_char "034" (Str.strip (nth 1 (Str.split_once "=" line) EmptyString)))
  else None.

(** The loop over the lines of the lock file. *)
Definition parse_lock (content : string) : gmap string string :=
  foldl (λ dependencies line,
           match dependency_name line with
           | Some name => <[name := EmptyString]> dependencies
           | None => dependencies
           end)
        ∅ (Str.split "010" content).

(** The text of the lock path is never empty, so [not lock_path] tests for
    [None].  Every exception of [read_text] is an [OSError] or a
    [ValueError], so the handler catches it; the message of the
    [ValueError] raised instead is given without the text of the original
    exception. *)
Definition get_project_dependencies (fs : filesystem) (project_path : path)
    : result (gmap string string) :=
  match get_uv_lock_path fs project_path with
  | None => Raise (FileNotFoundError ("uv.lock not found in " +:+ str project_path))
  | Some lock_path =>
      match read_text fs lock_path with
      | Ok content => Ok (parse_lock content)
      | Raise _ => Raise (ValueError "Failed to parse uv.lock")
      end
  end.

(** [sorted] on strings: Python compares code points, which on UTF-8 text
    is the order of the bytes. *)
Definition get_monorepo_packages (fs : filesystem) (project_path : path)
    : result (list string) :=
  if negb (is_monorepo fs project_path)
  then Raise (ValueError ("Project at " +:+ str project_path +:+ " is not a monorepo"))
  else
    let packages :=
      foldl (λ packages pyproject,
               if bool_decide (parent pyproject ≠ project_path)
               then packages ++ [str (parent pyproject)]
               else packages)
            [] (rglob fs project_path "pyproject.toml") in
    Ok (merge_sort String.le packages).

End EnvUtils.

(** ** modules/utils/git_utils.py

    The external program is an oracle: what running a command line with a
    timeout does.  [subprocess.run] is called with [capture_output=True]
    and [text=True]; the oracle gives the output as decoded text, so a
    program whose output is not text in the locale's encoding is outside
    the model, and so is a program file that exists but cannot be started. *)

Module GitUtils.

Inductive completion : Type :=
  | Completed (returncode : Z) (stdout stderr : string)
  | NotFound
  | Timeout.

Abbreviation executor := (list string → Z → completion).

(** The exceptions of this module: those of the standard kind, and the two
    of [subprocess]. *)
Inductive failure : Type :=
  | Std (e : exn)
  | CalledProcessError (returncode : Z) (cmd : list string) (output stderr : string)
  | TimeoutExpired (cmd : list string) (timeout : Z).

Inductive outcome (A : Type) : Type :=
  | Returns (a : A)
  | Raises (e : failure).
Arguments Returns {A} a.
Arguments Raises {A} e.

(** [subprocess.run(cmd, capture_output=True, check=True, timeout=t,
    text=True)] followed by [.stdout].  The message of the
    [FileNotFoundError] is given without the error number and the name of
    the program. *)
Definition check_output (run : executor) (cmd : list string) (timeout : Z) : outcome string :=
  match run cmd timeout with
  | Completed returncode stdout stderr =>
      if returncode =? 0 then Returns stdout
      else Raises (CalledProcessError returncode cmd stdout stderr)
  | NotFound => Raises (Std (FileNotFoundError "No such file or directory"))
  | Timeout => Raises (TimeoutExpired cmd timeout)
  end.

(** Here the call has no [text=True]: the output is bytes, and the function
    does not look at it. *)
Definition is_git_repository (run : executor) (directory : string) : bool :=
  match check_output run ["git"; "-C"; directory; "rev-parse"; "--git-dir"] 5 with
  | Returns _ => true
  | Raises _ => false
  end.

(** [[f for f in stdout.strip().split("\n") if f]] *)
Definition output_lines (stdout : string) : list string :=
  filter (λ f, f ≠ EmptyString) (Str.split "010" (Str.strip stdout)).

Definition not_a_repository {A} (directory : string) : outcome A :=
  Raises (Std (ValueError ("Directory is not a Git repository: " +:+ directory))).

(** The four listings have the same body up to the command: the two
    handlers raise the exception they caught again, with the same fields. *)
Definition get_changed_files (run : executor) (directory : string)
    (base_ref : option string) : outcome (list string) :=
  if negb (is_git_repository run directory) then not_a_repository directory
  else
    let base_ref := default "HEAD" base_ref in
    match check_output run ["git"; "-C"; directory; "diff"; "--name-only"; base_ref] 10 with
    | Returns stdout => Returns (output_lines stdout)
    | Raises e => Raises e
    end.

Definition get_staged_files (run : executor) (directory : string) : outcome (list string) :=
  if negb (is_git_repository run directory) then not_a_repository directory
  else
    match check_output run ["git"; "-C"; directory; "diff"; "--cached"; "--name-only"] 10 with
    | Returns stdout => Returns (output_lines stdout)
    | Raises e => Raises e
    end.

Definition get_unstaged_files (run : executor) (directory : string) : outcome (list string) :=
  if negb (is_git_repository run directory) then not_a_repository directory
  else
    match check_output run ["git"; "-C"; directory; "diff"; "--name-only"] 10 with
    | Returns stdout => Returns (output_lines stdout)
    | Raises e => Raises e
    end.

Definition get_untracked_files (run : executor) (directory : string) : outcome (list string) :=
  if negb (is_git_repository run directory) then not_a_repository directory
  else
    match check_output run
            ["git"; "-C"; directory; "ls-files"; "--others"; "--exclude-standard"] 10 with
    | Returns stdout => Returns (output_lines stdout)
    | Raises e => Raises e
    end.

Definition get_file_status (run : executor) (directory file_path : string)
    : outcome (option string) :=
  if negb (is_git_repository run directory) then not_a_repository directory
  else
    match check_output run ["git"; "-C"; directory; "status"; "--porcelain"; file_path] 10 with
    | Returns stdout =>
        let output := Str.strip stdout in
        if negb (is_empty output) then Returns (Some (Str.take 2 output))
        else Returns None
    | Raises e => Raises e
    end.

(** The three probes below catch the three exceptions of the call and
    answer [None]. *)
Definition get_repository_root (run : executor) (directory : string) : option string :=
  match check_output run ["git"; "-C"; directory; "rev-parse"; "--show-toplevel"] 5 with
  | Returns stdout => Some (Str.strip stdout)
  | Raises _ => None
  end.

Definition get_current_branch (run : executor) (directory : string) : option string :=
  match check_output run ["git"; "-C"; directory; "rev-parse"; "--abbrev-ref"; "HEAD"] 5 with
  | Returns stdout => Some (Str.strip stdout)
  | Raises _ => None
  end.

(** Here [subprocess.run] is called with [check=False] and the exit status
    is tested by hand. *)
Definition get_commit_hash (run : executor) (directory : string) (short : bool)
    : option string :=
  let args := ["git"; "-C"; directory; "rev-parse"; "HEAD"] in
  match run args 5 with
  | Completed returncode stdout _ =>
      if returncode =? 0 then
        let commit := Str.strip stdout in
        if short then Some (Str.take 7 commit) else Some commit
      else None
  | NotFound | Timeout => None
  end.

End GitUtils.

(** ** The invariants of the specification

    What section 3 of the specification states for each entity, in its own
    words; the properties below relate them to [__post_init__]. *)

Definition Issue_valid (i : Issue.t) : Prop :=
  1 <= Issue.line i ∧ 1 <= Issue.column i ∧
  Issue.file_path i ≠ "" ∧ Issue.code i ≠ "" ∧ Issue.message i ≠ "" ∧
  (Issue.source i = "pyright" ∨ Issue.source i = "ruff").

Definition Fix_valid (f : Fix.t) : Prop :=
  Fix.file_path f ≠ "" ∧ Fix.explanation f ≠ "" ∧
  Fix.original_code f ≠ Fix.fixed_code f ∧
  Issue_valid (Fix.issue f).

Definition ReportSummary_valid (s : ReportSummary.t) : Prop :=
  0 <= ReportSummary.total_issues s ∧ 0 <= ReportSummary.errors s ∧
  0 <= ReportSummary.warnings s ∧ 0 <= ReportSummary.infos s ∧
  ReportSummary.errors s + ReportSummary.warnings s + ReportSummary.infos s
    = ReportSummary.total_issues s.

Definition Report_valid (r : Report.t) : Prop :=
  Report.project_path r ≠ "" ∧
  Forall Issue_valid (Report.issues r) ∧
  Forall Fix_valid (Report.fixes r) ∧
  ReportSummary_valid (Report.summary r) ∧
  Datetime.valid (Report.timestamp r) = true.

Definition Config_valid (c : Config.t) : Prop :=
  Config.project_path c ≠ "".

(** The invariant of an Issue that a validation message names. *)
Inductive Issue_violation (i : Issue.t) : string → Prop :=
  | line_violated :
      Issue.line i < 1 → Issue_violation i "Line number must be >= 1"
  | column_violated :
      Issue.column i < 1 → Issue_violation i "Column number must be >= 1"
  | file_path_violated :
      Issue.file_path i = "" → Issue_violation i "file_path cannot be empty"
  | code_violated :
      Issue.code i = "" → Issue_violation i "code cannot be empty"
  | message_violated :
      Issue.message i = "" → Issue_violation i "message cannot be empty"
  | source_violated :
      Issue.source i ≠ "pyright" → Issue.source i ≠ "ruff" →
      Issue_violation i "source must be 'pyright' or 'ruff'".

(** [sub in s] *)
Fixpoint contains (sub s : string) : bool :=
  String.prefix sub s ||
  match s with
  | EmptyString => false
  | String _ s' => contains sub s'
  end.

(** An exception that reports a missing field or an invalid value. *)
Definition missing_or_invalid (e : exn) : Prop :=
  match e with
  | KeyError _ | ValueError _ | EnumValueError _ _ => True
  | _ => False
  end.








(** The attribute an assignment writes, and what it means for an Issue to
    hold the assigned value in that attribute. *)
Definition Issue_attr (a : Issue.assignment) : string :=
  match a with
  | Issue.set_file_path _ => "file_path"
  | Issue.set_line _ => "line"
  | Issue.set_column _ => "column"
  | Issue.set_severity _ => "severity"
  | Issue.set_category _ => "category"
  | Issue.set_code _ => "code"
  | Issue.set_message _ => "message"
  | Issue.set_suggestion _ => "suggestion"
  | Issue.set_source _ => "source"
  end.

Definition Issue_holds (i : Issue.t) (a : Issue.assignment) : Prop :=
  match a with
  | Issue.set_file_path v => Issue.file_path i = v
  | Issue.set_line v => Issue.line i = v
  | Issue.set_column v => Issue.column i = v
  | Issue.set_severity v => Issue.severity i = v
  | Issue.set_category v => Issue.category i = v
  | Issue.set_code v => Issue.code i = v
  | Issue.set_message v => Issue.message i = v
  | Issue.set_suggestion v => Issue.suggestion i = v
  | Issue.set_source v => Issue.source i = v
  end.

(** The field names of the three flat entities, the defaults of the keys
    that [from_dict] reads with [data.get], and what it means for a
    serialized mapping [out] to be the mapping [d] cut down to the field
    names, with the defaults filled in. *)
Definition Issue_fields : list string :=
  ["file_path"; "line"; "column"; "severity"; "category"; "code"; "message";
   "suggestion"; "source"].

Definition Issue_defaults : gmap string PyVal :=
  {[ "suggestion" := VNone; "source" := VStr Issue.source_default ]}.

Definition ReportSummary_fields : list string :=
  ["total_issues"; "errors"; "warnings"; "infos"; "by_category"; "by_file"].

Definition ReportSummary_defaults : gmap string PyVal :=
  {[ "by_category" := VDict ∅; "by_file" := VDict ∅ ]}.

Definition Config_fields : list string :=
  ["project_path"; "pyright_config"; "ruff_config"; "exclusions";
   "google_style_guide"; "auto_fix_enabled"; "backup_enabled"; "dry_run"].

Definition Config_defaults : gmap string PyVal :=
  {[ "pyright_config" := VDict ∅; "ruff_config" := VDict ∅;
     "exclusions" := VList [];
     "google_style_guide" := VBool true; "auto_fix_enabled" := VBool true;
     "backup_enabled" := VBool true; "dry_run" := VBool false ]}.

Definition normalized (fields : list string) (defaults d out : gmap string PyVal) : Prop :=
  ∀ k, out !! k = if bool_decide (k ∈ fields) then (d ∪ defaults) !! k else None.

(** ** Shapes of text

    Predicates on strings, for the statements about the text that the
    utilities read. *)

(** An ASCII character that is not white space. *)
Definition plain (a : ascii) : bool :=
  (Str.byte a <? 128)%N && negb (Str.is_space1 a).

(** A string of ASCII white space. *)
Fixpoint blank (s : string) : bool :=
  match s with
  | EmptyString => true
  | String a r => Str.is_space1 a && blank r
  end.

Definition first_char (s : string) : option ascii :=
  match s with
  | EmptyString => None
  | String a _ => Some a
  end.

Fixpoint last_char (s : string) : option ascii :=
  match s with
  | EmptyString => None
  | String a r =>
      match r with
      | EmptyString => Some a
      | String _ _ => last_char r
      end
  end.

(** A string that begins and ends with a plain character. *)
Definition trimmed (s : string) : bool :=
  from_option plain false (first_char s) && from_option plain false (last_char s).

Fixpoint has_char (c : ascii) (s : string) : bool :=
  match s with
  | EmptyString => false
  | String a r => Ascii.eqb a c || has_char c r
  end.

(** A name that a command prints on a line of its own. *)
Definition line_name (s : string) : bool :=
  trimmed s && negb (has_char "010" s).

(** The output of a command that prints each name on its line. *)
Definition printed (names : list string) : string :=
  foldr (λ n out, n +:+ String "010" out) EmptyString names.

(** The double quote. *)
Definition quote : ascii := "034".

(** ** Sample values

    The instances of the concrete scenarios of the specification and of the
    repository's tests. *)

Definition sample_issue : Issue.t :=
  Issue.Build_t "test.py" 10 5 Severity.ERROR IssueCategory.TYPE_ERROR
    "E501" "Line too long" (Some "Break the line") "ruff".

Definition sample_fix : Fix.t :=
  Fix.Build_t "test.py" "x = 1" "x = 1  # fixed" sample_issue "Added comment" true.

Definition sample_summary : ReportSummary.t :=
  ReportSummary.Build_t 1 1 0 0 {[ "type-error" := 1 ]} {[ "test.py" := 1 ]}.

Definition sample_timestamp : Datetime.datetime :=
  Datetime.Build_datetime 2024 2 29 23 59 7 120034.

Definition sample_report : Report.t :=
  Report.Build_t [sample_issue] [sample_fix] sample_summary sample_timestamp "/project".

Definition sample_config : Config.t :=
  Config.Build_t "/project" {[ "typeCheckingMode" := VStr "standard" ]}
    {[ "line-length" := VInt 100 ]} ["*.pyc"; "__pycache__"] true true true false.


(** A directory holding test.py, as the tests of [create_backup] set up. *)
Definition sample_fs : filesystem :=
  {[ [] := Dir; ["tmp"] := Dir;
     ["tmp"; "test.py"] := File (list_byte_of_string "original content") ]}.

(** A lock file with two packages, and a project that holds it. *)
Definition sample_lock : string :=
  printed [
    "version = 1";
    "[[package]]";
    "name = " +:+ String quote ("ruff" +:+ String quote EmptyString);
    "version = " +:+ String quote ("0.4.4" +:+ String quote EmptyString);
    "[[package]]";
    "  name = " +:+ String quote ("zpy" +:+ String quote " ")
  ].

Definition sample_project : filesystem :=
  {[ ["proj"] := Dir;
     ["proj"; "pyproject.toml"] := File [];
     ["proj"; "uv.lock"] := File (list_byte_of_string sample_lock) ]}.

(** A git that knows one repository, in the current directory. *)
Definition sample_git : GitUtils.executor :=
  λ cmd _,
    if decide (cmd = ["git"; "-C"; "."; "rev-parse"; "--git-dir"])
    then GitUtils.Completed 0 (printed [".git"]) EmptyString
    else if decide (cmd = ["git"; "-C"; "."; "rev-parse"; "HEAD"])
    then GitUtils.Completed 0 (printed ["0123456789abcdef0123456789abcdef01234567"]) EmptyString
    else if decide (cmd = ["git"; "-C"; "."; "status"; "--porcelain"; "a.py"])
    then GitUtils.Completed 0 (printed [" M a.py"]) EmptyString
    else if decide (cmd = ["git"; "-C"; "."; "diff"; "--cached"; "--name-only"])
    then GitUtils.Completed 0 (printed ["a.py"; "docs/read me.md"]) EmptyString
    else GitUtils.NotFound.

(** * Properties *)

(** Evaluate the lookups of a dictionary display. *)
Ltac eval_dict :=
  unfold getitem, get; cbn [list_to_map foldr uncurry fst snd];
  repeat (first [rewrite lookup_insert_eq | rewrite lookup_insert_ne by done];
          cbn [mbind result_bind bind]).

(** ** Timestamps: the text of [isoformat] is read back by [fromisoformat] *)

Section DatetimeFacts.
Import Datetime.

Lemma digit_value_digit (d : Z) :
  0 <= d < 10 → digit_value (digit d) = Some d.
Proof.
  intros Hd.
  assert (Hcases : d = 0 ∨ d = 1 ∨ d = 2 ∨ d = 3 ∨ d = 4 ∨
                   d = 5 ∨ d = 6 ∨ d = 7 ∨ d = 8 ∨ d = 9) by lia.
  repeat (destruct Hcases as [-> | Hcases]; [reflexivity |]).
  subst d. reflexivity.
Qed.

Lemma append_cons (c : ascii) (s r : string) :
  String c s +:+ r = String c (s +:+ r).
Proof. reflexivity. Qed.

Lemma append_nil (r : string) : "" +:+ r = r.
Proof. reflexivity. Qed.

Lemma append_empty (s : string) : s +:+ "" = s.
Proof. induction s as [| c s IH]; [done |]. by rewrite append_cons, IH. Qed.

Lemma pow10_pos (w : nat) : 0 < 10 ^ Z.of_nat w.
Proof. apply Z.pow_pos_nonneg; lia. Qed.

Lemma pow10_succ (w : nat) : 10 ^ Z.of_nat (S w) = 10 * 10 ^ Z.of_nat w.
Proof. rewrite Nat2Z.inj_succ, Z.pow_succ_r; lia. Qed.

Lemma take_digits_pad (w : nat) :
  ∀ (n acc : Z) (rest : string),
    0 <= n < 10 ^ Z.of_nat w →
    take_digits w acc (pad w n +:+ rest) = Some (acc * 10 ^ Z.of_nat w + n, rest).
Proof.
  induction w as [| w IH]; intros n acc rest Hn.
  - cbn [pad take_digits]. rewrite append_nil. f_equal. f_equal.
    change (10 ^ Z.of_nat 0) with 1 in *. lia.
  - cbn [pad take_digits]. rewrite append_cons.
    pose proof (pow10_pos w) as Hpos.
    rewrite pow10_succ in Hn.
    assert (Hq : 0 <= n / 10 ^ Z.of_nat w < 10).
    { split; [apply Z.div_pos; lia | apply Z.div_lt_upper_bound; lia]. }
    rewrite (digit_value_digit _ Hq).
    rewrite IH by (apply Z.mod_pos_bound; lia).
    f_equal. f_equal. rewrite pow10_succ.
    pose proof (Z.div_mod n (10 ^ Z.of_nat w)) as Hdm. lia.
Qed.

Lemma take_digits_pad0 (w : nat) (n : Z) (rest : string) :
  0 <= n < 10 ^ Z.of_nat w →
  take_digits w 0 (pad w n +:+ rest) = Some (n, rest).
Proof. intros Hn. rewrite take_digits_pad by done. reflexivity. Qed.

Lemma parse_fraction_pad (us : Z) :
  0 <= us < 1000000 →
  parse_fraction (if us =? 0 then "" else "." +:+ pad 6 us) = Some us.
Proof.
  intros Hus. destruct (Z.eqb_spec us 0) as [-> | Hne]; [reflexivity |].
  rewrite append_cons, append_nil. cbn [parse_fraction].
  change (Ascii.eqb "." ".") with true. cbn match.
  rewrite <- (append_empty (pad 6 us)).
  rewrite take_digits_pad0 by (change (10 ^ Z.of_nat 6) with 1000000; lia).
  reflexivity.
Qed.

Lemma valid_bounds (t : datetime) :
  valid t = true →
  0 <= year t < 10 ^ Z.of_nat 4 ∧ 0 <= month t < 10 ^ Z.of_nat 2 ∧
  0 <= day t < 10 ^ Z.of_nat 2 ∧ 0 <= hour t < 10 ^ Z.of_nat 2 ∧
  0 <= minute t < 10 ^ Z.of_nat 2 ∧ 0 <= second t < 10 ^ Z.of_nat 2 ∧
  0 <= microsecond t < 1000000.
Proof.
  unfold valid. rewrite !andb_true_iff.
  change (10 ^ Z.of_nat 4) with 10000. change (10 ^ Z.of_nat 2) with 100.
  intros H.
  assert (Hdim : days_in_month (year t) (month t) <= 31).
  { unfold days_in_month.
    repeat match goal with |- context [if ?b then _ else _] => destruct b end; lia. }
  lia.
Qed.

Lemma expect_literal (c : ascii) (rest : string) :
  expect c (String c "" +:+ rest) = Some rest.
Proof.
  rewrite append_cons, append_nil. cbn [expect].
  by rewrite Ascii.eqb_refl.
Qed.

Ltac parse_field :=
  first [ rewrite take_digits_pad0 by done
        | rewrite expect_literal
        | rewrite parse_fraction_pad by done ];
  cbn [mbind option_bind].

Lemma parse_isoformat (t : datetime) :
  valid t = true → parse (isoformat t) = Some t.
Proof.
  intros Hv. destruct (valid_bounds t Hv) as (Hy & Hmo & Hd & Hh & Hmi & Hs & Hus).
  unfold parse, isoformat.
  do 12 parse_field.
  by destruct t.
Qed.

Lemma fromisoformat_isoformat (t : datetime) :
  valid t = true → fromisoformat (isoformat t) = Ok t.
Proof.
  intros Hv. unfold fromisoformat. rewrite parse_isoformat by done.
  by rewrite Hv.
Qed.

End DatetimeFacts.

(** ** Construction and validation *)

Section Validation.

Lemma is_empty_true (s : string) : is_empty s = true ↔ s = "".
Proof. destruct s; naive_solver. Qed.

Lemma is_empty_false (s : string) : is_empty s = false ↔ s ≠ "".
Proof. destruct s; naive_solver. Qed.

Lemma Issue_post_init_ok (i : Issue.t) :
  Issue.post_init i = Ok tt ↔ Issue_valid i.
Proof.
  unfold Issue.post_init, Issue_valid.
  destruct (Z.ltb_spec (Issue.line i) 1); [naive_solver lia |].
  destruct (Z.ltb_spec (Issue.column i) 1); [naive_solver lia |].
  destruct (is_empty (Issue.file_path i)) eqn:Hfp;
    [apply is_empty_true in Hfp; naive_solver | apply is_empty_false in Hfp].
  destruct (is_empty (Issue.code i)) eqn:Hc;
    [apply is_empty_true in Hc; naive_solver | apply is_empty_false in Hc].
  destruct (is_empty (Issue.message i)) eqn:Hm;
    [apply is_empty_true in Hm; naive_solver | apply is_empty_false in Hm].
  destruct (String.eqb_spec (Issue.source i) "pyright") as [Hp | Hp];
    [cbn; naive_solver lia |].
  destruct (String.eqb_spec (Issue.source i) "ruff") as [Hr | Hr];
    [cbn; naive_solver lia |].
  cbn. naive_solver.
Qed.

Lemma Issue_post_init_raises (i : Issue.t) :
  ¬ Issue_valid i →
  ∃ msg, Issue.post_init i = Raise (ValueError msg) ∧ Issue_violation i msg.
Proof.
  intros Hinv. unfold Issue.post_init.
  destruct (Z.ltb_spec (Issue.line i) 1);
    [eexists; split; [done | by constructor] |].
  destruct (Z.ltb_spec (Issue.column i) 1);
    [eexists; split; [done | by constructor] |].
  destruct (is_empty (Issue.file_path i)) eqn:Hfp;
    [apply is_empty_true in Hfp; eexists; split; [done | by constructor]
    | apply is_empty_false in Hfp].
  destruct (is_empty (Issue.code i)) eqn:Hc;
    [apply is_empty_true in Hc; eexists; split; [done | by constructor]
    | apply is_empty_false in Hc].
  destruct (is_empty (Issue.message i)) eqn:Hm;
    [apply is_empty_true in Hm; eexists; split; [done | by constructor]
    | apply is_empty_false in Hm].
  destruct (String.eqb_spec (Issue.source i) "pyright") as [Hp | Hp];
    [exfalso; apply Hinv; unfold Issue_valid; naive_solver lia |].
  destruct (String.eqb_spec (Issue.source i) "ruff") as [Hr | Hr];
    [exfalso; apply Hinv; unfold Issue_valid; naive_solver lia |].
  cbn. eexists; split; [done | by constructor].
Qed.

Lemma Issue_violation_invalid (i : Issue.t) (msg : string) :
  Issue_violation i msg → ¬ Issue_valid i.
Proof. unfold Issue_valid. destruct 1; naive_solver lia. Qed.

Lemma Issue_new_eq fp l c sev cat code msg sugg src :
  Issue.new fp l c sev cat code msg sugg src =
  Issue.post_init (Issue.Build_t fp l c sev cat code msg sugg src)
    ≫= λ _, Ok (Issue.Build_t fp l c sev cat code msg sugg src).
Proof. reflexivity. Qed.

Lemma Issue_new_source_rejected fp l c sev cat code msg sugg src :
  1 <= l → 1 <= c → fp ≠ "" → code ≠ "" → msg ≠ "" →
  src ≠ "pyright" → src ≠ "ruff" →
  Issue.new fp l c sev cat code msg sugg src
  = Raise (ValueError "source must be 'pyright' or 'ruff'").
Proof.
  intros Hl Hc Hfp Hcode Hmsg Hp Hr. rewrite Issue_new_eq.
  set (i := Issue.Build_t fp l c sev cat code msg sugg src).
  assert (Hinv : ¬ Issue_valid i) by (unfold Issue_valid, i; cbn; naive_solver).
  destruct (Issue_post_init_raises i Hinv) as (m & Hm & Hv).
  rewrite Hm. cbn. destruct Hv; cbn in *; try done; lia.
Qed.

Lemma Issue_new_is_ok fp l c sev cat code msg sugg src :
  is_ok (Issue.new fp l c sev cat code msg sugg src) = true →
  Issue_valid (Issue.Build_t fp l c sev cat code msg sugg src).
Proof.
  rewrite Issue_new_eq. intros Hok. apply Issue_post_init_ok.
  by destruct (Issue.post_init _) as [[] | e].
Qed.

End Validation.

Section Construction.

(** C2.  [Issue(...)] succeeds exactly when the six invariants hold, and
    then returns the instance with the given fields, so no invalid
    instance is produced.  When an invariant is violated the constructor
    raises a [ValueError] whose message names an invariant that is
    violated.  A line below 1 is always reported as "Line number must be
    >= 1"; a source other than "pyright" and "ruff", the other five
    invariants holding, is reported as "source must be 'pyright' or
    'ruff'". *)
Theorem Issue_construction_validated
    (fp : string) (l c : Z) (sev : Severity.t) (cat : IssueCategory.t)
    (code msg : string) (sugg : option string) (src : string) :
  let i := Issue.Build_t fp l c sev cat code msg sugg src in
  let made := Issue.new fp l c sev cat code msg sugg src in
  (Issue_valid i ↔ made = Ok i) ∧
  (∀ r, made = Ok r → r = i ∧ Issue_valid r) ∧
  (¬ Issue_valid i →
     ∃ m, made = Raise (ValueError m) ∧ Issue_violation i m) ∧
  (l < 1 → made = Raise (ValueError "Line number must be >= 1")) ∧
  (1 <= l → 1 <= c → fp ≠ "" → code ≠ "" → msg ≠ "" →
     src ≠ "pyright" → src ≠ "ruff" →
     made = Raise (ValueError "source must be 'pyright' or 'ruff'")).
Proof.
  intros i made. subst made. rewrite Issue_new_eq. fold i.
  assert (Hok : Issue_valid i ↔ Issue.post_init i ≫= (λ _, Ok i) = Ok i).
  { rewrite <- Issue_post_init_ok.
    destruct (Issue.post_init i) as [[] | e]; cbn; naive_solver. }
  split; [exact Hok |]. split; [| split; [| split]].
  - intros r Hr. destruct (Issue.post_init i) as [[] | e] eqn:Hpi; cbn in Hr; [| done].
    injection Hr as <-. split; [done |]. by apply Issue_post_init_ok.
  - intros Hinv. destruct (Issue_post_init_raises i Hinv) as (m & Hm & Hv).
    exists m. by rewrite Hm.
  - intros Hl. unfold Issue.post_init. cbn [Issue.line i].
    by destruct (Z.ltb_spec l 1); [| lia].
  - intros Hl Hc Hfp Hcode Hmsg Hp Hr.
    by apply Issue_new_source_rejected.
Qed.

(** Scenario 1 of the specification. *)
Example Issue_scenario_valid :
  Issue.new "test.py" 10 5 Severity.ERROR IssueCategory.TYPE_ERROR "E501"
    "Line too long" (Some "Break the line") "ruff"
  = Ok (Issue.Build_t "test.py" 10 5 Severity.ERROR IssueCategory.TYPE_ERROR
          "E501" "Line too long" (Some "Break the line") "ruff").
Proof. reflexivity. Qed.

(** Scenario 2 of the specification. *)
Example Issue_scenario_line_zero :
  Issue.new "test.py" 0 5 Severity.ERROR IssueCategory.TYPE_ERROR "E501"
    "Line too long" None "ruff"
  = Raise (ValueError "Line number must be >= 1").
Proof. reflexivity. Qed.

(** Scenario 3 of the specification. *)
Example Issue_scenario_flake8 :
  Issue.new "test.py" 10 5 Severity.ERROR IssueCategory.TYPE_ERROR "E501"
    "Line too long" None "flake8"
  = Raise (ValueError "source must be 'pyright' or 'ruff'").
Proof. reflexivity. Qed.

Lemma Issue_construction_validated_witness :
  Issue.new "test.py" 10 5 Severity.ERROR IssueCategory.TYPE_ERROR "E501"
    "Line too long" None "flake8"
  = Raise (ValueError "source must be 'pyright' or 'ruff'").
Proof.
  apply (Issue_construction_validated "test.py" 10 5 Severity.ERROR
           IssueCategory.TYPE_ERROR "E501" "Line too long" None "flake8");
    first [lia | discriminate].
Defined.

Lemma ReportSummary_post_init_ok (s : ReportSummary.t) :
  ReportSummary.post_init s = Ok tt ↔ ReportSummary_valid s.
Proof.
  unfold ReportSummary.post_init, ReportSummary_valid.
  destruct (Z.ltb_spec (ReportSummary.total_issues s) 0); [naive_solver lia |].
  destruct (Z.ltb_spec (ReportSummary.errors s) 0); [naive_solver lia |].
  destruct (Z.ltb_spec (ReportSummary.warnings s) 0); [naive_solver lia |].
  destruct (Z.ltb_spec (ReportSummary.infos s) 0); [naive_solver lia |].
  destruct (Z.eqb_spec (ReportSummary.errors s + ReportSummary.warnings s
                        + ReportSummary.infos s) (ReportSummary.total_issues s));
    cbn; naive_solver lia.
Qed.

Lemma ReportSummary_post_init_total (s : ReportSummary.t) :
  ¬ ReportSummary_valid s → ∃ m, ReportSummary.post_init s = Raise (ValueError m).
Proof.
  intros Hinv. rewrite <- ReportSummary_post_init_ok in Hinv.
  unfold ReportSummary.post_init in *.
  repeat match goal with
         | |- context [if ?b then _ else _] => destruct b; [by eexists |]
         end.
  done.
Qed.

(** C3.  A ReportSummary is constructed exactly when the four counts are
    non-negative and errors + warnings + infos = total_issues; every
    instance the constructor returns satisfies both; a non-negative
    quadruple that breaks the identity is rejected with a [ValueError], and
    so is a quadruple with a negative count.  (10, 3, 5, 1) is rejected. *)
Theorem ReportSummary_sum_invariant
    (total errors warnings infos : Z) (by_category by_file : gmap string Z) :
  let s := ReportSummary.Build_t total errors warnings infos by_category by_file in
  let made := ReportSummary.new total errors warnings infos by_category by_file in
  (∀ r, made = Ok r →
     r = s ∧
     ReportSummary.errors r + ReportSummary.warnings r + ReportSummary.infos r
       = ReportSummary.total_issues r ∧
     0 <= ReportSummary.total_issues r ∧ 0 <= ReportSummary.errors r ∧
     0 <= ReportSummary.warnings r ∧ 0 <= ReportSummary.infos r) ∧
  (0 <= total → 0 <= errors → 0 <= warnings → 0 <= infos →
     errors + warnings + infos = total → made = Ok s) ∧
  (0 <= total → 0 <= errors → 0 <= warnings → 0 <= infos →
     errors + warnings + infos ≠ total →
     made = Raise (ValueError
                     "Sum of errors, warnings, and infos must equal total_issues")) ∧
  (total < 0 ∨ errors < 0 ∨ warnings < 0 ∨ infos < 0 →
     ∃ m, made = Raise (ValueError m)) ∧
  ReportSummary.new 10 3 5 1 by_category by_file
    = Raise (ValueError "Sum of errors, warnings, and infos must equal total_issues").
Proof.
  intros s made.
  assert (Hmade : made = ReportSummary.post_init s ≫= λ _, Ok s) by reflexivity.
  split; [| split; [| split; [| split]]].
  - intros r Hr. rewrite Hmade in Hr.
    destruct (ReportSummary.post_init s) as [[] | e] eqn:Hpi; cbn in Hr; [| done].
    injection Hr as <-. apply ReportSummary_post_init_ok in Hpi.
    unfold ReportSummary_valid in Hpi. naive_solver.
  - intros Ht He Hw Hi Hsum. rewrite Hmade.
    assert (Hv : ReportSummary_valid s) by (unfold ReportSummary_valid, s; cbn; lia).
    apply ReportSummary_post_init_ok in Hv. by rewrite Hv.
  - intros Ht He Hw Hi Hsum. rewrite Hmade.
    unfold ReportSummary.post_init, s.
    cbn [ReportSummary.total_issues ReportSummary.errors ReportSummary.warnings
         ReportSummary.infos].
    rewrite !(proj2 (Z.ltb_ge _ 0)) by lia.
    by rewrite (proj2 (Z.eqb_neq _ _) Hsum).
  - intros Hneg. rewrite Hmade.
    destruct (ReportSummary_post_init_total s) as [m Hm].
    { unfold ReportSummary_valid, s; cbn. lia. }
    exists m. by rewrite Hm.
  - reflexivity.
Qed.

Lemma ReportSummary_sum_invariant_witness :
  ReportSummary.new 6 1 2 3 ∅ ∅ = Ok (ReportSummary.Build_t 6 1 2 3 ∅ ∅).
Proof. apply (ReportSummary_sum_invariant 6 1 2 3 ∅ ∅); lia. Defined.

Lemma Fix_post_init_ok (f : Fix.t) :
  Fix.post_init f = Ok tt ↔
  Fix.file_path f ≠ "" ∧ Fix.explanation f ≠ "" ∧
  Fix.original_code f ≠ Fix.fixed_code f.
Proof.
  unfold Fix.post_init.
  destruct (is_empty (Fix.file_path f)) eqn:Hfp;
    [apply is_empty_true in Hfp; naive_solver | apply is_empty_false in Hfp].
  destruct (is_empty (Fix.explanation f)) eqn:He;
    [apply is_empty_true in He; naive_solver | apply is_empty_false in He].
  destruct (String.eqb_spec (Fix.original_code f) (Fix.fixed_code f));
    naive_solver.
Qed.

(** C4.  For every pair of equal strings given as original_code and
    fixed_code, whatever the other arguments, [Fix(...)] raises a
    [ValueError]; when file_path and explanation are not empty, so that no
    earlier check fires, the message is "original_code and fixed_code
    cannot be identical", which mentions "cannot be identical".  With
    different strings, a non-empty file_path and a non-empty explanation,
    the Fix is constructed. *)
Theorem Fix_identical_code_rejected
    (fp orig fixed : string) (issue : Issue.t) (expl : string) (safe : bool) :
  (∃ m, Fix.new fp orig orig issue expl safe = Raise (ValueError m)) ∧
  (fp ≠ "" → expl ≠ "" →
     ∃ m, Fix.new fp orig orig issue expl safe = Raise (ValueError m) ∧
          m = "original_code and fixed_code cannot be identical" ∧
          contains "cannot be identical" m = true) ∧
  (orig ≠ fixed → fp ≠ "" → expl ≠ "" →
     Fix.new fp orig fixed issue expl safe
     = Ok (Fix.Build_t fp orig fixed issue expl safe)).
Proof.
  split; [| split].
  - unfold Fix.new, Fix.post_init; cbn.
    destruct (is_empty fp); [by eexists |].
    destruct (is_empty expl); [by eexists |].
    rewrite String.eqb_refl. by eexists.
  - intros Hfp He. apply is_empty_false in Hfp, He.
    unfold Fix.new, Fix.post_init; cbn. rewrite Hfp, He, String.eqb_refl.
    eexists. split; [done |]. split; [done | reflexivity].
  - intros Hne Hfp He.
    pose (f := Fix.Build_t fp orig fixed issue expl safe).
    assert (Hok : Fix.post_init f = Ok tt) by (apply Fix_post_init_ok; by cbn).
    unfold Fix.new. fold f. by rewrite Hok.
Qed.

(** Scenario 5 of the specification. *)
Example Fix_scenario_identical (issue : Issue.t) :
  Fix.new "test.py" "x = 1" "x = 1" issue "No change" true
  = Raise (ValueError "original_code and fixed_code cannot be identical").
Proof. reflexivity. Qed.

Lemma Fix_identical_code_rejected_witness :
  Fix.new "test.py" "x = 1" "x = 1  # fixed"
    (Issue.Build_t "test.py" 10 5 Severity.ERROR IssueCategory.TYPE_ERROR
       "E501" "Line too long" None "ruff") "Added comment" true
  = Ok (Fix.Build_t "test.py" "x = 1" "x = 1  # fixed"
          (Issue.Build_t "test.py" 10 5 Severity.ERROR IssueCategory.TYPE_ERROR
             "E501" "Line too long" None "ruff") "Added comment" true).
Proof.
  apply (Fix_identical_code_rejected "test.py" "x = 1" "x = 1  # fixed"); discriminate.
Defined.

End Construction.

(** ** Serialization round trip *)

Section RoundTrip.

Lemma Issue_from_dict_to_dict (i : Issue.t) :
  Issue_valid i → Issue.from_dict (Issue.to_dict i) = Ok i.
Proof.
  intros Hv. apply Issue_post_init_ok in Hv.
  unfold Issue.from_dict, Issue.to_dict. eval_dict.
  destruct i as [fp l c sev cat code msg sugg src].
  unfold Issue.new. 
  destruct sev, cat, sugg; cbn; by rewrite Hv.
Qed.

Lemma Fix_from_dict_to_dict (f : Fix.t) :
  Fix_valid f → Fix.from_dict (Fix.to_dict f) = Ok f.
Proof.
  intros (Hfp & He & Hne & Hi).
  assert (Hok : Fix.post_init f = Ok tt) by by apply Fix_post_init_ok.
  unfold Fix.from_dict, Fix.to_dict. eval_dict.
  unfold on_mapping; cbn [as_mapping]. rewrite Issue_from_dict_to_dict by done.
  destruct f as [fp orig fixed issue expl safe]. cbn.
  unfold Fix.new. by rewrite Hok.
Qed.

Lemma as_int_dict_of_int_dict (key : string) (m : gmap string Z) :
  as_int_dict key (ReportSummary.of_int_dict m) = Ok m.
Proof.
  unfold as_int_dict, ReportSummary.of_int_dict.
  rewrite bool_decide_eq_true_2.
  - f_equal. apply map_eq. intros k.
    rewrite lookup_omap, lookup_fmap. by destruct (m !! k).
  - intros k v. rewrite lookup_fmap. destruct (m !! k); naive_solver.
Qed.

Lemma ReportSummary_from_dict_to_dict (s : ReportSummary.t) :
  ReportSummary_valid s → ReportSummary.from_dict (ReportSummary.to_dict s) = Ok s.
Proof.
  intros Hv. apply ReportSummary_post_init_ok in Hv.
  unfold ReportSummary.from_dict, ReportSummary.to_dict. eval_dict.
  rewrite !as_int_dict_of_int_dict.
  destruct s. cbn. unfold ReportSummary.new. by rewrite Hv.
Qed.

Lemma comprehension_fmap {A} (f : PyVal → result A) (g : A → PyVal) (P : A → Prop)
    (l : list A) :
  (∀ x, P x → f (g x) = Ok x) → Forall P l → comprehension f (g <$> l) = Ok l.
Proof.
  intros Hfg. induction 1 as [| x l Hx Hl IH]; [done |].
  cbn. by rewrite Hfg, IH.
Qed.

Lemma as_str_list_of_str_list (key : string) (l : list string) :
  as_str_list key (Config.of_str_list l) = Ok l.
Proof.
  unfold as_str_list, Config.of_str_list.
  assert (Hm : mapM str_of (VStr <$> l) = Some l).
  { induction l as [| x l IH]; [done |]. cbn. by rewrite IH. }
  by rewrite Hm.
Qed.

Lemma on_mapping_dict {A} (f : gmap string PyVal → result A) (d : gmap string PyVal) :
  on_mapping f (VDict d) = f d.
Proof. reflexivity. Qed.

Lemma Report_from_dict_to_dict (r : Report.t) :
  Report_valid r → Report.from_dict (Report.to_dict r) = Ok r.
Proof.
  intros (Hpp & Hi & Hf & Hs & Ht).
  unfold Report.from_dict, Report.to_dict. eval_dict.
  cbn [iter mbind result_bind bind].
  rewrite (comprehension_fmap _ _ Issue_valid)
    by (done || intros; rewrite on_mapping_dict; by apply Issue_from_dict_to_dict).
  cbn [mbind result_bind bind].
  rewrite (comprehension_fmap _ _ Fix_valid)
    by (done || intros; rewrite on_mapping_dict; by apply Fix_from_dict_to_dict).
  rewrite on_mapping_dict, ReportSummary_from_dict_to_dict by done.
  cbn [mbind result_bind bind Report.fromisoformat].
  rewrite fromisoformat_isoformat by done.
  cbn [mbind result_bind bind as_str].
  unfold Report.new, Report.post_init.
  cbn [Report.project_path]. apply is_empty_false in Hpp. rewrite Hpp.
  by destruct r.
Qed.

Lemma Config_from_dict_to_dict (c : Config.t) :
  Config_valid c → Config.from_dict (Config.to_dict c) = Ok c.
Proof.
  intros Hpp. apply is_empty_false in Hpp.
  unfold Config.from_dict, Config.to_dict. eval_dict.
  rewrite as_str_list_of_str_list.
  destruct c. cbn in *. unfold Config.new, Config.post_init. cbn. by rewrite Hpp.
Qed.

Lemma sample_issue_valid : Issue_valid sample_issue.
Proof. unfold Issue_valid; cbn. repeat split; first [lia | discriminate | by right]. Qed.

Lemma sample_fix_valid : Fix_valid sample_fix.
Proof.
  unfold Fix_valid; cbn. repeat split; first [discriminate | apply sample_issue_valid].
Qed.

Lemma sample_summary_valid : ReportSummary_valid sample_summary.
Proof. unfold ReportSummary_valid; cbn. lia. Qed.

Lemma sample_report_valid : Report_valid sample_report.
Proof.
  unfold Report_valid; cbn. split; [discriminate |].
  split; [repeat constructor; apply sample_issue_valid |].
  split; [repeat constructor; apply sample_fix_valid |].
  split; [apply sample_summary_valid | reflexivity].
Qed.

Lemma sample_config_valid : Config_valid sample_config.
Proof. unfold Config_valid; cbn. discriminate. Qed.

Example sample_timestamp_isoformat :
  Datetime.isoformat sample_timestamp = "2024-02-29T23:59:07.120034".
Proof. reflexivity. Qed.

(** C1.  For each of the five entities, [from_dict] applied to the
    [to_dict] of a valid instance succeeds and returns an instance equal to
    the original in every field: the Issue nested in a Fix, and the Issues,
    Fixes, Summary and the ISO 8601 timestamp nested in a Report, are
    restored with it. *)
Theorem round_trip_identity :
  (∀ i, Issue_valid i → Issue.from_dict (Issue.to_dict i) = Ok i) ∧
  (∀ f, Fix_valid f → Fix.from_dict (Fix.to_dict f) = Ok f) ∧
  (∀ s, ReportSummary_valid s →
        ReportSummary.from_dict (ReportSummary.to_dict s) = Ok s) ∧
  (∀ r, Report_valid r → Report.from_dict (Report.to_dict r) = Ok r) ∧
  (∀ c, Config_valid c → Config.from_dict (Config.to_dict c) = Ok c).
Proof.
  split; [exact Issue_from_dict_to_dict |].
  split; [exact Fix_from_dict_to_dict |].
  split; [exact ReportSummary_from_dict_to_dict |].
  split; [exact Report_from_dict_to_dict | exact Config_from_dict_to_dict].
Qed.

Lemma round_trip_identity_witness :
  Issue.from_dict (Issue.to_dict sample_issue) = Ok sample_issue ∧
  Fix.from_dict (Fix.to_dict sample_fix) = Ok sample_fix ∧
  ReportSummary.from_dict (ReportSummary.to_dict sample_summary) = Ok sample_summary ∧
  Report.from_dict (Report.to_dict sample_report) = Ok sample_report ∧
  Config.from_dict (Config.to_dict sample_config) = Ok sample_config.
Proof.
  destruct round_trip_identity as (HI & HF & HS & HR & HC).
  split; [apply HI, sample_issue_valid |].
  split; [apply HF, sample_fix_valid |].
  split; [apply HS, sample_summary_valid |].
  split; [apply HR, sample_report_valid | apply HC, sample_config_valid].
Defined.

End RoundTrip.

(** ** Deserialization: enumerations, missing keys and defaults *)

Section Deserialization.

Lemma Severity_call_raise (v : PyVal) (e : exn) :
  Severity.call v = Raise e → e = EnumValueError v "Severity".
Proof.
  unfold Severity.call. destruct v; try congruence.
  repeat (case_match; try congruence).
Qed.

Lemma IssueCategory_call_raise (v : PyVal) (e : exn) :
  IssueCategory.call v = Raise e → e = EnumValueError v "IssueCategory".
Proof.
  unfold IssueCategory.call. destruct v; try congruence.
  repeat (case_match; try congruence).
Qed.

Lemma Severity_call_ok (s : string) (m : Severity.t) :
  Severity.call (VStr s) = Ok m ↔ s = Severity.value m.
Proof.
  split.
  - unfold Severity.call.
    repeat match goal with
           | |- context [String.eqb s ?x] =>
               destruct (String.eqb_spec s x) as [-> | ?]; [by intros [= <-] |]
           end.
    done.
  - intros ->. by destruct m.
Qed.

Lemma IssueCategory_call_ok (s : string) (m : IssueCategory.t) :
  IssueCategory.call (VStr s) = Ok m ↔ s = IssueCategory.value m.
Proof.
  split.
  - unfold IssueCategory.call.
    repeat match goal with
           | |- context [String.eqb s ?x] =>
               destruct (String.eqb_spec s x) as [-> | ?]; [by intros [= <-] |]
           end.
    done.
  - intros ->. by destruct m.
Qed.

Lemma Severity_call_outside (s : string) :
  s ∉ Severity.value <$> Severity.members →
  Severity.call (VStr s) = Raise (EnumValueError (VStr s) "Severity").
Proof.
  intros Hs. destruct (Severity.call (VStr s)) as [m | e] eqn:Hc.
  - apply Severity_call_ok in Hc as ->. destruct Hs, m; set_solver.
  - by apply Severity_call_raise in Hc as ->.
Qed.

Lemma IssueCategory_call_outside (s : string) :
  s ∉ IssueCategory.value <$> IssueCategory.members →
  IssueCategory.call (VStr s) = Raise (EnumValueError (VStr s) "IssueCategory").
Proof.
  intros Hs. destruct (IssueCategory.call (VStr s)) as [m | e] eqn:Hc.
  - apply IssueCategory_call_ok in Hc as ->. destruct Hs, m; set_solver.
  - by apply IssueCategory_call_raise in Hc as ->.
Qed.

(** Case analysis on the key that the code reads next. *)
Ltac head_key d k :=
  destruct (d !! k) as [?v |] eqn:?Hkey; cbn [mbind result_bind bind];
  [| try (eexists; split; [reflexivity | exact I]); try by eexists].

Ltac head_call f v tac :=
  let H := fresh "Hcall" in
  destruct (f v) as [?m | ?e] eqn:H; cbn [mbind result_bind bind];
  [| try (apply tac in H as ->; by eexists)].


Lemma Issue_from_dict_bad_enum (d : gmap string PyVal) (s : string) :
  (d !! "severity" = Some (VStr s) ∧ s ∉ Severity.value <$> Severity.members) ∨
  (d !! "category" = Some (VStr s) ∧
   s ∉ IssueCategory.value <$> IssueCategory.members) →
  ∃ e, Issue.from_dict d = Raise e ∧ missing_or_invalid e.
Proof.
  intros Hbad. unfold Issue.from_dict, getitem.
  head_key d "file_path". head_key d "line". head_key d "column".
  head_key d "severity". head_call Severity.call v2 Severity_call_raise.
  head_key d "category". head_call IssueCategory.call v3 IssueCategory_call_raise.
  destruct Hbad as [[[= ->] Hs] | [[= ->] Hs]].
  - apply Severity_call_outside in Hs. congruence.
  - apply IssueCategory_call_outside in Hs. congruence.
Qed.

Lemma Issue_from_dict_bad_severity (d : gmap string PyVal) (s : string) :
  is_Some (d !! "file_path") → is_Some (d !! "line") → is_Some (d !! "column") →
  d !! "severity" = Some (VStr s) → s ∉ Severity.value <$> Severity.members →
  Issue.from_dict d = Raise (EnumValueError (VStr s) "Severity").
Proof.
  intros [v1 H1] [v2 H2] [v3 H3] H4 Hs. unfold Issue.from_dict, getitem.
  rewrite H1, H2, H3, H4. cbn [mbind result_bind bind].
  by rewrite (Severity_call_outside s Hs).
Qed.

Lemma Issue_from_dict_bad_category (d : gmap string PyVal) (s : string) (m : Severity.t) :
  is_Some (d !! "file_path") → is_Some (d !! "line") → is_Some (d !! "column") →
  d !! "severity" = Some (VStr (Severity.value m)) →
  d !! "category" = Some (VStr s) →
  s ∉ IssueCategory.value <$> IssueCategory.members →
  Issue.from_dict d = Raise (EnumValueError (VStr s) "IssueCategory").
Proof.
  intros [v1 H1] [v2 H2] [v3 H3] H4 H5 Hs. unfold Issue.from_dict, getitem.
  rewrite H1, H2, H3, H4, H5. cbn [mbind result_bind bind].
  rewrite (proj2 (Severity_call_ok _ m) eq_refl). cbn [mbind result_bind bind].
  by rewrite (IssueCategory_call_outside s Hs).
Qed.


(** Scenario 1 of the specification: the serialized enumeration fields. *)
Example Issue_scenario_to_dict :
  Issue.to_dict sample_issue !! "severity" = Some (VStr "error") ∧
  Issue.to_dict sample_issue !! "category" = Some (VStr "type-error").
Proof. split; reflexivity. Qed.

(** C7.  The members of Severity and IssueCategory have exactly the six
    literal strings as values, [to_dict] writes the value of the member,
    and the enumeration lookup that [from_dict] performs returns a member
    exactly for the string that is its value.  A mapping whose severity (or
    category) is any other string is never deserialized: [from_dict]
    raises, and once the keys read before it are present (and, for the
    category, the severity is valid) the exception is the enumeration's
    [ValueError] for that string. *)
Theorem enum_literal_values :
  Severity.value <$> Severity.members = ["error"; "warning"; "info"] ∧
  IssueCategory.value <$> IssueCategory.members
    = ["type-error"; "style-violation"; "import-issue"] ∧
  (∀ i, Issue.to_dict i !! "severity" = Some (VStr (Severity.value (Issue.severity i))) ∧
        Issue.to_dict i !! "category"
          = Some (VStr (IssueCategory.value (Issue.category i)))) ∧
  (∀ s m, Severity.call (VStr s) = Ok m ↔ s = Severity.value m) ∧
  (∀ s m, IssueCategory.call (VStr s) = Ok m ↔ s = IssueCategory.value m) ∧
  (∀ d s, d !! "severity" = Some (VStr s) →
          s ∉ ["error"; "warning"; "info"] →
          (∃ e, Issue.from_dict d = Raise e ∧ missing_or_invalid e) ∧
          (is_Some (d !! "file_path") → is_Some (d !! "line") →
           is_Some (d !! "column") →
           Issue.from_dict d = Raise (EnumValueError (VStr s) "Severity"))) ∧
  (∀ d s, d !! "category" = Some (VStr s) →
          s ∉ ["type-error"; "style-violation"; "import-issue"] →
          (∃ e, Issue.from_dict d = Raise e ∧ missing_or_invalid e) ∧
          (∀ m, is_Some (d !! "file_path") → is_Some (d !! "line") →
                is_Some (d !! "column") →
                d !! "severity" = Some (VStr (Severity.value m)) →
                Issue.from_dict d = Raise (EnumValueError (VStr s) "IssueCategory"))).
Proof.
  split; [reflexivity |]. split; [reflexivity |].
  split; [intros i; split; reflexivity |].
  split; [exact Severity_call_ok |]. split; [exact IssueCategory_call_ok |].
  split.
  - intros d s Hd Hs. split.
    + apply (Issue_from_dict_bad_enum d s). by left.
    + intros. by apply Issue_from_dict_bad_severity.
  - intros d s Hd Hs. split.
    + apply (Issue_from_dict_bad_enum d s). by right.
    + intros m ? ? ? ?. by apply (Issue_from_dict_bad_category d s m).
Qed.

Lemma enum_literal_values_witness :
  Issue.from_dict (<["severity" := VStr "critical"]> (Issue.to_dict sample_issue))
  = Raise (EnumValueError (VStr "critical") "Severity").
Proof.
  destruct enum_literal_values as (_ & _ & _ & _ & _ & Hsev & _).
  apply (Hsev _ "critical"); [reflexivity | | by eexists | by eexists | by eexists].
  intros Hin. repeat (apply elem_of_cons in Hin as [Hin | Hin]; [discriminate |]).
  by apply elem_of_nil in Hin.
Defined.












Lemma Issue_new_default_source fp l c sev cat code msg sugg :
  ∃ m, Issue.new fp l c sev cat code msg sugg Issue.source_default
       = Raise (ValueError m).
Proof.
  rewrite Issue_new_eq.
  set (i := Issue.Build_t fp l c sev cat code msg sugg Issue.source_default).
  destruct (Issue_post_init_raises i) as (m & Hm & _).
  { unfold Issue_valid, i; cbn. naive_solver. }
  exists m. by rewrite Hm.
Qed.

Lemma Issue_from_dict_no_source (d : gmap string PyVal) :
  d !! "source" = None →
  ∃ e, Issue.from_dict d = Raise e ∧ e ≠ KeyError "source".
Proof.
  intros Hd. unfold Issue.from_dict, getitem, get. rewrite Hd.
  head_key d "file_path". head_key d "line". head_key d "column".
  head_key d "severity". head_call Severity.call v2 Severity_call_raise.
  head_key d "category". head_call IssueCategory.call v3 IssueCategory_call_raise.
  head_key d "code". head_key d "message".
  destruct v as [| | | fp | |]; cbn [as_str mbind result_bind bind]; try by eexists.
  destruct v0 as [| | l | | |]; cbn [as_int mbind result_bind bind]; try by eexists.
  destruct v1 as [| | c | | |]; cbn [as_int mbind result_bind bind]; try by eexists.
  destruct v4 as [| | | code | |]; cbn [as_str mbind result_bind bind]; try by eexists.
  destruct v5 as [| | | msg | |]; cbn [as_str mbind result_bind bind]; try by eexists.
  destruct (d !! "suggestion") as [[| | | sugg | |] |];
    cbn [as_opt_str mbind result_bind bind as_str]; try by eexists.
  all: match goal with
       | |- ∃ e, Issue.new ?fp ?l ?c ?sev ?cat ?code ?msg ?sugg _ = _ ∧ _ =>
           destruct (Issue_new_default_source fp l c sev cat code msg sugg) as [x Hx];
           exists (ValueError x); by split
       end.
Qed.

Lemma Issue_from_dict_source_error (d : gmap string PyVal) :
  d !! "source" = None →
  is_ok (Issue.from_dict (<["source" := VStr "ruff"]> d)) = true →
  Issue.from_dict d = Raise (ValueError "source must be 'pyright' or 'ruff'").
Proof.
  intros Hd Hok. unfold Issue.from_dict, getitem, get in *.
  rewrite lookup_insert_eq in Hok. rewrite !lookup_insert_ne in Hok by done.
  rewrite Hd.
  destruct (d !! "file_path") as [v1 |]; [| done].
  destruct (d !! "line") as [v2 |]; [| done].
  destruct (d !! "column") as [v3 |]; [| done].
  destruct (d !! "severity") as [v4 |]; [| done].
  cbn [mbind result_bind bind] in *.
  destruct (Severity.call v4) as [sev | e]; [| done].
  destruct (d !! "category") as [v5 |]; [| done].
  cbn [mbind result_bind bind] in *.
  destruct (IssueCategory.call v5) as [cat | e]; [| done].
  destruct (d !! "code") as [v6 |]; [| done].
  destruct (d !! "message") as [v7 |]; [| done].
  cbn [mbind result_bind bind] in *.
  destruct v1 as [| | | fp | |]; try done.
  destruct v2 as [| | l | | |]; try done.
  destruct v3 as [| | c | | |]; try done.
  destruct v6 as [| | | code | |]; try done.
  destruct v7 as [| | | msg | |]; try done.
  cbn [mbind result_bind bind as_str as_int] in *.
  destruct (as_opt_str "suggestion" _) as [sugg | e]; [| done].
  cbn [mbind result_bind bind as_str as_int] in *.
  apply Issue_new_is_ok in Hok. unfold Issue_valid in Hok; cbn in Hok.
  destruct Hok as (Hl & Hc & Hfp & Hcode & Hmsg & _).
  by apply Issue_new_source_rejected.
Qed.





(** C10.  The default of the source parameter is the empty string, so
    [Issue(...)] without a source always raises a [ValueError], which is
    the source validation error when the other invariants hold.
    [Issue.from_dict] applied to a mapping without the key "source" always
    raises, never a [KeyError] for "source"; when nothing but the source is
    wrong with the mapping (supplying "ruff" under "source" would make it
    deserialize), the exception is the source validation error. *)
Theorem Issue_source_default_rejected :
  Issue.source_default = "" ∧
  (∀ fp l c sev cat code msg sugg,
     ∃ m, Issue.new fp l c sev cat code msg sugg Issue.source_default
          = Raise (ValueError m)) ∧
  (∀ fp l c sev cat code msg sugg,
     1 <= l → 1 <= c → fp ≠ "" → code ≠ "" → msg ≠ "" →
     Issue.new fp l c sev cat code msg sugg Issue.source_default
     = Raise (ValueError "source must be 'pyright' or 'ruff'")) ∧
  (∀ d, d !! "source" = None →
        ∃ e, Issue.from_dict d = Raise e ∧ e ≠ KeyError "source") ∧
  (∀ d, d !! "source" = None →
        is_ok (Issue.from_dict (<["source" := VStr "ruff"]> d)) = true →
        Issue.from_dict d = Raise (ValueError "source must be 'pyright' or 'ruff'")).
Proof.
  split; [reflexivity |].
  split; [exact Issue_new_default_source |].
  split; [intros; by apply Issue_new_source_rejected |].
  split; [exact Issue_from_dict_no_source | exact Issue_from_dict_source_error].
Qed.

Lemma Issue_source_default_rejected_witness :
  Issue.from_dict (delete "source" (Issue.to_dict sample_issue))
  = Raise (ValueError "source must be 'pyright' or 'ruff'").
Proof.
  destruct Issue_source_default_rejected as (_ & _ & _ & _ & H).
  apply H; reflexivity.
Defined.

End Deserialization.

(** ** The Issue dataclass: assignment and equality *)

Section Dataclass.

Lemma Issue_eq_structural (a b : Issue.t) : Issue.eq a b = true ↔ a = b.
Proof.
  destruct a as [fp1 l1 c1 sev1 cat1 code1 msg1 sugg1 src1],
           b as [fp2 l2 c2 sev2 cat2 code2 msg2 sugg2 src2].
  unfold Issue.eq; cbn. rewrite !andb_true_iff, !String.eqb_eq, !Z.eqb_eq.
  split.
  - intros ((((((((-> & ->) & ->) & Hsev) & Hcat) & ->) & ->) & Hsugg) & ->).
    assert (sev1 = sev2) as -> by (by destruct sev1, sev2).
    assert (cat1 = cat2) as -> by (by destruct cat1, cat2).
    assert (sugg1 = sugg2) as ->.
    { destruct sugg1, sugg2; cbn in Hsugg; try done.
      by apply String.eqb_eq in Hsugg as ->. }
    done.
  - intros [= -> -> -> -> -> -> -> -> ->].
    repeat split; try done.
    + by destruct sev2.
    + by destruct cat2.
    + destruct sugg2; cbn; [apply String.eqb_refl | done].
Qed.

Lemma Issue_setattr_holds (i : Issue.t) (a : Issue.assignment) :
  Issue_holds (Issue.setattr i a) a.
Proof. by destruct a. Qed.

Lemma Issue_setattr_frame (i : Issue.t) (a b : Issue.assignment) :
  Issue_attr a ≠ Issue_attr b → Issue_holds i b → Issue_holds (Issue.setattr i a) b.
Proof. by destruct a, b. Qed.

Lemma Issue_assign_lookup (h : Issue.store) (l : nat) (i : Issue.t)
    (a : Issue.assignment) :
  h !! l = Some i → Issue.assign h l a !! l = Some (Issue.setattr i a).
Proof. intros Hl. unfold Issue.assign. by rewrite lookup_alter_eq, Hl. Qed.

Lemma Issue_assign_other (h : Issue.store) (l l' : nat) (a : Issue.assignment) :
  l ≠ l' → Issue.assign h l a !! l' = h !! l'.
Proof. intros Hne. unfold Issue.assign. by rewrite lookup_alter_ne. Qed.

(** C8, as the code has it.  Equality of two Issue values is the equality
    of all their fields.  An Issue is not immutable: the class is an
    ordinary (not frozen) dataclass, so an assignment to an attribute of a
    constructed Issue takes effect on that object, leaving its other fields
    and every other object as they were. *)
Theorem Issue_equality_and_assignment :
  (∀ a b, Issue.eq a b = true ↔ a = b) ∧
  (∀ (h : Issue.store) l i a,
     h !! l = Some i →
     ∃ i', Issue.assign h l a !! l = Some i' ∧ Issue_holds i' a ∧
           (∀ b, Issue_attr a ≠ Issue_attr b → Issue_holds i b → Issue_holds i' b)) ∧
  (∀ (h : Issue.store) l l' a, l ≠ l' → Issue.assign h l a !! l' = h !! l').
Proof.
  split; [exact Issue_eq_structural |]. split.
  - intros h l i a Hl. exists (Issue.setattr i a).
    split; [by apply Issue_assign_lookup |].
    split; [apply Issue_setattr_holds |].
    intros b. apply Issue_setattr_frame.
  - exact Issue_assign_other.
Qed.

Lemma Issue_equality_and_assignment_witness :
  ∃ i', Issue.assign {[ 0%nat := sample_issue ]} 0 (Issue.set_line 0) !! 0%nat = Some i' ∧
        Issue.line i' = 0 ∧ Issue.column i' = 5.
Proof.
  destruct Issue_equality_and_assignment as (_ & H & _).
  destruct (H {[ 0%nat := sample_issue ]} 0%nat sample_issue (Issue.set_line 0))
    as (i' & Hi' & Hline & Hframe); [reflexivity |].
  exists i'. split; [exact Hi' |]. split; [exact Hline |].
  apply (Hframe (Issue.set_column 5)); [discriminate | reflexivity].
Defined.

(** The claim as the specification words it fails: after scenario 1 has
    constructed its Issue, a caller assigns 0 to the line; the object then
    holds line 0, differs from the value constructed, and breaks the
    invariant that the constructor checked. *)
Lemma Issue_not_immutable :
  ∃ l h,
    Issue.construct ∅ "test.py" 10 5 Severity.ERROR IssueCategory.TYPE_ERROR "E501"
      "Line too long" (Some "Break the line") "ruff" = Ok (l, h) ∧
    Issue.line <$> h !! l = Some 10 ∧
    Issue.line <$> Issue.assign h l (Issue.set_line 0) !! l = Some 0 ∧
    Issue.post_init <$> Issue.assign h l (Issue.set_line 0) !! l
    = Some (Raise (ValueError "Line number must be >= 1")).
Proof.
  exists 0%nat, {[ 0%nat := sample_issue ]}.
  split; [vm_compute; reflexivity |]. repeat split.
Qed.

End Dataclass.

(** ** Paths *)

Section PathFacts.

Lemma string_length_append (a b : string) :
  String.length (a +:+ b) = (String.length a + String.length b)%nat.
Proof.
  induction a as [| c a IH]; [done |].
  rewrite append_cons. cbn [String.length]. by rewrite IH.
Qed.

Lemma substring_whole (s : string) : substring 0 (String.length s) s = s.
Proof. induction s as [| c s IH]; [done |]. cbn. by rewrite IH. Qed.

Lemma substring_split (s : string) :
  ∀ i, (i <= String.length s)%nat →
       substring 0 i s +:+ substring i (String.length s - i) s = s.
Proof.
  induction s as [| c s IH]; intros i Hi.
  - cbn in Hi. by replace i with O by lia.
  - destruct i as [| i].
    + cbn [substring]. rewrite append_nil, Nat.sub_0_r.
      apply (substring_whole (String c s)).
    + cbn [substring String.length Nat.sub]. rewrite append_cons.
      cbn [String.length] in Hi. by rewrite IH by lia.
Qed.

Lemma split_point_bound (n : string) (i : nat) :
  split_point n = Some i → (i <= String.length n)%nat.
Proof.
  unfold split_point. destruct (rfind "." n) as [j |]; [| done].
  destruct (Nat.ltb_spec 0 j); [| done].
  destruct (Nat.ltb_spec j (String.length n - 1)); [| done].
  intros [= <-]. lia.
Qed.

(** The stem and the suffix of a path make up its name. *)
Lemma stem_suffix (p : path) : stem p +:+ suffix p = name p.
Proof.
  unfold stem, suffix. destruct (split_point (name p)) as [i |] eqn:Hsp.
  - apply substring_split. by apply split_point_bound.
  - apply append_empty.
Qed.

Lemma name_joinpath (p : path) (s : string) : name (joinpath p s) = s.
Proof. apply last_last. Qed.

Lemma parent_joinpath (p : path) (s : string) : parent (joinpath p s) = p.
Proof. apply removelast_last. Qed.


Lemma backup_name_length (now : Datetime.datetime) (p : path) :
  (String.length (name p) < String.length (FileUtils.backup_name now p))%nat.
Proof.
  unfold FileUtils.backup_name. rewrite <- (stem_suffix p).
  rewrite !string_length_append. cbn [String.length]. lia.
Qed.

Lemma backup_path_fresh_name (now : Datetime.datetime) (p : path) :
  FileUtils.backup_path now p ≠ p.
Proof.
  intros Heq. pose proof (backup_name_length now p) as Hlen.
  apply (f_equal name) in Heq. unfold FileUtils.backup_path in Heq.
  rewrite name_joinpath in Heq. rewrite Heq in Hlen. lia.
Qed.

End PathFacts.

(** ** create_backup *)

Section Backup.

Lemma is_dir_None (fs : filesystem) (p : path) : fs !! p = None → is_dir fs p = false.
Proof. unfold is_dir. by intros ->. Qed.

Lemma is_dir_File (fs : filesystem) (p : path) (c : list Byte.byte) :
  fs !! p = Some (File c) → is_dir fs p = false.
Proof. unfold is_dir. by intros ->. Qed.

(** Copying onto a name that is not a directory writes the content there. *)
Lemma copy2_file (fs : filesystem) (src dst : path) (c : list Byte.byte) :
  fs !! src = Some (File c) → is_dir fs dst = false → dst ≠ src →
  copy2 fs src dst = Ok (<[dst := File c]> fs).
Proof.
  intros Hsrc Hdst Hne. unfold copy2. rewrite Hsrc, Hdst. cbv zeta iota.
  rewrite bool_decide_eq_false_2 by done. by rewrite Hdst.
Qed.

Lemma create_backup_ok (now : Datetime.datetime) (fs : filesystem) (p : path)
    (c : list Byte.byte) :
  fs !! p = Some (File c) →
  is_dir fs (FileUtils.backup_path now p) = false →
  FileUtils.create_backup now fs p
  = Ok (FileUtils.backup_path now p, <[FileUtils.backup_path now p := File c]> fs).
Proof.
  intros Hp Hb. unfold FileUtils.create_backup, exists_, is_file. rewrite Hp.
  cbn [negb].
  change (joinpath (parent p) _) with (FileUtils.backup_path now p).
  rewrite (copy2_file fs p _ c); [done | done | done |].
  apply backup_path_fresh_name.
Qed.






(** Scenario 6 of the specification. *)
Example create_backup_scenario :
  FileUtils.create_backup sample_timestamp sample_fs ["tmp"; "test.py"]
  = Ok (["tmp"; "test.backup_20240229_235907.py"],
        <[ ["tmp"; "test.backup_20240229_235907.py"]
             := File (list_byte_of_string "original content") ]> sample_fs).
Proof. vm_compute. reflexivity. Qed.


End Backup.

(** ** is_monorepo *)

Section Monorepo.

Lemma count_foldl (P : path → Prop) `{∀ x, Decision (P x)} (l : list path) :
  ∀ acc, foldl (λ count item, if bool_decide (P item) then count + 1 else count) acc l
         = acc + Z.of_nat (List.length (filter P l)).
Proof.
  induction l as [| x l IH]; intros acc; cbn [foldl].
  - cbn. lia.
  - rewrite IH. rewrite filter_cons. case_bool_decide as Hx.
    + rewrite decide_True by done. cbn [List.length]. lia.
    + by rewrite decide_False by done.
Qed.

Lemma count_positive (P : path → Prop) `{∀ x, Decision (P x)} (l : list path) :
  (0 <? foldl (λ count item, if bool_decide (P item) then count + 1 else count) 0 l) = true
  ↔ ∃ x, P x ∧ x ∈ l.
Proof.
  rewrite count_foldl, Z.ltb_lt. split.
  - intros Hpos. destruct (filter P l) as [| x l'] eqn:Hf; [cbn in Hpos; lia |].
    exists x. apply (list_elem_of_filter P l x). rewrite Hf. apply list_elem_of_here.
  - intros (x & HP & Hx).
    assert (Hin : x ∈ filter P l) by by apply list_elem_of_filter.
    destruct (filter P l); [by apply elem_of_nil in Hin | cbn; lia].
Qed.

Lemma elem_of_rglob (fs : filesystem) (root : path) (pattern : string) (p : path) :
  p ∈ rglob fs root pattern ↔
  is_Some (fs !! p) ∧ root `prefix_of` p ∧ root ≠ p ∧ name p = pattern.
Proof.
  unfold rglob. rewrite list_elem_of_filter, list_elem_of_fmap. split.
  - intros [Hp ([q n] & -> & Hin)]. apply elem_of_map_to_list in Hin.
    split; [by eexists | done].
  - intros [[n Hn] Hp]. split; [done |].
    exists (p, n). split; [done | by apply elem_of_map_to_list].
Qed.

(** A path below [root] lies in [root] itself or in a directory strictly
    below it. *)
Lemma below_parent (root p : path) :
  root `prefix_of` p → root ≠ p → root `prefix_of` parent p.
Proof.
  intros [rest ->] Hne. destruct rest as [| x rest _] using rev_ind.
  - by rewrite app_nil_r in Hne.
  - unfold parent. rewrite app_assoc, removelast_last. by exists rest.
Qed.

Lemma parent_below (root p : path) :
  p ≠ [] → root `prefix_of` parent p → root `prefix_of` p ∧ (root ≠ parent p → root ≠ p).
Proof.
  intros Hp [rest Hrest].
  destruct (exists_last Hp) as (q & x & ->).
  unfold parent in *. rewrite removelast_last in *. subst q. split.
  - exists (rest ++ [x]). by rewrite app_assoc.
  - intros Hne Heq. apply (f_equal List.length) in Heq. rewrite !length_app in Heq.
    cbn in Heq. lia.
Qed.

Lemma name_nonempty (p : path) (s : string) : name p = s → s ≠ "" → p ≠ [].
Proof. by intros <- Hs ->. Qed.

Lemma is_monorepo_spec (fs : filesystem) (root : path) :
  EnvUtils.is_monorepo fs root = true ↔
  is_dir fs root = true ∧
  ∃ p, is_Some (fs !! p) ∧ name p = "pyproject.toml" ∧
       root `prefix_of` parent p ∧ root ≠ parent p.
Proof.
  unfold EnvUtils.is_monorepo. destruct (is_dir fs root); cbn [negb]; [| naive_solver].
  rewrite (count_positive (λ item, parent item ≠ root)). split.
  - intros (p & Hpar & Hin). apply elem_of_rglob in Hin as (Hex & Hpre & Hne & Hname).
    split; [done |]. exists p. split; [done |]. split; [done |].
    split; [by apply below_parent | done].
  - intros (_ & p & Hex & Hname & Hpre & Hne).
    assert (Hp : p ≠ []) by by apply (name_nonempty p "pyproject.toml").
    destruct (parent_below root p Hp Hpre) as [Hpre' Hne'].
    exists p. split; [done |]. apply elem_of_rglob. auto.
Qed.

(** C9.  [is_monorepo] answers true exactly when the project path is a
    directory and an entry named pyproject.toml exists in a directory
    strictly below it.  A manifest in the root itself does not count: when
    every pyproject.toml below the root lies in the root, the answer is
    false.  A path that is not a directory yields false. *)
Theorem is_monorepo_nested_manifest (fs : filesystem) (project_path : path) :
  (EnvUtils.is_monorepo fs project_path = true ↔
   is_dir fs project_path = true ∧
   ∃ p, is_Some (fs !! p) ∧ name p = "pyproject.toml" ∧
        project_path `prefix_of` parent p ∧ project_path ≠ parent p) ∧
  ((∀ p, is_Some (fs !! p) → name p = "pyproject.toml" →
         project_path `prefix_of` p → parent p = project_path) →
   EnvUtils.is_monorepo fs project_path = false) ∧
  (is_dir fs project_path = false → EnvUtils.is_monorepo fs project_path = false).
Proof.
  split; [apply is_monorepo_spec |]. split.
  - intros Hroot. apply not_true_is_false. intros Hm.
    apply is_monorepo_spec in Hm as (_ & p & Hex & Hname & Hpre & Hne).
    assert (Hp : p ≠ []) by by apply (name_nonempty p "pyproject.toml").
    destruct (parent_below project_path p Hp Hpre) as [Hpre' _].
    by rewrite (Hroot p Hex Hname Hpre') in Hne.
  - intros Hdir. unfold EnvUtils.is_monorepo. by rewrite Hdir.
Qed.

(** The three cases of the repository's tests. *)
Example is_monorepo_nested :
  EnvUtils.is_monorepo
    {[ ["proj"] := Dir; ["proj"; "package1"] := Dir;
       ["proj"; "package1"; "pyproject.toml"] := File [] ]} ["proj"] = true.
Proof. vm_compute. reflexivity. Qed.

Example is_monorepo_root_only :
  EnvUtils.is_monorepo
    {[ ["proj"] := Dir; ["proj"; "pyproject.toml"] := File [] ]} ["proj"] = false.
Proof. vm_compute. reflexivity. Qed.

Example is_monorepo_not_directory :
  EnvUtils.is_monorepo sample_fs ["tmp"; "test.py"] = false.
Proof. vm_compute. reflexivity. Qed.

Lemma is_monorepo_nested_manifest_witness :
  EnvUtils.is_monorepo sample_fs ["tmp"; "test.py"] = false.
Proof.
  apply (is_monorepo_nested_manifest sample_fs ["tmp"; "test.py"]). reflexivity.
Defined.

End Monorepo.

(** ** The repository's tests, replayed on the embedding *)

Section Tests.

(** test_models.py, [test_issue_from_dict] *)
Example test_issue_from_dict :
  Issue.from_dict (list_to_map [
    ("file_path", VStr "test.py"); ("line", VInt 10); ("column", VInt 5);
    ("severity", VStr "error"); ("category", VStr "type-error");
    ("code", VStr "E501"); ("message", VStr "Line too long");
    ("suggestion", VStr "Break the line"); ("source", VStr "ruff") ])
  = Ok sample_issue.
Proof. vm_compute. reflexivity. Qed.

(** test_models.py, [test_fix_from_dict]: the nested mapping has no
    suggestion. *)
Example test_fix_from_dict :
  Fix.from_dict (list_to_map [
    ("file_path", VStr "test.py"); ("original_code", VStr "x = 1");
    ("fixed_code", VStr "x = 1  # fixed");
    ("issue", VDict (list_to_map [
       ("file_path", VStr "test.py"); ("line", VInt 10); ("column", VInt 5);
       ("severity", VStr "error"); ("category", VStr "type-error");
       ("code", VStr "E501"); ("message", VStr "Line too long");
       ("source", VStr "ruff") ]));
    ("explanation", VStr "Added comment"); ("safe", VBool true) ])
  = Ok (Fix.Build_t "test.py" "x = 1" "x = 1  # fixed"
          (Issue.Build_t "test.py" 10 5 Severity.ERROR IssueCategory.TYPE_ERROR
             "E501" "Line too long" None "ruff")
          "Added comment" true).
Proof. vm_compute. reflexivity. Qed.

(** test_models.py, [test_report_summary_creation_invalid_sum] and
    [test_report_summary_from_dict] *)
Example test_report_summary_invalid_sum :
  ReportSummary.new 10 3 5 1 ∅ ∅
  = Raise (ValueError "Sum of errors, warnings, and infos must equal total_issues").
Proof. reflexivity. Qed.

Example test_report_summary_from_dict :
  ReportSummary.from_dict (list_to_map [
    ("total_issues", VInt 10); ("errors", VInt 3); ("warnings", VInt 5);
    ("infos", VInt 2);
    ("by_category", VDict {[ "type-error" := VInt 3 ]});
    ("by_file", VDict {[ "test.py" := VInt 5 ]}) ])
  = Ok (ReportSummary.Build_t 10 3 5 2 {[ "type-error" := 3 ]} {[ "test.py" := 5 ]}).
Proof. vm_compute. reflexivity. Qed.

(** test_models.py, [test_report_from_dict]: the summary has no by_category
    and no by_file. *)
Example test_report_from_dict :
  Report.from_dict (list_to_map [
    ("issues", VList [VDict (list_to_map [
       ("file_path", VStr "test.py"); ("line", VInt 10); ("column", VInt 5);
       ("severity", VStr "error"); ("category", VStr "type-error");
       ("code", VStr "E501"); ("message", VStr "Line too long");
       ("source", VStr "ruff") ])]);
    ("fixes", VList []);
    ("summary", VDict (list_to_map [
       ("total_issues", VInt 1); ("errors", VInt 1); ("warnings", VInt 0);
       ("infos", VInt 0) ]));
    ("timestamp", VStr "2024-02-29T23:59:07.120034");
    ("project_path", VStr "/project") ])
  = Ok (Report.Build_t
          [Issue.Build_t "test.py" 10 5 Severity.ERROR IssueCategory.TYPE_ERROR
             "E501" "Line too long" None "ruff"]
          [] (ReportSummary.Build_t 1 1 0 0 ∅ ∅) sample_timestamp "/project").
Proof. vm_compute. reflexivity. Qed.

(** test_models.py, [test_config_from_dict] *)
Example test_config_from_dict :
  Config.from_dict (list_to_map [
    ("project_path", VStr "/project");
    ("pyright_config", VDict {[ "typeCheckingMode" := VStr "standard" ]});
    ("ruff_config", VDict {[ "line-length" := VInt 100 ]});
    ("exclusions", VList [VStr "*.pyc"]);
    ("google_style_guide", VBool true); ("auto_fix_enabled", VBool true);
    ("backup_enabled", VBool true); ("dry_run", VBool false) ])
  = Ok (Config.Build_t "/project" {[ "typeCheckingMode" := VStr "standard" ]}
          {[ "line-length" := VInt 100 ]} ["*.pyc"] true true true false).
Proof. vm_compute. reflexivity. Qed.

(** test_file_utils.py, [test_create_backup_file_not_found] and
    [test_create_backup_is_directory] *)
Example test_create_backup_file_not_found :
  FileUtils.create_backup sample_timestamp sample_fs ["tmp"; "non_existent.py"]
  = Raise (FileNotFoundError "File not found: tmp/non_existent.py").
Proof. vm_compute. reflexivity. Qed.

Example test_create_backup_is_directory :
  FileUtils.create_backup sample_timestamp sample_fs ["tmp"]
  = Raise (ValueError "Path is not a file: tmp").
Proof. vm_compute. reflexivity. Qed.

(** A timestamp without microseconds, and a text that is not a timestamp. *)
Example isoformat_whole_second :
  Datetime.isoformat (Datetime.Build_datetime 2024 1 15 10 30 0 0)
  = "2024-01-15T10:30:00" ∧
  Datetime.fromisoformat "2024-01-15T10:30:00"
  = Ok (Datetime.Build_datetime 2024 1 15 10 30 0 0) ∧
  Datetime.fromisoformat "2023-02-29T10:30:00"
  = Raise (ValueError "Invalid isoformat string") ∧
  Datetime.fromisoformat "yesterday" = Raise (ValueError "Invalid isoformat string").
Proof. repeat split; vm_compute; reflexivity. Qed.

(** An extension with and without a dot in the name. *)
Example stem_and_suffix :
  stem ["src"; "main.py"] = "main" ∧ suffix ["src"; "main.py"] = ".py" ∧
  stem ["Makefile"] = "Makefile" ∧ suffix ["Makefile"] = "" ∧
  stem [".bashrc"] = ".bashrc" ∧ suffix [".bashrc"] = "" ∧
  stem ["a.tar.gz"] = "a.tar" ∧ suffix ["a.tar.gz"] = ".gz".
Proof. repeat split; reflexivity. Qed.

End Tests.

(** * Further properties of the data model *)

Section Deserialized.

Lemma bind_ok {A B} (m : result A) (k : A → result B) (b : B) :
  m ≫= k = Ok b → ∃ a, m = Ok a ∧ k a = Ok b.
Proof. destruct m as [a | e]; [by exists a | done]. Qed.

Lemma getitem_ok (d : gmap string PyVal) (k : string) (v : PyVal) :
  getitem d k = Ok v → d !! k = Some v.
Proof. unfold getitem. by destruct (d !! k) as [w |]; intros [= ->]. Qed.

Lemma as_str_ok k v s : as_str k v = Ok s → v = VStr s.
Proof. by destruct v; intros [= ->]. Qed.

Lemma as_int_ok k v z : as_int k v = Ok z → v = VInt z.
Proof. by destruct v; intros [= ->]. Qed.

Lemma as_bool_ok k v b : as_bool k v = Ok b → v = VBool b.
Proof. by destruct v; intros [= ->]. Qed.

Lemma as_opt_str_ok k v o : as_opt_str k v = Ok o → v = Issue.of_opt_str o.
Proof. by destruct v; intros [= <-]. Qed.

Lemma as_dict_ok k v m : as_dict k v = Ok m → v = VDict m.
Proof. by destruct v; intros [= ->]. Qed.



Lemma Issue_new_ok fp l c sev cat code msg sugg src (i : Issue.t) :
  Issue.new fp l c sev cat code msg sugg src = Ok i →
  i = Issue.Build_t fp l c sev cat code msg sugg src ∧ Issue_valid i.
Proof.
  rewrite Issue_new_eq. intros H. apply bind_ok in H as ([] & Hpi & [= <-]).
  split; [done |]. by apply Issue_post_init_ok.
Qed.












Lemma comprehension_first_error {A} (f : PyVal → result A) (pre : list PyVal)
    (v : PyVal) (post : list PyVal) (e : exn) :
  Forall (λ w, is_ok (f w) = true) pre → f v = Raise e →
  comprehension f (pre ++ v :: post) = Raise e.
Proof.
  intros Hpre Hv. induction Hpre as [| w pre Hw _ IH]; cbn.
  - by rewrite Hv.
  - destruct (f w); [| done]. by rewrite IH.
Qed.

(** X2.  Errors of nested values are not swallowed.  [Fix.from_dict]
    raises the very exception that [Issue.from_dict] raises on the value
    under "issue" (the three keys read before it being present), and
    [Report.from_dict] raises the exception of the first entry of "issues"
    that fails to deserialize, before it looks at any other key. *)
Theorem from_dict_propagates_nested_errors :
  (∀ d v e,
     is_Some (d !! "file_path") → is_Some (d !! "original_code") →
     is_Some (d !! "fixed_code") → d !! "issue" = Some v →
     on_mapping Issue.from_dict v = Raise e →
     Fix.from_dict d = Raise e) ∧
  (∀ d pre v post e,
     d !! "issues" = Some (VList (pre ++ v :: post)) →
     Forall (λ w, is_ok (on_mapping Issue.from_dict w) = true) pre →
     on_mapping Issue.from_dict v = Raise e →
     Report.from_dict d = Raise e).
Proof.
  split.
  - intros d v e [v1 H1] [v2 H2] [v3 H3] H4 He.
    unfold Fix.from_dict, getitem. rewrite H1, H2, H3, H4.
    cbn [mbind result_bind bind]. by rewrite He.
  - intros d pre v post e Hd Hpre He.
    unfold Report.from_dict, get. rewrite Hd. cbn [iter mbind result_bind bind].
    by rewrite (comprehension_first_error _ pre v post e Hpre He).
Qed.

Lemma from_dict_propagates_nested_errors_witness :
  Fix.from_dict
    (<["issue" := VDict (<["line" := VInt 0]> (Issue.to_dict sample_issue))]>
       (Fix.to_dict sample_fix))
  = Raise (ValueError "Line number must be >= 1").
Proof.
  destruct from_dict_propagates_nested_errors as [H _].
  apply (H _ (VDict (<["line" := VInt 0]> (Issue.to_dict sample_issue))));
    [by eexists | by eexists | by eexists | reflexivity | reflexivity].
Defined.

End Deserialized.

Section Normalization.

Lemma Severity_call_inv (v : PyVal) (m : Severity.t) :
  Severity.call v = Ok m → v = VStr (Severity.value m).
Proof.
  destruct v as [| | | s | |]; try done. by intros ->%Severity_call_ok.
Qed.

Lemma IssueCategory_call_inv (v : PyVal) (m : IssueCategory.t) :
  IssueCategory.call v = Ok m → v = VStr (IssueCategory.value m).
Proof.
  destruct v as [| | | s | |]; try done. by intros ->%IssueCategory_call_ok.
Qed.

Lemma get_as (d : gmap string PyVal) (k : string) (dflt v : PyVal)
    (defaults : gmap string PyVal) :
  get d k dflt = v → defaults !! k = Some dflt → (d ∪ defaults) !! k = Some v.
Proof.
  unfold get. intros Hget Hdef. rewrite lookup_union, Hdef.
  destruct (d !! k) as [w |]; by subst.
Qed.

Lemma lookup_union_Some_here (d defaults : gmap string PyVal) (k : string) (v : PyVal) :
  d !! k = Some v → (d ∪ defaults) !! k = Some v.
Proof. intros H. by apply lookup_union_Some_l. Qed.

Lemma as_int_dict_ok k v m :
  as_int_dict k v = Ok m → v = ReportSummary.of_int_dict m.
Proof.
  destruct v as [| | | | | d]; try done. unfold as_int_dict.
  case_bool_decide as Hall; [| done]. intros [= <-].
  unfold ReportSummary.of_int_dict. f_equal. apply map_eq. intros j.
  rewrite lookup_fmap, lookup_omap.
  destruct (d !! j) as [w |] eqn:Hj; [| done]. cbn.
  destruct (Hall j w Hj) as [z Hz]. rewrite Hz. cbn.
  by destruct w; simplify_eq/=.
Qed.

Lemma as_str_list_ok k v l :
  as_str_list k v = Ok l → v = Config.of_str_list l.
Proof.
  destruct v as [| | | | vs |]; try done. unfold as_str_list.
  destruct (mapM str_of vs) as [ss |] eqn:Hm; [| done]. intros [= <-].
  unfold Config.of_str_list. f_equal.
  revert ss Hm. induction vs as [| w vs IH]; intros ss Hm.
  - by injection Hm as <-.
  - cbn in Hm. destruct (str_of w) as [s |] eqn:Hw; [| done]. cbn in Hm.
    destruct (mapM str_of vs) as [ss' |]; [| done]. cbn in Hm.
    injection Hm as <-. cbn. rewrite <- (IH ss' eq_refl).
    by destruct w; simplify_eq/=.
Qed.

(** Decide a key against one field name. *)
Ltac field_case k n :=
  destruct (decide (k = n)) as [-> | ?];
  [ rewrite bool_decide_eq_true_2 by set_solver; symmetry;
    first [ by apply lookup_union_Some_here | by eapply get_as ]
  | ].

Ltac no_field :=
  rewrite bool_decide_eq_false_2 by set_solver;
  cbn [list_to_map foldr uncurry fst snd];
  by rewrite !lookup_insert_ne, lookup_empty by done.

Lemma Issue_to_dict_from_dict (d : gmap string PyVal) (i : Issue.t) :
  Issue.from_dict d = Ok i →
  normalized Issue_fields Issue_defaults d (Issue.to_dict i).
Proof.
  unfold Issue.from_dict. intros H.
  apply bind_ok in H as (v1 & H1%getitem_ok & H).
  apply bind_ok in H as (v2 & H2%getitem_ok & H).
  apply bind_ok in H as (v3 & H3%getitem_ok & H).
  apply bind_ok in H as (sev & Hsev & H).
  apply bind_ok in Hsev as (v4 & H4%getitem_ok & ->%Severity_call_inv).
  apply bind_ok in H as (cat & Hcat & H).
  apply bind_ok in Hcat as (v5 & H5%getitem_ok & ->%IssueCategory_call_inv).
  apply bind_ok in H as (v6 & H6%getitem_ok & H).
  apply bind_ok in H as (v7 & H7%getitem_ok & H).
  apply bind_ok in H as (fp & ->%as_str_ok & H).
  apply bind_ok in H as (l & ->%as_int_ok & H).
  apply bind_ok in H as (c & ->%as_int_ok & H).
  apply bind_ok in H as (code & ->%as_str_ok & H).
  apply bind_ok in H as (msg & ->%as_str_ok & H).
  apply bind_ok in H as (sugg & Hsugg%as_opt_str_ok & H).
  apply bind_ok in H as (src & Hsrc%as_str_ok & H).
  apply Issue_new_ok in H as [-> _].
  intros k. unfold Issue_fields, Issue.to_dict.
  field_case k "file_path". field_case k "line". field_case k "column".
  field_case k "severity". field_case k "category". field_case k "code".
  field_case k "message". field_case k "suggestion". field_case k "source".
  no_field.
Qed.

Lemma ReportSummary_to_dict_from_dict (d : gmap string PyVal) (s : ReportSummary.t) :
  ReportSummary.from_dict d = Ok s →
  normalized ReportSummary_fields ReportSummary_defaults d (ReportSummary.to_dict s).
Proof.
  unfold ReportSummary.from_dict. intros H.
  apply bind_ok in H as (v1 & H1%getitem_ok & H).
  apply bind_ok in H as (v2 & H2%getitem_ok & H).
  apply bind_ok in H as (v3 & H3%getitem_ok & H).
  apply bind_ok in H as (v4 & H4%getitem_ok & H).
  apply bind_ok in H as (t & ->%as_int_ok & H).
  apply bind_ok in H as (e & ->%as_int_ok & H).
  apply bind_ok in H as (w & ->%as_int_ok & H).
  apply bind_ok in H as (i & ->%as_int_ok & H).
  apply bind_ok in H as (bc & Hbc%as_int_dict_ok & H).
  apply bind_ok in H as (bf & Hbf%as_int_dict_ok & H).
  unfold ReportSummary.new in H. apply bind_ok in H as ([] & _ & [= <-]).
  unfold ReportSummary.of_int_dict, ReportSummary.by_category_default,
    ReportSummary.by_file_default in Hbc, Hbf.
  rewrite fmap_empty in Hbc, Hbf.
  intros k. unfold ReportSummary_fields, ReportSummary.to_dict.
  field_case k "total_issues". field_case k "errors". field_case k "warnings".
  field_case k "infos". field_case k "by_category". field_case k "by_file".
  no_field.
Qed.

Lemma Config_to_dict_from_dict (d : gmap string PyVal) (c : Config.t) :
  Config.from_dict d = Ok c →
  normalized Config_fields Config_defaults d (Config.to_dict c).
Proof.
  unfold Config.from_dict. intros H.
  apply bind_ok in H as (v1 & H1%getitem_ok & H).
  apply bind_ok in H as (pp & ->%as_str_ok & H).
  apply bind_ok in H as (pc & Hpc%as_dict_ok & H).
  apply bind_ok in H as (rc & Hrc%as_dict_ok & H).
  apply bind_ok in H as (ex & Hex%as_str_list_ok & H).
  apply bind_ok in H as (g & Hg%as_bool_ok & H).
  apply bind_ok in H as (a & Ha%as_bool_ok & H).
  apply bind_ok in H as (b & Hb%as_bool_ok & H).
  apply bind_ok in H as (r & Hr%as_bool_ok & H).
  unfold Config.new in H. apply bind_ok in H as ([] & _ & [= <-]).
  intros k. unfold Config_fields, Config.to_dict.
  field_case k "project_path". field_case k "pyright_config".
  field_case k "ruff_config". field_case k "exclusions".
  field_case k "google_style_guide". field_case k "auto_fix_enabled".
  field_case k "backup_enabled". field_case k "dry_run".
  no_field.
Qed.

(** X3.  The other round trip, for the three entities without nested
    instances: when [from_dict] accepts a mapping, [to_dict] of the result
    is that mapping cut down to the field names of the class.  Every value
    under a field name is written back unchanged, a key read with
    [data.get] that was absent appears with its default, and every other
    key of the mapping is dropped. *)
Theorem to_dict_after_from_dict :
  (∀ d i, Issue.from_dict d = Ok i →
          normalized Issue_fields Issue_defaults d (Issue.to_dict i)) ∧
  (∀ d s, ReportSummary.from_dict d = Ok s →
          normalized ReportSummary_fields ReportSummary_defaults d
            (ReportSummary.to_dict s)) ∧
  (∀ d c, Config.from_dict d = Ok c →
          normalized Config_fields Config_defaults d (Config.to_dict c)).
Proof.
  split; [exact Issue_to_dict_from_dict |].
  split; [exact ReportSummary_to_dict_from_dict | exact Config_to_dict_from_dict].
Qed.

Lemma to_dict_after_from_dict_witness :
  normalized Issue_fields Issue_defaults
    (<["reviewer" := VStr "nobody"]> (delete "suggestion" (Issue.to_dict sample_issue)))
    (Issue.to_dict
       (Issue.Build_t "test.py" 10 5 Severity.ERROR IssueCategory.TYPE_ERROR
          "E501" "Line too long" None "ruff")).
Proof.
  destruct to_dict_after_from_dict as [H _]. apply H. vm_compute. reflexivity.
Defined.

End Normalization.

(** * Further properties of the file operations *)

Section Suffixes.

Lemma string_app_assoc (a b c : string) : (a +:+ b) +:+ c = a +:+ (b +:+ c).
Proof.
  induction a as [| x a IH]; [done |]. by rewrite !append_cons, IH.
Qed.

Lemma rfind_app_None (c : ascii) (a t : string) :
  rfind c t = None → rfind c (a +:+ String c t) = Some (String.length a).
Proof.
  intros Ht. induction a as [| x a IH].
  - rewrite append_nil. cbn [rfind]. by rewrite Ht, Ascii.eqb_refl.
  - rewrite append_cons. cbn [rfind String.length]. by rewrite IH.
Qed.

Lemma rfind_split (c : ascii) (s : string) :
  ∀ i, rfind c s = Some i →
       ∃ a t, s = a +:+ String c t ∧ String.length a = i ∧ rfind c t = None.
Proof.
  induction s as [| x s IH]; intros i; cbn [rfind]; [done |].
  destruct (rfind c s) as [j |] eqn:Hj.
  - intros [= <-]. destruct (IH j eq_refl) as (a & t & -> & <- & Ht).
    exists (String x a), t. by rewrite append_cons.
  - destruct (Ascii.eqb_spec x c) as [-> | ?]; [| done]. intros [= <-].
    exists "", s. by rewrite append_nil.
Qed.

Lemma substring_app_r (a b : string) :
  substring (String.length a) (String.length b) (a +:+ b) = b.
Proof.
  induction a as [| x a IH].
  - rewrite append_nil. apply substring_whole.
  - rewrite append_cons. cbn [String.length substring]. apply IH.
Qed.

Lemma substring_app_l (a b : string) :
  substring 0 (String.length a) (a +:+ b) = a.
Proof.
  induction a as [| x a IH].
  - rewrite append_nil. by destruct b.
  - rewrite append_cons. cbn [String.length substring]. by rewrite IH.
Qed.

(** A name that ends in a dot followed by dot-free text, with something
    before the dot, splits exactly there. *)
Lemma split_point_app (a t : string) :
  a ≠ "" → t ≠ "" → rfind "." t = None →
  split_point (a +:+ String "." t) = Some (String.length a).
Proof.
  intros Ha Ht Hnone. unfold split_point. rewrite (rfind_app_None _ _ _ Hnone).
  rewrite string_length_append. cbn [String.length].
  assert (0 < String.length a)%nat by (destruct a; [done | cbn; lia]).
  assert (0 < String.length t)%nat by (destruct t; [done | cbn; lia]).
  destruct (Nat.ltb_spec 0 (String.length a)); [| lia].
  by destruct (Nat.ltb_spec (String.length a) (String.length a + S (String.length t) - 1));
    [| lia].
Qed.

Lemma suffix_stem_app (p : path) (a t : string) :
  a ≠ "" → t ≠ "" → rfind "." t = None → name p = a +:+ String "." t →
  stem p = a ∧ suffix p = String "." t.
Proof.
  intros Ha Ht Hnone Hname. unfold stem, suffix.
  rewrite Hname, (split_point_app a t Ha Ht Hnone). split.
  - apply substring_app_l.
  - rewrite string_length_append, Nat.add_comm, Nat.add_sub. apply substring_app_r.
Qed.

(** A non-empty suffix is a dot followed by dot-free text, after a
    non-empty stem. *)
Lemma suffix_shape (p : path) :
  suffix p ≠ "" →
  ∃ t, t ≠ "" ∧ rfind "." t = None ∧ suffix p = String "." t ∧ stem p ≠ "" ∧
       name p = stem p +:+ String "." t.
Proof.
  intros Hsuf. pose proof (stem_suffix p) as Hname.
  unfold stem, suffix, split_point in *.
  destruct (rfind "." (name p)) as [i |] eqn:Hi; [| done].
  destruct (Nat.ltb_spec 0 i) as [Hpos |]; [| done].
  destruct (Nat.ltb_spec i (String.length (name p) - 1)) as [Hlt |]; [| done].
  cbn [andb] in *.
  destruct (rfind_split _ _ _ Hi) as (a & t & Hat & <- & Ht).
  assert (Hsub : substring (String.length a)
                   (String.length (name p) - String.length a) (name p) = String "." t).
  { rewrite Hat, string_length_append, Nat.add_comm, Nat.add_sub.
    apply substring_app_r. }
  assert (Hstem : substring 0 (String.length a) (name p) = a).
  { rewrite Hat. apply substring_app_l. }
  rewrite Hsub, Hstem in *. exists t.
  assert (t ≠ "").
  { intros ->. rewrite Hat, string_length_append in Hlt. cbn in Hlt. lia. }
  assert (a ≠ "") by (intros ->; cbn in Hpos; lia).
  done.
Qed.

Lemma is_python_file_name (p : path) :
  FileUtils.is_python_file p = true ↔ ∃ s, s ≠ "" ∧ name p = s +:+ ".py".
Proof.
  unfold FileUtils.is_python_file. rewrite String.eqb_eq. split.
  - intros Hsuf. exists (stem p). pose proof (stem_suffix p) as Hname.
    rewrite Hsuf in Hname. split; [| done].
    destruct (suffix_shape p) as (t & _ & _ & _ & Hstem & _); [by rewrite Hsuf | done].
  - intros (s & Hs & Hname).
    by destruct (suffix_stem_app p s "py" Hs) as [_ ->].
Qed.


Lemma endswith_spec (suf n : string) :
  endswith suf n = true ↔ ∃ s, n = s +:+ suf.
Proof.
  induction n as [| x n IH]; cbn [endswith].
  - rewrite orb_false_r, String.eqb_eq. split.
    + intros ->. by exists "".
    + intros (s & Hs). destruct s; [by rewrite append_nil in Hs |].
      by rewrite append_cons in Hs.
  - rewrite orb_true_iff, String.eqb_eq, IH. split.
    + intros [-> | (s & ->)]; [by exists "" | exists (String x s)].
      by rewrite append_cons.
    + intros (s & Hs). destruct s as [| y s].
      * left. by rewrite append_nil in Hs.
      * right. rewrite append_cons in Hs. injection Hs as -> ->. by exists s.
Qed.

(** X4.  [is_python_file] holds exactly for the paths whose last component
    is a non-empty stem followed by ".py": the name must end with ".py"
    and must not be ".py" alone, which pathlib reads as a hidden file
    without extension. *)
Theorem is_python_file_iff (p : path) :
  (FileUtils.is_python_file p = true ↔ ∃ s, s ≠ "" ∧ name p = s +:+ ".py") ∧
  (FileUtils.is_python_file p = true ↔
   endswith ".py" (name p) = true ∧ name p ≠ ".py").
Proof.
  split; [apply is_python_file_name |].
  rewrite is_python_file_name, endswith_spec. split.
  - intros (s & Hs & Hname). split; [by exists s |].
    rewrite Hname. intros Heq. apply (f_equal String.length) in Heq.
    rewrite string_length_append in Heq. destruct s; [done |]. cbn in Heq. lia.
  - intros [(s & Hname) Hne]. exists s. split; [| done].
    intros ->. by rewrite append_nil in Hname.
Qed.

Lemma create_backup_path (now : Datetime.datetime) (fs fs' : filesystem) (p b : path) :
  FileUtils.create_backup now fs p = Ok (b, fs') → b = FileUtils.backup_path now p.
Proof.
  unfold FileUtils.create_backup.
  destruct (negb (exists_ fs p)); [done |].
  destruct (negb (is_file fs p)); [done |].
  destruct (copy2 fs p _) as [fs1 | e]; [| done]. by intros [= <- _].
Qed.

Lemma backup_path_suffix (now : Datetime.datetime) (p : path) :
  suffix p ≠ "" →
  suffix (FileUtils.backup_path now p) = suffix p ∧
  stem (FileUtils.backup_path now p)
  = stem p +:+ ".backup_" +:+ Datetime.strftime_backup now.
Proof.
  intros Hsuf. destruct (suffix_shape p Hsuf) as (t & Ht & Hnone & Hs & Hstem & Hname).
  rewrite Hs.
  destruct (suffix_stem_app (FileUtils.backup_path now p)
              (stem p +:+ ".backup_" +:+ Datetime.strftime_backup now) t)
    as [Hstem' Hsuf']; try done.
  - destruct (stem p); [done |]. by rewrite append_cons.
  - unfold FileUtils.backup_path. rewrite name_joinpath.
    unfold FileUtils.backup_name. by rewrite Hs, !string_app_assoc.
Qed.

(** X5.  The backup that [create_backup] makes of a file with an extension
    has the same extension, and the stem of the original followed by
    ".backup_" and the timestamp as its stem.  In particular the backup of
    a Python file is again a Python file. *)
Theorem create_backup_keeps_suffix
    (now : Datetime.datetime) (fs fs' : filesystem) (file_path backup : path) :
  FileUtils.create_backup now fs file_path = Ok (backup, fs') →
  suffix file_path ≠ "" →
  suffix backup = suffix file_path ∧
  stem backup = stem file_path +:+ ".backup_" +:+ Datetime.strftime_backup now ∧
  FileUtils.is_python_file backup = FileUtils.is_python_file file_path.
Proof.
  intros Hrun Hsuf. apply create_backup_path in Hrun as ->.
  destruct (backup_path_suffix now file_path Hsuf) as [Hs Hst].
  split; [done |]. split; [done |]. unfold FileUtils.is_python_file. by rewrite Hs.
Qed.

Lemma create_backup_keeps_suffix_witness :
  suffix ["tmp"; "test.backup_20240229_235907.py"] = suffix ["tmp"; "test.py"] ∧
  stem ["tmp"; "test.backup_20240229_235907.py"]
  = stem ["tmp"; "test.py"] +:+ ".backup_" +:+ Datetime.strftime_backup sample_timestamp ∧
  FileUtils.is_python_file ["tmp"; "test.backup_20240229_235907.py"]
  = FileUtils.is_python_file ["tmp"; "test.py"].
Proof.
  apply (create_backup_keeps_suffix sample_timestamp sample_fs
           (<[ ["tmp"; "test.backup_20240229_235907.py"]
                 := File (list_byte_of_string "original content") ]> sample_fs)
           ["tmp"; "test.py"]).
  - vm_compute. reflexivity.
  - vm_compute. discriminate.
Defined.

End Suffixes.

Section FileOperations.

Lemma elem_of_ancestors (q p : path) :
  q ∈ ancestors_or_self p ↔ q `prefix_of` p.
Proof.
  unfold ancestors_or_self. rewrite list_elem_of_fmap. split.
  - intros (n & -> & _). apply prefix_take.
  - intros [rest ->]. exists (List.length q). split.
    + by rewrite take_app_length.
    + apply elem_of_seq. rewrite length_app. lia.
Qed.

Lemma lookup_make_dirs (l : list path) :
  ∀ (fs : filesystem) (q : path),
    foldl (λ acc d, <[d := Dir]> acc) fs l !! q
    = if bool_decide (q ∈ l) then Some Dir else fs !! q.
Proof.
  induction l as [| d l IH]; intros fs q; cbn [foldl].
  - by rewrite bool_decide_eq_false_2 by set_solver.
  - rewrite IH. destruct (decide (q ∈ l)) as [Hl | Hl].
    + by rewrite !bool_decide_eq_true_2 by set_solver.
    + rewrite (bool_decide_eq_false_2 (q ∈ l)) by done.
      destruct (decide (q = d)) as [-> | Hne].
      * by rewrite lookup_insert_eq, bool_decide_eq_true_2 by set_solver.
      * by rewrite lookup_insert_ne, bool_decide_eq_false_2 by set_solver.
Qed.

Lemma mkdir_parents_ok (fs fs' : filesystem) (d : path) :
  mkdir_parents fs d = Ok fs' ↔
  (∀ q, q `prefix_of` d → is_file fs q = false) ∧
  fs' = foldl (λ acc q, <[q := Dir]> acc) fs (ancestors_or_self d).
Proof.
  unfold mkdir_parents.
  destruct (existsb (is_file fs) (ancestors_or_self d)) eqn:Hex.
  - split; [done |]. intros [Hno _].
    apply existsb_exists in Hex as (q & Hq & Hfile).
    apply list_elem_of_In, elem_of_ancestors in Hq. by rewrite (Hno q Hq) in Hfile.
  - split.
    + intros [= <-]. split; [| done]. intros q Hq.
      apply not_true_is_false. intros Hfile.
      apply not_true_iff_false in Hex. apply Hex, existsb_exists.
      exists q. split; [| done]. by apply list_elem_of_In, elem_of_ancestors.
    + by intros [_ ->].
Qed.

Lemma mkdir_parents_lookup (fs fs' : filesystem) (d q : path) :
  mkdir_parents fs d = Ok fs' →
  fs' !! q = if bool_decide (q `prefix_of` d) then Some Dir else fs !! q.
Proof.
  intros [_ ->]%mkdir_parents_ok. rewrite lookup_make_dirs.
  by rewrite (bool_decide_ext _ _ (elem_of_ancestors q d)).
Qed.


Lemma prefix_parent_self (p : path) : p `prefix_of` parent p ↔ p = [].
Proof.
  split; [| by intros ->].
  intros Hpre. destruct (decide (p = [])) as [| Hne]; [done |].
  destruct (exists_last Hne) as (q & x & ->).
  unfold parent in Hpre. rewrite removelast_last in Hpre.
  by apply prefix_snoc_not in Hpre.
Qed.

Lemma write_file_ok (fs fs' : filesystem) (p : path) (content : string) :
  FileUtils.write_file fs p content = Ok fs' ↔
  p ≠ [] ∧ (∀ q, q `prefix_of` parent p → is_file fs q = false) ∧
  is_dir fs p = false ∧
  fs' = <[p := File (list_byte_of_string content)]>
          (foldl (λ acc q, <[q := Dir]> acc) fs (ancestors_or_self (parent p))).
Proof.
  unfold FileUtils.write_file.
  destruct (mkdir_parents fs (parent p)) as [fs1 | e] eqn:Hmk; cbn [mbind result_bind bind].
  - pose proof (mkdir_parents_lookup fs fs1 (parent p) p Hmk) as Hp.
    pose proof (mkdir_parents_lookup fs fs1 (parent p) (parent p) Hmk) as Hpar.
    rewrite bool_decide_eq_true_2 in Hpar by done.
    apply mkdir_parents_ok in Hmk as [Hno ->].
    unfold write_text, is_dir at 1. rewrite Hp, Hpar.
    case_bool_decide as Hroot.
    + apply prefix_parent_self in Hroot. cbn. naive_solver.
    + rewrite prefix_parent_self in Hroot. fold (is_dir fs p).
      destruct (is_dir fs p); cbn; naive_solver.
  - split; [done |]. intros (_ & Hno & _ & _).
    assert (mkdir_parents fs (parent p) =
            Ok (foldl (λ acc q, <[q := Dir]> acc) fs (ancestors_or_self (parent p))))
      as Hok by by apply mkdir_parents_ok.
    congruence.
Qed.

(** X6.  [write_file] succeeds exactly when the path has a name, no
    directory on the way to it is a regular file and the path itself is not
    a directory.  It then leaves the content at the path, every directory
    on the way to it in place (the missing ones created), and every other
    entry as it was; an existing file is overwritten. *)
Theorem write_file_creates_parents (fs : filesystem) (p : path) (content : string) :
  (is_ok (FileUtils.write_file fs p content) = true ↔
   p ≠ [] ∧ (∀ q, q `prefix_of` parent p → is_file fs q = false) ∧
   is_dir fs p = false) ∧
  (∀ fs', FileUtils.write_file fs p content = Ok fs' →
     fs' !! p = Some (File (list_byte_of_string content)) ∧
     FileUtils.file_exists fs' p = true ∧
     (∀ q, q `prefix_of` parent p → fs' !! q = Some Dir) ∧
     (∀ q, q ≠ p → ¬ q `prefix_of` parent p → fs' !! q = fs !! q)).
Proof.
  split.
  - split.
    + destruct (FileUtils.write_file fs p content) as [fs' |] eqn:Hw; [| done].
      intros _. apply write_file_ok in Hw. naive_solver.
    + intros (Hp & Hno & Hdir).
      by rewrite (proj2 (write_file_ok fs _ p content) (conj Hp (conj Hno (conj Hdir eq_refl)))).
  - intros fs' (Hp & Hno & Hdir & ->)%write_file_ok.
    assert (Hnp : ¬ p `prefix_of` parent p) by by rewrite prefix_parent_self.
    split; [apply lookup_insert_eq |].
    split; [unfold FileUtils.file_exists, is_file; by rewrite lookup_insert_eq |].
    split.
    + intros q Hq. rewrite lookup_insert_ne by (by intros ->).
      rewrite lookup_make_dirs, bool_decide_eq_true_2; [done |].
      by apply elem_of_ancestors.
    + intros q Hqp Hq. rewrite lookup_insert_ne by done.
      rewrite lookup_make_dirs, bool_decide_eq_false_2; [done |].
      by rewrite elem_of_ancestors.
Qed.

Lemma write_file_creates_parents_witness :
  ∃ fs', FileUtils.write_file sample_fs ["tmp"; "pkg"; "sub"; "mod.py"] "x = 1" = Ok fs' ∧
         fs' !! ["tmp"; "pkg"; "sub"] = Some Dir ∧
         fs' !! ["tmp"; "test.py"] = sample_fs !! ["tmp"; "test.py"].
Proof.
  destruct (write_file_creates_parents sample_fs ["tmp"; "pkg"; "sub"; "mod.py"] "x = 1")
    as [Hok Heff].
  destruct (FileUtils.write_file sample_fs ["tmp"; "pkg"; "sub"; "mod.py"] "x = 1")
    as [fs' | e] eqn:Hw; [| by vm_compute in Hw].
  exists fs'. split; [done |].
  destruct (Heff fs' eq_refl) as (_ & _ & Hdirs & Hframe). split.
  - apply Hdirs. by exists [].
  - apply Hframe; [done |]. intros [rest Hrest]. done.
Defined.


Lemma universal_newlines_id (s : string) :
  rfind "013" s = None → universal_newlines s = s.
Proof.
  induction s as [| a s IH]; [done |]. cbn [rfind universal_newlines].
  destruct (rfind "013" s) as [i |]; [done |].
  destruct (Ascii.eqb a "013"); [done |]. intros _. by rewrite IH.
Qed.

Lemma read_file_File (fs : filesystem) (p : path) (c : list Byte.byte) :
  fs !! p = Some (File c) → FileUtils.read_file fs p = decode c.
Proof.
  intros Hp. unfold FileUtils.read_file, exists_, is_file, read_text. rewrite Hp.
  cbn [negb]. unfold decode.
  by destruct (utf8_valid (string_of_list_byte c)).
Qed.

(** X7.  What [write_file] wrote, [read_file] reads back with every
    carriage return, alone or before a line feed, turned into a line feed:
    a text without carriage returns is read back as it was written, any
    other text is not.  (A Python [str] is held as its UTF-8 text, which is
    the hypothesis on [content].) *)
Theorem read_file_after_write_file
    (fs fs' : filesystem) (p : path) (content : string) :
  FileUtils.write_file fs p content = Ok fs' →
  utf8_valid content = true →
  FileUtils.read_file fs' p = Ok (universal_newlines content) ∧
  (rfind "013" content = None → FileUtils.read_file fs' p = Ok content) ∧
  (∀ before after,
     content = before +:+ String "013" after →
     FileUtils.read_file fs' p ≠ Ok content).
Proof.
  intros Hw Hutf.
  assert (Hread : FileUtils.read_file fs' p = Ok (universal_newlines content)).
  { apply write_file_ok in Hw as (_ & _ & _ & ->).
    rewrite (read_file_File _ p (list_byte_of_string content))
      by apply lookup_insert_eq.
    unfold decode. by rewrite string_of_list_byte_of_string, Hutf. }
  split; [done |]. split.
  - intros Hcr. by rewrite Hread, universal_newlines_id.
  - intros before after -> Heq. rewrite Hread in Heq. injection Heq as Heq.
    clear Hread Hw Hutf. induction before as [| a before IH].
    + rewrite append_nil in Heq. cbn in Heq. done.
    + rewrite append_cons in Heq. cbn [universal_newlines] in Heq.
      destruct (Ascii.eqb_spec a "013") as [-> | Hne]; [done |].
      injection Heq as Heq. by apply IH.
Qed.

Lemma read_file_after_write_file_witness :
  ∃ fs', FileUtils.write_file sample_fs ["tmp"; "notes.txt"] "one
two" = Ok fs' ∧
         FileUtils.read_file fs' ["tmp"; "notes.txt"] = Ok "one
two".
Proof.
  destruct (FileUtils.write_file sample_fs ["tmp"; "notes.txt"] "one
two") as [fs' | e] eqn:Hw; [| by vm_compute in Hw].
  exists fs'. split; [done |].
  by apply (read_file_after_write_file sample_fs fs' ["tmp"; "notes.txt"] "one
two").
Defined.

Lemma create_backup_inv (now : Datetime.datetime) (fs fs' : filesystem) (p b : path) :
  FileUtils.create_backup now fs p = Ok (b, fs') →
  ∃ c, fs !! p = Some (File c) ∧ b = FileUtils.backup_path now p ∧
       (is_dir fs b = false → fs' = <[b := File c]> fs) ∧
       is_Some (fs' !! b) ∧ fs' !! p = Some (File c) ∧
       (∀ q, is_dir fs q = true → is_dir fs' q = true).
Proof.
  intros Hrun. pose proof (create_backup_path _ _ _ _ _ Hrun) as ->.
  pose proof Hrun as Hraw.
  unfold FileUtils.create_backup, exists_, is_file in Hraw.
  destruct (fs !! p) as [[c |] |] eqn:Hp; try done. cbn [negb] in Hraw.
  change (joinpath (parent p) _) with (FileUtils.backup_path now p) in Hraw.
  exists c. split; [done |]. split; [done |].
  pose proof (backup_path_fresh_name now p) as Hfresh.
  destruct (is_dir fs (FileUtils.backup_path now p)) eqn:Hdir.
  - split; [done |].
    unfold copy2 in Hraw. rewrite Hp, Hdir in Hraw. cbv zeta iota in Hraw.
    case_bool_decide as Hself; [done |].
    destruct (is_dir fs (joinpath _ _)) eqn:Htarget; [done |].
    injection Hraw as <-.
    assert (Hne : joinpath (FileUtils.backup_path now p) (name p)
                  ≠ FileUtils.backup_path now p).
    { unfold joinpath. intros Heq. apply (f_equal List.length) in Heq.
      rewrite length_app in Heq. cbn in Heq. lia. }
    split; [| split].
    + rewrite (lookup_insert_ne _ _ _ _ Hne). unfold is_dir in Hdir.
      by destruct (fs !! FileUtils.backup_path now p) as [[] |].
    + by rewrite lookup_insert_ne.
    + intros q Hq. unfold is_dir. rewrite lookup_insert_ne; [done |].
      intros <-. congruence.
  - rewrite (create_backup_ok now fs p c Hp Hdir) in Hrun. injection Hrun as <-.
    split; [done |]. split; [by rewrite lookup_insert_eq |].
    split; [by rewrite lookup_insert_ne |].
    intros q Hq. unfold is_dir. rewrite lookup_insert_ne; [done |].
    intros <-. congruence.
Qed.

(** X8.  Reading the backup gives what reading the original gives: after
    [create_backup] (the backup's name not being taken by a directory),
    [read_file] answers on the backup, and still on the original, exactly
    what it answered on the original before, be it the text or the error
    of a file that is not UTF-8. *)
Theorem read_file_of_backup
    (now : Datetime.datetime) (fs fs' : filesystem) (file_path backup : path) :
  FileUtils.create_backup now fs file_path = Ok (backup, fs') →
  is_dir fs backup = false →
  FileUtils.read_file fs' backup = FileUtils.read_file fs file_path ∧
  FileUtils.read_file fs' file_path = FileUtils.read_file fs file_path.
Proof.
  intros Hrun Hdir.
  destruct (create_backup_inv _ _ _ _ _ Hrun) as (c & Hp & -> & Hfs' & _).
  rewrite (Hfs' Hdir). rewrite (read_file_File fs file_path c Hp).
  split.
  - apply read_file_File, lookup_insert_eq.
  - apply read_file_File. rewrite lookup_insert_ne; [done |].
    apply backup_path_fresh_name.
Qed.

Lemma read_file_of_backup_witness :
  FileUtils.read_file
    (<[ ["tmp"; "test.backup_20240229_235907.py"]
          := File (list_byte_of_string "original content") ]> sample_fs)
    ["tmp"; "test.backup_20240229_235907.py"]
  = FileUtils.read_file sample_fs ["tmp"; "test.py"].
Proof.
  apply (read_file_of_backup sample_timestamp sample_fs _ ["tmp"; "test.py"]).
  - vm_compute. reflexivity.
  - reflexivity.
Defined.

Lemma delete_file_File (fs : filesystem) (p : path) (c : list Byte.byte) :
  fs !! p = Some (File c) → FileUtils.delete_file fs p = Ok (delete p fs).
Proof.
  intros Hp. unfold FileUtils.delete_file, exists_, unlink. by rewrite Hp.
Qed.

Lemma make_dirs_id (fs : filesystem) (l : list path) :
  (∀ q, q ∈ l → fs !! q = Some Dir) →
  foldl (λ acc q, <[q := Dir]> acc) fs l = fs.
Proof.
  intros Hl. apply map_eq. intros q. rewrite lookup_make_dirs.
  case_bool_decide as Hq; [by rewrite Hl | done].
Qed.

(** X9.  [delete_file] removes a regular file and nothing else, refuses a
    directory with [OSError] and a missing path with [FileNotFoundError].
    It undoes the two operations that create a file: deleting the backup
    that [create_backup] made under a free name, or the file that
    [write_file] made under a free name in an existing directory, gives
    back the file system as it was before. *)
Theorem delete_file_undoes (fs : filesystem) (p : path) :
  (∀ c, fs !! p = Some (File c) →
        ∃ fs', FileUtils.delete_file fs p = Ok fs' ∧ fs' !! p = None ∧
               FileUtils.file_exists fs' p = false ∧
               ∀ q, q ≠ p → fs' !! q = fs !! q) ∧
  (fs !! p = Some Dir → ∃ msg, FileUtils.delete_file fs p = Raise (OSError msg)) ∧
  (fs !! p = None → ∃ msg, FileUtils.delete_file fs p = Raise (FileNotFoundError msg)) ∧
  (∀ now backup fs',
     FileUtils.create_backup now fs p = Ok (backup, fs') →
     fs !! backup = None → FileUtils.delete_file fs' backup = Ok fs) ∧
  (∀ content fs',
     FileUtils.write_file fs p content = Ok fs' →
     fs !! p = None → (∀ q, q `prefix_of` parent p → fs !! q = Some Dir) →
     FileUtils.delete_file fs' p = Ok fs).
Proof.
  split; [| split; [| split; [| split]]].
  - intros c Hp. exists (delete p fs).
    split; [by apply (delete_file_File fs p c) |].
    split; [apply lookup_delete_eq |].
    split; [unfold FileUtils.file_exists, is_file; by rewrite lookup_delete_eq |].
    intros q Hq. by rewrite lookup_delete_ne.
  - intros Hp. unfold FileUtils.delete_file, exists_, unlink. rewrite Hp.
    by eexists.
  - intros Hp. unfold FileUtils.delete_file, exists_. rewrite Hp. by eexists.
  - intros now backup fs' Hrun Hfree.
    destruct (create_backup_inv _ _ _ _ _ Hrun) as (c & Hp & -> & Hfs' & _).
    rewrite (Hfs' (is_dir_None _ _ Hfree)).
    rewrite (delete_file_File _ _ c) by apply lookup_insert_eq.
    by rewrite delete_insert_eq, delete_id.
  - intros content fs' (_ & _ & _ & ->)%write_file_ok Hfree Hdirs.
    rewrite make_dirs_id by (intros q Hq; by apply Hdirs, elem_of_ancestors).
    rewrite (delete_file_File _ _ (list_byte_of_string content))
      by apply lookup_insert_eq.
    by rewrite delete_insert_eq, delete_id.
Qed.

Lemma delete_file_undoes_witness :
  FileUtils.delete_file
    (<[ ["tmp"; "test.backup_20240229_235907.py"]
          := File (list_byte_of_string "original content") ]> sample_fs)
    ["tmp"; "test.backup_20240229_235907.py"]
  = Ok sample_fs.
Proof.
  destruct (delete_file_undoes sample_fs ["tmp"; "test.py"]) as (_ & _ & _ & H & _).
  apply (H sample_timestamp); [vm_compute; reflexivity | reflexivity].
Defined.


Lemma elem_of_rglob_suffix (fs : filesystem) (root : path) (suf : string) (p : path) :
  p ∈ rglob_suffix fs root suf ↔
  is_Some (fs !! p) ∧ root `prefix_of` p ∧ root ≠ p ∧ endswith suf (name p) = true.
Proof.
  unfold rglob_suffix. rewrite list_elem_of_filter, list_elem_of_fmap. split.
  - intros [Hp ([q n] & -> & Hin)]. apply elem_of_map_to_list in Hin.
    split; [by eexists | done].
  - intros [[n Hn] Hp]. split; [done |].
    exists (p, n). split; [done | by apply elem_of_map_to_list].
Qed.

(** X10.  [find_python_files] raises [NotADirectoryError] (an [OSError])
    on anything but a directory.  On a directory it lists exactly the
    entries below it, at any depth, whose name ends with ".py" (files and
    directories alike), so every entry below the directory for which
    [is_python_file] holds is listed. *)
Theorem find_python_files_lists (fs : filesystem) (directory : path) :
  (is_dir fs directory = false →
   ∃ msg, FileUtils.find_python_files fs directory = Raise (OSError msg)) ∧
  (is_dir fs directory = true →
   ∃ l, FileUtils.find_python_files fs directory = Ok l ∧
        (∀ s, s ∈ l ↔
              ∃ q, s = str q ∧ is_Some (fs !! q) ∧ directory `prefix_of` q ∧
                   directory ≠ q ∧ endswith ".py" (name q) = true) ∧
        (∀ q, is_Some (fs !! q) → directory `prefix_of` q → directory ≠ q →
              FileUtils.is_python_file q = true → str q ∈ l)).
Proof.
  unfold FileUtils.find_python_files. split; intros ->; cbn [negb]; [by eexists |].
  eexists. split; [done |].
  assert (Hin : ∀ s, s ∈ str <$> rglob_suffix fs directory ".py" ↔
            ∃ q, s = str q ∧ is_Some (fs !! q) ∧ directory `prefix_of` q ∧
                 directory ≠ q ∧ endswith ".py" (name q) = true).
  { intros s. rewrite list_elem_of_fmap. split.
    - intros (q & -> & Hq%elem_of_rglob_suffix). by exists q.
    - intros (q & -> & Hq). exists q. split; [done |].
      by apply elem_of_rglob_suffix. }
  split; [exact Hin |].
  intros q Hex Hpre Hne Hpy. apply Hin. exists q.
  apply is_python_file_iff in Hpy as [Hends _]. done.
Qed.

Lemma find_python_files_lists_witness :
  ∃ l, FileUtils.find_python_files sample_fs ["tmp"] = Ok l ∧ "tmp/test.py" ∈ l.
Proof.
  destruct (find_python_files_lists sample_fs ["tmp"]) as [_ H].
  destruct (H eq_refl) as (l & Hl & _ & Hall). exists l. split; [exact Hl |].
  apply (Hall ["tmp"; "test.py"]); [by eexists | by exists ["test.py"] | done | reflexivity].
Defined.

(** X11.  Backups are picked up by the scan: once [create_backup] has
    copied a Python file that lies below a directory, [find_python_files]
    on that directory lists the original and the backup. *)
Theorem find_python_files_lists_backup
    (now : Datetime.datetime) (fs fs' : filesystem) (directory file_path backup : path) :
  FileUtils.create_backup now fs file_path = Ok (backup, fs') →
  FileUtils.is_python_file file_path = true →
  is_dir fs directory = true →
  directory `prefix_of` file_path → directory ≠ file_path →
  ∃ l, FileUtils.find_python_files fs' directory = Ok l ∧
       str file_path ∈ l ∧ str backup ∈ l.
Proof.
  intros Hrun Hpy Hdir Hpre Hne.
  assert (Hsuf : suffix file_path ≠ "").
  { unfold FileUtils.is_python_file in Hpy. apply String.eqb_eq in Hpy.
    by rewrite Hpy. }
  assert (Hpyb : FileUtils.is_python_file backup = FileUtils.is_python_file file_path).
  { pose proof (create_backup_path _ _ _ _ _ Hrun) as ->.
    unfold FileUtils.is_python_file.
    by destruct (backup_path_suffix now file_path Hsuf) as [-> _]. }
  destruct (create_backup_inv _ _ _ _ _ Hrun) as (c & Hp & -> & _ & Hb & Hp' & Hdirs).
  destruct (find_python_files_lists fs' directory) as [_ H].
  destruct (H (Hdirs _ Hdir)) as (l & Hl & _ & Hall). exists l.
  split; [exact Hl |]. split.
  - apply Hall; [by rewrite Hp' | done | done | done].
  - pose proof (below_parent _ _ Hpre Hne) as Hpar.
    apply Hall; [done | | | by rewrite Hpyb].
    + unfold FileUtils.backup_path, joinpath. by apply prefix_app_r.
    + intros ->. apply prefix_length in Hpar.
      unfold FileUtils.backup_path, joinpath in Hpar.
      rewrite length_app in Hpar. cbn in Hpar. lia.
Qed.

Lemma find_python_files_lists_backup_witness :
  ∃ l, FileUtils.find_python_files
         (<[ ["tmp"; "test.backup_20240229_235907.py"]
               := File (list_byte_of_string "original content") ]> sample_fs) ["tmp"]
       = Ok l ∧
       "tmp/test.py" ∈ l ∧ "tmp/test.backup_20240229_235907.py" ∈ l.
Proof.
  apply (find_python_files_lists_backup sample_timestamp sample_fs _ ["tmp"]
           ["tmp"; "test.py"] ["tmp"; "test.backup_20240229_235907.py"]).
  - vm_compute. reflexivity.
  - reflexivity.
  - reflexivity.
  - by exists ["test.py"].
  - discriminate.
Defined.

End FileOperations.

(** * Further properties of the text utilities *)

Section Strings.

Lemma rev_app_acc (s t : string) : String.rev_app s t = String.rev s +:+ t.
Proof.
  unfold String.rev. revert t. induction s as [| a s IH]; intros t; cbn [String.rev_app].
  - by rewrite append_nil.
  - rewrite (IH (String a t)), (IH (String a "")), string_app_assoc.
    by rewrite append_cons, append_nil.
Qed.

Lemma rev_cons (a : ascii) (s : string) :
  String.rev (String a s) = String.rev s +:+ String a "".
Proof. unfold String.rev at 1. cbn [String.rev_app]. apply rev_app_acc. Qed.

Lemma rev_append (s t : string) : String.rev (s +:+ t) = String.rev t +:+ String.rev s.
Proof.
  induction s as [| a s IH].
  - by rewrite append_nil, append_empty.
  - by rewrite append_cons, !rev_cons, IH, string_app_assoc.
Qed.

Lemma rev_involutive (s : string) : String.rev (String.rev s) = s.
Proof.
  induction s as [| a s IH]; [done |].
  rewrite rev_cons, rev_append, IH. change (String.rev (String a "")) with (String a "").
  by rewrite append_cons, append_nil.
Qed.

Lemma blank_append (s t : string) : blank (s +:+ t) = blank s && blank t.
Proof.
  induction s as [| a s IH]; [by rewrite append_nil |].
  rewrite append_cons. cbn [blank]. by rewrite IH, andb_assoc.
Qed.

Lemma blank_rev (s : string) : blank (String.rev s) = blank s.
Proof.
  induction s as [| a s IH]; [done |].
  rewrite rev_cons, blank_append, IH. cbn [blank]. by rewrite andb_true_r, andb_comm.
Qed.

Lemma lstrip_with_blank sp2 sp3 (ws s : string) :
  blank ws = true →
  Str.lstrip_with Str.is_space1 sp2 sp3 (ws +:+ s) = Str.lstrip_with Str.is_space1 sp2 sp3 s.
Proof.
  induction ws as [| a ws IH]; [by rewrite append_nil |].
  cbn [blank]. intros [Ha Hws]%andb_true_iff. rewrite append_cons.
  cbn [Str.lstrip_with]. rewrite Ha. by apply IH.
Qed.

Lemma lstrip_with_stop sp1 sp2 sp3 (a : ascii) (r : string) :
  sp1 a = false → (∀ b, sp2 a b = false) → (∀ b c, sp3 a b c = false) →
  Str.lstrip_with sp1 sp2 sp3 (String a r) = String a r.
Proof.
  intros H1 H2 H3. cbn [Str.lstrip_with]. rewrite H1.
  destruct r as [| b [| c r]]; [done | by rewrite H2 | by rewrite H2, H3].
Qed.

Lemma plain_inv (a : ascii) :
  plain a = true → (Str.byte a < 128)%N ∧ Str.is_space1 a = false.
Proof.
  unfold plain. intros [Hlt Hsp]%andb_true_iff. split; [by apply N.ltb_lt |].
  by apply negb_true_iff.
Qed.

Lemma is_space2_plain_l (a b : ascii) : plain a = true → Str.is_space2 a b = false.
Proof.
  intros [Hlt _]%plain_inv. unfold Str.is_space2.
  destruct (N.eqb_spec (Str.byte a) 194); [lia | done].
Qed.

Lemma is_space2_plain_r (a b : ascii) : plain b = true → Str.is_space2 a b = false.
Proof.
  intros [Hlt _]%plain_inv. unfold Str.is_space2.
  destruct (N.eqb_spec (Str.byte b) 133); [lia |].
  destruct (N.eqb_spec (Str.byte b) 160); [lia |]. apply andb_false_r.
Qed.

Lemma is_space3_plain_l (a b c : ascii) : plain a = true → Str.is_space3 a b c = false.
Proof.
  intros [Hlt _]%plain_inv. unfold Str.is_space3.
  destruct (N.eqb_spec (Str.byte a) 225); [lia |].
  destruct (N.eqb_spec (Str.byte a) 226); [lia |].
  destruct (N.eqb_spec (Str.byte a) 227); [lia | done].
Qed.

Lemma is_space3_plain_r (a b c : ascii) : plain c = true → Str.is_space3 a b c = false.
Proof.
  intros [Hlt _]%plain_inv. unfold Str.is_space3.
  destruct (N.eqb_spec (Str.byte c) 128); [lia |].
  destruct (N.eqb_spec (Str.byte c) 159); [lia |].
  destruct (N.eqb_spec (Str.byte c) 168); [lia |].
  destruct (N.eqb_spec (Str.byte c) 169); [lia |].
  destruct (N.eqb_spec (Str.byte c) 175); [lia |].
  destruct (N.leb_spec 128 (Str.byte c)); [lia |].
  by rewrite !andb_false_r.
Qed.

Lemma last_char_inv (s : string) (b : ascii) :
  last_char s = Some b → ∃ m, s = m +:+ String b "".
Proof.
  induction s as [| a s IH]; [done |]. cbn [last_char]. destruct s as [| a' s].
  - intros [= ->]. by exists "".
  - intros Hl. destruct (IH Hl) as [m Hm]. exists (String a m).
    by rewrite append_cons, <- Hm.
Qed.

Lemma last_char_snoc (m : string) (b : ascii) : last_char (m +:+ String b "") = Some b.
Proof.
  induction m as [| a m IH]; [done |]. rewrite append_cons. cbn [last_char].
  destruct (m +:+ String b "") eqn:Hm; [| done].
  destruct m; [by rewrite append_nil in Hm | by rewrite append_cons in Hm].
Qed.

Lemma last_char_append (s t : string) :
  t ≠ "" → last_char (s +:+ t) = last_char t.
Proof.
  intros Ht. induction s as [| a s IH]; [by rewrite append_nil |].
  rewrite append_cons. cbn [last_char]. destruct (s +:+ t) eqn:Hst; [| done].
  destruct s; [by rewrite append_nil in Hst | by rewrite append_cons in Hst].
Qed.

(** [lstrip] removes leading ASCII white space and stops at a plain
    character. *)
Lemma lstrip_trimmed (ws : string) (a : ascii) (r : string) :
  blank ws = true → plain a = true → Str.lstrip (ws +:+ String a r) = String a r.
Proof.
  intros Hws Ha. unfold Str.lstrip. rewrite lstrip_with_blank by done.
  apply lstrip_with_stop.
  - by apply plain_inv.
  - intros b. by apply is_space2_plain_l.
  - intros b c. by apply is_space3_plain_l.
Qed.

Lemma rstrip_trimmed (s ws : string) (b : ascii) :
  blank ws = true → last_char s = Some b → plain b = true → Str.rstrip (s +:+ ws) = s.
Proof.
  intros Hws [m ->]%last_char_inv Hb. unfold Str.rstrip.
  rewrite !rev_append. rewrite lstrip_with_blank by by rewrite blank_rev.
  cbn [String.rev String.rev_app]. rewrite append_cons, append_nil.
  rewrite lstrip_with_stop.
  - by rewrite rev_cons, rev_involutive.
  - by apply plain_inv.
  - intros a. by apply is_space2_plain_r.
  - intros a c. by apply is_space3_plain_r.
Qed.

Lemma trimmed_inv (s : string) :
  trimmed s = true →
  ∃ a r b, s = String a r ∧ plain a = true ∧ last_char s = Some b ∧ plain b = true.
Proof.
  unfold trimmed. intros [Hf Hl]%andb_true_iff.
  destruct s as [| a r]; [done |]. destruct (last_char (String a r)) as [b |] eqn:Hb; [| done].
  by exists a, r, b.
Qed.

(** [strip] gives back a trimmed string from the ASCII white space put
    around it. *)
Lemma strip_trimmed (indent s trailing : string) :
  blank indent = true → blank trailing = true → trimmed s = true →
  Str.strip (indent +:+ s +:+ trailing) = s.
Proof.
  intros Hi Ht (a & r & b & -> & Ha & Hb & Hpb)%trimmed_inv. unfold Str.strip.
  rewrite <- string_app_assoc.
  rewrite (rstrip_trimmed _ _ b); [by apply lstrip_trimmed | done | | done].
  by rewrite last_char_append.
Qed.

Lemma strip_blank (ws : string) : blank ws = true → Str.strip ws = "".
Proof.
  intros Hws. unfold Str.strip, Str.rstrip.
  rewrite <- (append_empty (String.rev ws)).
  rewrite lstrip_with_blank by by rewrite blank_rev. done.
Qed.

End Strings.

(** * Further properties of the environment probes *)

Section Environment.

Lemma packages_foldl (root : path) (l : list path) (acc : list string) :
  foldl (λ packages pyproject,
           if bool_decide (parent pyproject ≠ root)
           then packages ++ [str (parent pyproject)]
           else packages) acc l
  = acc ++ ((λ p, str (parent p)) <$> filter (λ p, parent p ≠ root) l).
Proof.
  revert acc. induction l as [| x l IH]; intros acc; cbn [foldl].
  - by rewrite app_nil_r.
  - rewrite IH, filter_cons. destruct (decide (parent x ≠ root)) as [Hx | Hx].
    + rewrite bool_decide_true by done. by rewrite fmap_cons, <- app_assoc.
    + by rewrite bool_decide_false by done.
Qed.

Lemma joinpath_parent_name (p : path) : p ≠ [] → p = joinpath (parent p) (name p).
Proof. intros Hp. unfold joinpath, parent, name. by apply app_removelast_last. Qed.

(** The directories that [get_monorepo_packages] collects before sorting. *)
Lemma elem_of_packages (fs : filesystem) (root : path) (s : string) :
  s ∈ (λ p, str (parent p)) <$>
        filter (λ p, parent p ≠ root) (rglob fs root "pyproject.toml")
  ↔ ∃ d, is_Some (fs !! joinpath d "pyproject.toml") ∧
         root `prefix_of` d ∧ d ≠ root ∧ s = str d.
Proof.
  rewrite list_elem_of_fmap. split.
  - intros (p & -> & Hp). apply list_elem_of_filter in Hp as [Hpar Hp].
    apply elem_of_rglob in Hp as (Hex & Hpre & Hne & Hname).
    assert (Hnil : p ≠ []) by by apply (name_nonempty p "pyproject.toml").
    exists (parent p). rewrite <- Hname, <- joinpath_parent_name by done.
    split; [done |]. split; [by apply below_parent | done].
  - intros (d & Hex & Hpre & Hne & ->).
    exists (joinpath d "pyproject.toml"). rewrite parent_joinpath. split; [done |].
    apply list_elem_of_filter. rewrite parent_joinpath. split; [done |].
    apply elem_of_rglob. split; [done |].
    destruct (parent_below root (joinpath d "pyproject.toml")) as [Hpre' Hne'].
    + unfold joinpath. destruct d; cbn; congruence.
    + by rewrite parent_joinpath.
    + split; [done |]. split; [| apply name_joinpath].
      apply Hne'. rewrite parent_joinpath. congruence.
Qed.

(** X12.  [get_monorepo_packages] raises ValueError exactly when
    [is_monorepo] answers false.  Otherwise it returns a list that is not
    empty, is sorted in the order of strings, and holds exactly the
    directories strictly below the project path that contain an entry named
    pyproject.toml; the project path itself is never in it as the parent
    of the root manifest. *)
Theorem get_monorepo_packages_sorted (fs : filesystem) (project_path : path) :
  match EnvUtils.get_monorepo_packages fs project_path with
  | Ok packages =>
      EnvUtils.is_monorepo fs project_path = true ∧
      packages ≠ [] ∧
      Sorted String.le packages ∧
      ∀ s, s ∈ packages ↔
           ∃ d, is_Some (fs !! joinpath d "pyproject.toml") ∧
                project_path `prefix_of` d ∧ d ≠ project_path ∧ s = str d
  | Raise e =>
      EnvUtils.is_monorepo fs project_path = false ∧
      e = ValueError ("Project at " +:+ str project_path +:+ " is not a monorepo")
  end.
Proof.
  unfold EnvUtils.get_monorepo_packages.
  destruct (EnvUtils.is_monorepo fs project_path) eqn:Hm; cbn [negb]; [| done].
  rewrite packages_foldl, app_nil_l.
  assert (Hmem : ∀ s,
    s ∈ merge_sort String.le
          ((λ p, str (parent p)) <$>
             filter (λ p, parent p ≠ project_path) (rglob fs project_path "pyproject.toml"))
    ↔ ∃ d, is_Some (fs !! joinpath d "pyproject.toml") ∧
           project_path `prefix_of` d ∧ d ≠ project_path ∧ s = str d).
  { intros s. rewrite merge_sort_Permutation. apply elem_of_packages. }
  split; [done |]. split; [| split; [apply (Sorted_merge_sort String.le) | done]].
  apply is_monorepo_spec in Hm as (_ & p & Hex & Hname & Hpre & Hne).
  assert (Hnil : p ≠ []) by by apply (name_nonempty p "pyproject.toml").
  assert (Hin : str (parent p) ∈
    merge_sort String.le
      ((λ p, str (parent p)) <$>
         filter (λ p, parent p ≠ project_path) (rglob fs project_path "pyproject.toml"))).
  { apply Hmem. exists (parent p). rewrite <- Hname, <- joinpath_parent_name by done.
    split; [done |]. split; [done |]. split; [congruence | done]. }
  intros Hempty. rewrite Hempty in Hin. by apply elem_of_nil in Hin.
Qed.

Lemma get_project_dependencies_cases (fs : filesystem) (project_path : path) :
  EnvUtils.get_project_dependencies fs project_path
  = match fs !! joinpath project_path "uv.lock" with
    | None => Raise (FileNotFoundError ("uv.lock not found in " +:+ str project_path))
    | Some Dir => Raise (ValueError "Failed to parse uv.lock")
    | Some (File content) =>
        match decode content with
        | Ok text => Ok (EnvUtils.parse_lock text)
        | Raise _ => Raise (ValueError "Failed to parse uv.lock")
        end
    end.
Proof.
  unfold EnvUtils.get_project_dependencies, EnvUtils.get_uv_lock_path, exists_, read_text.
  cbv zeta. destruct (fs !! joinpath project_path "uv.lock") as [[content |] |] eqn:Hlock;
    [by rewrite Hlock | by rewrite Hlock | done].
Qed.

Lemma get_monorepo_packages_sorted_witness :
  match EnvUtils.get_monorepo_packages
          {[ ["proj"] := Dir; ["proj"; "pyproject.toml"] := File [];
             ["proj"; "b"; "pyproject.toml"] := File [];
             ["proj"; "a"; "x"; "pyproject.toml"] := File [] ]} ["proj"] with
  | Ok packages => Sorted String.le packages ∧ packages ≠ []
  | Raise _ => False
  end.
Proof.
  pose proof (get_monorepo_packages_sorted
                {[ ["proj"] := Dir; ["proj"; "pyproject.toml"] := File [];
                   ["proj"; "b"; "pyproject.toml"] := File [];
                   ["proj"; "a"; "x"; "pyproject.toml"] := File [] ]} ["proj"]) as H.
  destruct (EnvUtils.get_monorepo_packages _ _) as [packages | e].
  - destruct H as (_ & Hne & Hsorted & _). by split.
  - destruct H as [Hm _]. vm_compute in Hm. discriminate Hm.
Defined.

(** X13.  [get_project_dependencies] raises FileNotFoundError when the
    project has no entry uv.lock, and ValueError when the entry is there
    but cannot be read as text; it returns exactly when uv.lock is a file
    whose bytes are UTF-8.  A project that [is_uv_project] accepts for its
    pyproject.toml alone has no dependencies to read. *)
Theorem get_project_dependencies_errors (fs : filesystem) (project_path : path) :
  let lock := joinpath project_path "uv.lock" in
  (fs !! lock = None →
   EnvUtils.get_project_dependencies fs project_path
   = Raise (FileNotFoundError ("uv.lock not found in " +:+ str project_path))) ∧
  (is_Some (fs !! lock) →
   is_ok (EnvUtils.get_project_dependencies fs project_path) = false →
   EnvUtils.get_project_dependencies fs project_path
   = Raise (ValueError "Failed to parse uv.lock")) ∧
  (is_ok (EnvUtils.get_project_dependencies fs project_path) = true ↔
   ∃ content text, fs !! lock = Some (File content) ∧ decode content = Ok text) ∧
  (fs !! lock = None → is_Some (fs !! joinpath project_path "pyproject.toml") →
   EnvUtils.is_uv_project fs project_path = true ∧
   is_ok (EnvUtils.get_project_dependencies fs project_path) = false).
Proof.
  intros lock. rewrite get_project_dependencies_cases. fold lock.
  unfold EnvUtils.is_uv_project, EnvUtils.get_uv_lock_path,
    EnvUtils.get_pyproject_toml_path, exists_.
  cbv zeta. fold lock. destruct (fs !! lock) as [[content |] |] eqn:Hlock.
  - destruct (decode content) as [text | e] eqn:Hd; cbn [is_ok].
    + split; [done |]. split; [done |]. split; [| done].
      split; [by exists content, text | done].
    + split; [done |]. split; [done |]. split; [| done].
      split; [done |]. intros (c & t & [= <-] & Hd'). congruence.
  - split; [done |]. split; [done |]. split; [| done].
    split; [done |]. by intros (c & t & [=] & _).
  - split; [done |]. split; [by intros [? [=]] |]. split.
    + split; [done |]. by intros (c & t & [=] & _).
    + intros _ [n ->]. split; [| done].
      rewrite (bool_decide_true (Some _ ≠ None)) by done. apply orb_true_r.
Qed.

Lemma get_project_dependencies_errors_witness :
  EnvUtils.is_uv_project {[ ["proj"] := Dir; ["proj"; "pyproject.toml"] := File [] ]} ["proj"]
  = true ∧
  is_ok (EnvUtils.get_project_dependencies
           {[ ["proj"] := Dir; ["proj"; "pyproject.toml"] := File [] ]} ["proj"]) = false.
Proof.
  apply (get_project_dependencies_errors
           {[ ["proj"] := Dir; ["proj"; "pyproject.toml"] := File [] ]} ["proj"]).
  - reflexivity.
  - eexists. reflexivity.
Defined.

Lemma prefix_append (s t : string) : String.prefix s (s +:+ t) = true.
Proof.
  induction s as [| a s IH]; [by destruct t |].
  rewrite append_cons. cbn [String.prefix]. by destruct (ascii_dec a a).
Qed.

Lemma last_char_None (s : string) : last_char s = None → s = "".
Proof.
  induction s as [| a s IH]; [done |]. cbn [last_char]. destruct s; [done |].
  intros Hl. by specialize (IH Hl).
Qed.

Lemma lstrip_char_stop (c : ascii) (s : string) :
  first_char s ≠ Some c → Str.lstrip_char c s = s.
Proof.
  destruct s as [| a r]; [done |]. cbn [first_char Str.lstrip_char]. intros Hne.
  destruct (Ascii.eqb_spec a c); [congruence | done].
Qed.

(** [strip] of a quoted text by the quote gives the text back, unless the
    text itself begins or ends with a quote. *)
Lemma strip_char_quoted (c : ascii) (s : string) :
  first_char s ≠ Some c → last_char s ≠ Some c →
  Str.strip_char c (String c (s +:+ String c "")) = s.
Proof.
  intros Hfirst Hlast. unfold Str.strip_char.
  rewrite rev_cons, rev_append. change (String.rev (String c "")) with (String c "").
  rewrite !append_cons, append_nil. cbn [Str.lstrip_char]. rewrite Ascii.eqb_refl.
  destruct (last_char s) as [b |] eqn:Hb.
  - destruct (last_char_inv s b Hb) as [m ->].
    rewrite rev_append. change (String.rev (String b "")) with (String b "").
    rewrite !append_cons, append_nil. cbn [Str.lstrip_char].
    destruct (Ascii.eqb_spec b c) as [-> | Hbc]; [done |].
    rewrite rev_cons, rev_append, rev_involutive.
    change (String.rev (String c "")) with (String c "").
    rewrite append_cons, append_nil, append_cons. cbn [Str.lstrip_char].
    rewrite Ascii.eqb_refl. by apply lstrip_char_stop.
  - apply last_char_None in Hb as ->. change (String.rev "") with "".
    rewrite append_nil. cbn [Str.lstrip_char]. by rewrite Ascii.eqb_refl.
Qed.

(** A line of the lock file that declares a package name. *)
Lemma dependency_name_quoted (indent pkg trailing : string) :
  blank indent = true → blank trailing = true →
  first_char pkg ≠ Some quote → last_char pkg ≠ Some quote →
  EnvUtils.dependency_name
    (indent +:+ "name = " +:+ String quote (pkg +:+ String quote trailing))
  = Some pkg.
Proof.
  intros Hi Ht Hfirst Hlast. unfold EnvUtils.dependency_name. cbv zeta.
  set (quoted := String quote (pkg +:+ String quote "")).
  assert (Hlq : last_char quoted = Some quote).
  { unfold quoted. by rewrite <- append_cons, last_char_snoc. }
  assert (Hq : trimmed quoted = true).
  { unfold trimmed. by rewrite Hlq. }
  assert (Hcore : trimmed ("name = " +:+ quoted) = true).
  { unfold trimmed. rewrite last_char_append, Hlq by done. by rewrite append_cons. }
  assert (Hline : indent +:+ "name = " +:+ String quote (pkg +:+ String quote trailing)
                  = indent +:+ ("name = " +:+ quoted) +:+ trailing).
  { unfold quoted. f_equal. rewrite !string_app_assoc. f_equal.
    by rewrite !append_cons, string_app_assoc, append_cons, append_nil. }
  rewrite Hline, strip_trimmed by done.
  unfold Str.startswith. rewrite prefix_append.
  rewrite !append_cons, append_nil. simpl Str.split_once. cbn [nth].
  assert (Hvalue : String " " quoted = " " +:+ quoted +:+ "").
  { by rewrite append_empty, append_cons, append_nil. }
  rewrite Hvalue, strip_trimmed by done.
  unfold quoted. by rewrite strip_char_quoted.
Qed.

Lemma parse_lock_values (l : list string) (acc : gmap string string) :
  (∀ name version, acc !! name = Some version → version = "") →
  ∀ name version,
    foldl (λ dependencies line,
             match EnvUtils.dependency_name line with
             | Some name => <[name := EmptyString]> dependencies
             | None => dependencies
             end) acc l !! name = Some version → version = "".
Proof.
  revert acc. induction l as [| line l IH]; intros acc Hacc; cbn [foldl]; [done |].
  apply IH. destruct (EnvUtils.dependency_name line) as [n |]; [| done].
  intros name version. destruct (decide (n = name)) as [-> | Hne].
  - rewrite lookup_insert_eq. congruence.
  - rewrite lookup_insert_ne by done. apply Hacc.
Qed.

Lemma parse_lock_keys (l : list string) (acc : gmap string string) (name : string) :
  is_Some (foldl (λ dependencies line,
                    match EnvUtils.dependency_name line with
                    | Some name => <[name := EmptyString]> dependencies
                    | None => dependencies
                    end) acc l !! name)
  ↔ is_Some (acc !! name) ∨ ∃ line, line ∈ l ∧ EnvUtils.dependency_name line = Some name.
Proof.
  revert acc. induction l as [| line l IH]; intros acc; cbn [foldl].
  - split; [by left |]. intros [H | (line & Hin & _)]; [done |]. by apply elem_of_nil in Hin.
  - rewrite IH. split.
    + intros [Hacc | (line' & Hin & Hline)].
      * destruct (EnvUtils.dependency_name line) as [n |] eqn:Hn; [| by left].
        destruct (decide (n = name)) as [-> | Hne].
        -- right. exists line. split; [apply list_elem_of_here | done].
        -- rewrite lookup_insert_ne in Hacc by done. by left.
      * right. exists line'. split; [by apply list_elem_of_further | done].
    + intros [Hacc | (line' & Hin & Hline)].
      * left. destruct (EnvUtils.dependency_name line) as [n |]; [| done].
        destruct (decide (n = name)) as [-> | Hne].
        -- rewrite lookup_insert_eq. by eexists.
        -- by rewrite lookup_insert_ne.
      * apply elem_of_cons in Hin as [-> | Hin].
        -- left. rewrite Hline, lookup_insert_eq. by eexists.
        -- right. by exists line'.
Qed.

(** X14.  When uv.lock can be read, the mapping that
    [get_project_dependencies] returns gives the empty string as the
    version of every package.  Its keys come from the lines of the text,
    one line at a time: a line whose content, between ASCII white space, is
    [name = "pkg"] gives the key pkg, provided pkg neither begins nor ends
    with a double quote. *)
Theorem get_project_dependencies_names (fs : filesystem) (project_path : path)
    (content : list Byte.byte) (text : string) :
  fs !! joinpath project_path "uv.lock" = Some (File content) →
  decode content = Ok text →
  ∃ dependencies,
    EnvUtils.get_project_dependencies fs project_path = Ok dependencies ∧
    (∀ name version, dependencies !! name = Some version → version = "") ∧
    (∀ name, is_Some (dependencies !! name) ↔
             ∃ line, line ∈ Str.split "010" text ∧
                     EnvUtils.dependency_name line = Some name) ∧
    (∀ indent pkg trailing,
       blank indent = true → blank trailing = true →
       first_char pkg ≠ Some quote → last_char pkg ≠ Some quote →
       indent +:+ "name = " +:+ String quote (pkg +:+ String quote trailing)
         ∈ Str.split "010" text →
       dependencies !! pkg = Some "").
Proof.
  intros Hlock Hd. rewrite get_project_dependencies_cases, Hlock, Hd.
  eexists. split; [done |].
  assert (Hkeys : ∀ name, is_Some (EnvUtils.parse_lock text !! name) ↔
            ∃ line, line ∈ Str.split "010" text ∧
                    EnvUtils.dependency_name line = Some name).
  { intros name. unfold EnvUtils.parse_lock. rewrite parse_lock_keys.
    rewrite lookup_empty. split; [| by right]. intros [[? [=]] | H]; done. }
  assert (Hvalues : ∀ name version,
            EnvUtils.parse_lock text !! name = Some version → version = "").
  { apply parse_lock_values. intros name version. by rewrite lookup_empty. }
  split; [done |]. split; [done |].
  intros indent pkg trailing Hi Ht Hfirst Hlast Hin.
  destruct (proj2 (Hkeys pkg)) as [version Hv].
  - eexists. split; [exact Hin |]. by apply dependency_name_quoted.
  - by rewrite Hv, (Hvalues _ _ Hv).
Qed.

Lemma get_project_dependencies_names_witness :
  ∃ dependencies,
    EnvUtils.get_project_dependencies sample_project ["proj"] = Ok dependencies ∧
    (∀ name version, dependencies !! name = Some version → version = "") ∧
    (∀ name, is_Some (dependencies !! name) ↔
             ∃ line, line ∈ Str.split "010" sample_lock ∧
                     EnvUtils.dependency_name line = Some name) ∧
    (∀ indent pkg trailing,
       blank indent = true → blank trailing = true →
       first_char pkg ≠ Some quote → last_char pkg ≠ Some quote →
       indent +:+ "name = " +:+ String quote (pkg +:+ String quote trailing)
         ∈ Str.split "010" sample_lock →
       dependencies !! pkg = Some "").
Proof.
  apply (get_project_dependencies_names sample_project ["proj"]
           (list_byte_of_string sample_lock) sample_lock).
  - reflexivity.
  - vm_compute. reflexivity.
Defined.

End Environment.

(** * Further properties of the git probes *)

Section Git.

Lemma split_nonempty (sep : ascii) (s : string) : Str.split sep s ≠ [].
Proof.
  destruct s as [| a r]; cbn [Str.split]; [done |].
  destruct (Ascii.eqb a sep); [done |]. by destruct (Str.split sep r).
Qed.

Lemma split_no_sep (sep : ascii) (s : string) :
  has_char sep s = false → Str.split sep s = [s].
Proof.
  induction s as [| a r IH]; [done |]. cbn [has_char Str.split].
  intros [Ha Hr]%orb_false_iff. by rewrite Ha, (IH Hr).
Qed.

Lemma split_append_sep (sep : ascii) (s r : string) :
  has_char sep s = false → Str.split sep (s +:+ String sep r) = s :: Str.split sep r.
Proof.
  induction s as [| a s IH].
  - intros _. rewrite append_nil. cbn [Str.split]. by rewrite Ascii.eqb_refl.
  - cbn [has_char]. intros [Ha Hs]%orb_false_iff.
    rewrite append_cons. cbn [Str.split]. by rewrite Ha, (IH Hs).
Qed.

(** No piece of a split holds the separator. *)
Lemma split_pieces (sep : ascii) (s : string) :
  Forall (λ f, has_char sep f = false) (Str.split sep s).
Proof.
  induction s as [| a r IH]; cbn [Str.split]; [by repeat constructor |].
  destruct (Ascii.eqb a sep) eqn:Ha; [by constructor |].
  destruct (Str.split sep r) as [| x xs]; [by repeat constructor; cbn; rewrite Ha |].
  apply Forall_cons in IH as [Hx Hxs]. constructor; [| done]. cbn [has_char]. by rewrite Ha, Hx.
Qed.

Lemma printed_concat (n : string) (l : list string) :
  printed (n :: l) = String.concat (String "010" "") (n :: l) +:+ String "010" "".
Proof.
  revert n. induction l as [| m l IH]; intros n.
  - cbn [printed foldr String.concat]. done.
  - change (printed (n :: m :: l)) with (n +:+ String "010" (printed (m :: l))).
    rewrite IH. cbn [String.concat].
    by rewrite !string_app_assoc, append_cons, append_nil, append_cons.
Qed.

Lemma line_name_inv (s : string) :
  line_name s = true → trimmed s = true ∧ has_char "010" s = false.
Proof.
  unfold line_name. intros [Ht Hc]%andb_true_iff. split; [done |]. by apply negb_true_iff.
Qed.

Lemma first_char_append (s t : string) :
  s ≠ "" → first_char (s +:+ t) = first_char s.
Proof. destruct s; [done |]. by rewrite append_cons. Qed.

Lemma trimmed_nonempty (s : string) : trimmed s = true → s ≠ "".
Proof. by intros Ht ->. Qed.

Lemma trimmed_concat (n : string) (l : list string) :
  Forall (λ s, trimmed s = true) (n :: l) →
  trimmed (String.concat (String "010" "") (n :: l)) = true.
Proof.
  revert n. induction l as [| m l IH]; intros n Hall.
  - cbn [String.concat]. by apply Forall_cons in Hall as [Hn _].
  - apply Forall_cons in Hall as [Hn Hl]. specialize (IH m Hl).
    change (String.concat (String "010" "") (n :: m :: l))
      with (n +:+ String "010" "" +:+ String.concat (String "010" "") (m :: l)).
    rewrite append_cons, append_nil.
    set (rest := String.concat (String "010" "") (m :: l)) in *.
    assert (Hrest : rest ≠ "") by by apply trimmed_nonempty.
    unfold trimmed in *. rewrite first_char_append by by apply trimmed_nonempty.
    rewrite last_char_append by done.
    apply andb_true_iff in Hn as [Hn _]. apply andb_true_iff in IH as [_ IH].
    rewrite Hn. cbn [last_char]. by destruct rest.
Qed.

Lemma split_concat (n : string) (l : list string) :
  Forall (λ s, has_char "010" s = false) (n :: l) →
  Str.split "010" (String.concat (String "010" "") (n :: l)) = n :: l.
Proof.
  revert n. induction l as [| m l IH]; intros n Hall.
  - cbn [String.concat]. apply split_no_sep. by apply Forall_cons in Hall as [Hn _].
  - apply Forall_cons in Hall as [Hn Hl].
    change (String.concat (String "010" "") (n :: m :: l))
      with (n +:+ String "010" "" +:+ String.concat (String "010" "") (m :: l)).
    rewrite append_cons, append_nil, split_append_sep by done. by rewrite IH.
Qed.

Lemma filter_nonempty (l : list string) :
  Forall (λ s, s ≠ "") l → filter (λ f, f ≠ EmptyString) l = l.
Proof.
  induction 1 as [| x l Hx Hl IH]; [done |].
  rewrite filter_cons, decide_True by done. by rewrite IH.
Qed.

(** The names that a command prints one per line are read back as they
    are. *)
Lemma output_lines_printed (names : list string) :
  Forall (λ n, line_name n = true) names →
  GitUtils.output_lines (printed names) = names.
Proof.
  intros Hall. destruct names as [| n l]; [done |].
  assert (Htrim : Forall (λ s, trimmed s = true) (n :: l)).
  { eapply Forall_impl; [exact Hall |]. intros s Hs. by apply line_name_inv. }
  assert (Hnl : Forall (λ s, has_char "010" s = false) (n :: l)).
  { eapply Forall_impl; [exact Hall |]. intros s Hs. by apply line_name_inv. }
  unfold GitUtils.output_lines. rewrite printed_concat.
  rewrite <- (append_nil (String.concat _ _ +:+ _)).
  rewrite strip_trimmed; [| done | done | by apply trimmed_concat].
  rewrite split_concat by done. apply filter_nonempty.
  eapply Forall_impl; [exact Htrim |]. intros s Hs. by apply trimmed_nonempty.
Qed.

(** What [output_lines] returns, whatever the output: no empty entry and
    no entry that spans lines. *)
Lemma output_lines_entries (stdout : string) :
  Forall (λ f, f ≠ "" ∧ has_char "010" f = false) (GitUtils.output_lines stdout).
Proof.
  unfold GitUtils.output_lines. apply Forall_forall. intros f Hf.
  apply list_elem_of_filter in Hf as [Hne Hin]. split; [done |].
  by apply (proj1 (Forall_forall _ _) (split_pieces "010" (Str.strip stdout))).
Qed.

(** X15.  In a repository, when the listing command ends with status 0
    and prints names one per line, each of the four listing functions
    returns exactly these names, in the order printed; no output gives the
    empty list.  A name here is any text without a line feed that begins
    and ends with an ASCII character other than white space. *)
Theorem listings_return_printed_names (run : GitUtils.executor) (directory : string)
    (names : list string) (stderr : string) :
  GitUtils.is_git_repository run directory = true →
  Forall (λ n, line_name n = true) names →
  (run ["git"; "-C"; directory; "diff"; "--cached"; "--name-only"] 10
     = GitUtils.Completed 0 (printed names) stderr →
   GitUtils.get_staged_files run directory = GitUtils.Returns names) ∧
  (run ["git"; "-C"; directory; "diff"; "--name-only"] 10
     = GitUtils.Completed 0 (printed names) stderr →
   GitUtils.get_unstaged_files run directory = GitUtils.Returns names) ∧
  (run ["git"; "-C"; directory; "ls-files"; "--others"; "--exclude-standard"] 10
     = GitUtils.Completed 0 (printed names) stderr →
   GitUtils.get_untracked_files run directory = GitUtils.Returns names) ∧
  (∀ base_ref,
     run ["git"; "-C"; directory; "diff"; "--name-only"; default "HEAD" base_ref] 10
       = GitUtils.Completed 0 (printed names) stderr →
     GitUtils.get_changed_files run directory base_ref = GitUtils.Returns names).
Proof.
  intros Hrepo Hnames.
  unfold GitUtils.get_staged_files, GitUtils.get_unstaged_files,
    GitUtils.get_untracked_files, GitUtils.get_changed_files.
  rewrite Hrepo. cbn [negb]. cbv zeta.
  repeat split; [intros Hrun .. | intros base_ref Hrun];
    unfold GitUtils.check_output; rewrite Hrun; cbn [Z.eqb];
    by rewrite output_lines_printed.
Qed.

Lemma listings_return_printed_names_witness :
  GitUtils.get_staged_files sample_git "." = GitUtils.Returns ["a.py"; "docs/read me.md"].
Proof.
  apply (listings_return_printed_names sample_git "." ["a.py"; "docs/read me.md"] "").
  - reflexivity.
  - repeat constructor.
  - reflexivity.
Defined.

(** X16.  Outside a repository the four listing functions and
    [get_file_status] raise ValueError, whatever their own command would
    do.  A list that a listing function returns never holds an empty name
    nor a name with a line feed in it. *)
Theorem listings_entries_not_empty (run : GitUtils.executor) (directory : string) :
  (GitUtils.is_git_repository run directory = false →
   let error := GitUtils.Std (ValueError ("Directory is not a Git repository: " +:+ directory)) in
   GitUtils.get_staged_files run directory = GitUtils.Raises error ∧
   GitUtils.get_unstaged_files run directory = GitUtils.Raises error ∧
   GitUtils.get_untracked_files run directory = GitUtils.Raises error ∧
   (∀ base_ref, GitUtils.get_changed_files run directory base_ref = GitUtils.Raises error) ∧
   (∀ file_path, GitUtils.get_file_status run directory file_path = GitUtils.Raises error)) ∧
  (∀ names,
     GitUtils.get_staged_files run directory = GitUtils.Returns names ∨
     GitUtils.get_unstaged_files run directory = GitUtils.Returns names ∨
     GitUtils.get_untracked_files run directory = GitUtils.Returns names ∨
     (∃ base_ref, GitUtils.get_changed_files run directory base_ref = GitUtils.Returns names) →
     GitUtils.is_git_repository run directory = true ∧
     Forall (λ f, f ≠ "" ∧ has_char "010" f = false) names).
Proof.
  unfold GitUtils.get_staged_files, GitUtils.get_unstaged_files,
    GitUtils.get_untracked_files, GitUtils.get_changed_files, GitUtils.get_file_status,
    GitUtils.not_a_repository.
  destruct (GitUtils.is_git_repository run directory); cbn [negb]; cbv zeta.
  - split; [done |]. intros names Hret. split; [done |].
    destruct Hret as [Hret | [Hret | [Hret | [base_ref Hret]]]];
      match type of Hret with
      | match ?c with _ => _ end = _ => destruct c as [stdout | e]; [| done]
      end;
      injection Hret as <-; apply output_lines_entries.
  - split; [done |]. intros names [Hret | [Hret | [Hret | [base_ref Hret]]]]; done.
Qed.

Lemma listings_entries_not_empty_witness :
  GitUtils.is_git_repository sample_git "." = true ∧
  Forall (λ f, f ≠ "" ∧ has_char "010" f = false) ["a.py"; "docs/read me.md"].
Proof.
  apply (listings_entries_not_empty sample_git "."). left. reflexivity.
Defined.

Lemma take_length (n : nat) (s : string) :
  String.length (Str.take n s) = Nat.min n (String.length s).
Proof.
  unfold Str.take. revert n. induction s as [| a s IH]; intros [| n]; cbn; [done .. |].
  by rewrite IH.
Qed.

Lemma strip_line (s : string) :
  trimmed s = true → Str.strip (s +:+ String "010" "") = s.
Proof.
  intros Hs. rewrite <- (append_nil (s +:+ _)). by apply strip_trimmed.
Qed.

(** X17.  [get_file_status] in a repository, when the status command ends
    with status 0: output of white space only gives None; a status line
    whose first column is not blank gives its two status columns; a line
    whose first column is a space gives the second column followed by the
    space that separates it from the path, because the line was stripped
    before it was cut. *)
Theorem get_file_status_columns (run : GitUtils.executor) (directory file_path : string)
    (stdout stderr : string) :
  GitUtils.is_git_repository run directory = true →
  run ["git"; "-C"; directory; "status"; "--porcelain"; file_path] 10
    = GitUtils.Completed 0 stdout stderr →
  (blank stdout = true →
   GitUtils.get_file_status run directory file_path = GitUtils.Returns None) ∧
  (∀ x y path,
     stdout = String x (String y (" " +:+ path +:+ String "010" "")) →
     trimmed path = true →
     (plain x = true →
      GitUtils.get_file_status run directory file_path
      = GitUtils.Returns (Some (String x (String y "")))) ∧
     (x = " "%char → plain y = true →
      GitUtils.get_file_status run directory file_path
      = GitUtils.Returns (Some (String y " ")))).
Proof.
  intros Hrepo Hrun. unfold GitUtils.get_file_status, GitUtils.check_output.
  rewrite Hrepo, Hrun. cbn [negb Z.eqb]. cbv zeta. split.
  - intros Hblank. by rewrite strip_blank.
  - intros x y path -> Hpath.
    apply trimmed_inv in Hpath as (a & r & b & Hp & Ha & Hb & Hpb).
    assert (Hlast : ∀ pre, last_char (pre +:+ path) = Some b).
    { intros pre. rewrite last_char_append; [done | by rewrite Hp]. }
    split.
    + intros Hx.
      assert (Hline : String x (String y (" " +:+ path +:+ String "010" ""))
                      = "" +:+ (String x (String y " ") +:+ path) +:+ String "010" "").
      { by repeat first [rewrite append_cons | rewrite append_nil]. }
      rewrite Hline, strip_trimmed;
        [by repeat first [rewrite append_cons | rewrite append_nil] | done | done |].
      unfold trimmed. rewrite Hlast, !append_cons. cbn [first_char from_option].
      by rewrite Hx, Hpb.
    + intros -> Hy.
      assert (Hline : String " " (String y (" " +:+ path +:+ String "010" ""))
                      = " " +:+ (String y " " +:+ path) +:+ String "010" "").
      { by repeat first [rewrite append_cons | rewrite append_nil]. }
      rewrite Hline, strip_trimmed;
        [rewrite Hp; by repeat first [rewrite append_cons | rewrite append_nil]
        | done | done |].
      unfold trimmed. rewrite Hlast, !append_cons. cbn [first_char from_option].
      by rewrite Hy, Hpb.
Qed.

Lemma get_file_status_columns_witness :
  GitUtils.get_file_status sample_git "." "a.py" = GitUtils.Returns (Some "M ").
Proof.
  refine (proj2 (proj2 (get_file_status_columns sample_git "." "a.py"
                          (printed [" M a.py"]) "" _ _)
                   " "%char "M"%char "a.py" _ _) _ _);
    reflexivity.
Defined.

(** X18.  [get_commit_hash]: the short form is the first seven characters
    of the long one, so it is never longer than seven; when rev-parse ends
    with status 0 and prints the hash on a line, the long form is this
    hash; the answer is None exactly when the command did not end with
    status 0. *)
Theorem get_commit_hash_short (run : GitUtils.executor) (directory : string) :
  GitUtils.get_commit_hash run directory true
    = Str.take 7 <$> GitUtils.get_commit_hash run directory false ∧
  (∀ h, GitUtils.get_commit_hash run directory true = Some h → (String.length h ≤ 7)%nat) ∧
  (∀ commit stderr,
     trimmed commit = true →
     run ["git"; "-C"; directory; "rev-parse"; "HEAD"] 5
       = GitUtils.Completed 0 (commit +:+ String "010" "") stderr →
     GitUtils.get_commit_hash run directory false = Some commit) ∧
  (GitUtils.get_commit_hash run directory false = None ↔
   ∀ stdout stderr,
     run ["git"; "-C"; directory; "rev-parse"; "HEAD"] 5
       ≠ GitUtils.Completed 0 stdout stderr).
Proof.
  unfold GitUtils.get_commit_hash. cbv zeta.
  destruct (run ["git"; "-C"; directory; "rev-parse"; "HEAD"] 5) as [rc out err | |].
  - destruct (Z.eqb_spec rc 0) as [-> | Hrc].
    + split; [done |]. split.
      { intros h [= <-]. rewrite take_length. lia. }
      split.
      { intros commit stderr Hc [= -> _]. by rewrite strip_line. }
      split; [done |]. intros Hno. by destruct (Hno out err).
    + split; [done |]. split; [done |]. split.
      { intros commit stderr _ [= -> _ _]. done. }
      split; [| done]. intros _ stdout stderr [= -> _ _]. done.
  - repeat split; try done.
  - repeat split; try done.
Qed.

Lemma get_commit_hash_short_witness :
  GitUtils.get_commit_hash sample_git "." false
  = Some "0123456789abcdef0123456789abcdef01234567".
Proof.
  refine (proj1 (proj2 (proj2 (get_commit_hash_short sample_git ".")))
            "0123456789abcdef0123456789abcdef01234567" "" _ _);
    reflexivity.
Defined.

End Git.
